(** * ArduCopterMega control core and the X-Plane simulator bridge

    A shallow embedding of the scheduler, GPS acquisition, altitude
    selection and flight-mode dispatch of the ArduCopterMega sketch, and of
    the packet handling of [SITL::XPlane], with the properties of the
    natural-language specification stated over them.

    Conventions.
    - C integers are [Z]; every arithmetic operation that can leave the
      range of its C type is wrapped explicitly ([u8], [i16], [i32], [u32],
      [u64]).  On the AVR target [byte] is 8 bits, [int] 16 bits, [long] and
      [unsigned long] 32 bits.
    - Procedures of the sketch that are defined in other files (radio,
      mixer, navigation, logging, telemetry, ...) are not interpreted: each
      call is recorded in a trace and its effect on the globals is the
      field [extern] of the platform.  A result that needs some global to
      be left alone by those procedures says so as a hypothesis [keeps].
    - Device reads ([millis()], the GPS driver, barometer, sonar) take their
      value from an input record, one per poll of [loop()].
    - Floating point values ([load], [G_Dt], the trigonometric caches) are
      not tracked. *)

From Stdlib Require Import ZArith List Bool Lia Sorted.
Import ListNotations.
Local Open Scope Z_scope.

(** ** Machine integers *)

Definition wrap_unsigned (w x : Z) : Z := x mod 2 ^ w.
Definition wrap_signed (w x : Z) : Z :=
  (x + 2 ^ (w - 1)) mod 2 ^ w - 2 ^ (w - 1).

Definition u8 : Z -> Z := wrap_unsigned 8.
Definition u32 : Z -> Z := wrap_unsigned 32.
Definition u64 : Z -> Z := wrap_unsigned 64.
Definition i16 : Z -> Z := wrap_signed 16.
Definition i32 : Z -> Z := wrap_signed 32.

(** Number of occurrences of the calls selected by [p] in a trace. *)
Definition tally {A : Type} (p : A -> bool) (t : list A) : nat :=
  length (filter p t).

Module Copter.

(** ** Data model *)

(** [control_mode]; the order is that of [flight_mode_strings]. *)
Inductive FlightMode : Set :=
  STABILIZE | ACRO | ALT_HOLD | SIMPLE | FBW | AUTO | GCS_AUTO | LOITER | RTL.

(** [altitude_sensor] *)
Inductive AltSensor : Set := BARO | SONAR.

(** [struct Location] (the fields the sketch uses here) *)
Record Location : Set := mkLoc { lat : Z; lng : Z; alt : Z }.

(** The fields of the GPS driver object [*g_gps] read by the sketch. *)
Record GPS : Set := mkGPS {
  new_data : bool;
  gps_fix : bool;      (* [g_gps->fix]; [fix] is reserved in Rocq *)
  latitude : Z;
  longitude : Z;
  altitude : Z
}.

(** Integer-valued globals and parameters.  The [g.*] parameters and radio
    channels are integers in C as well; a parameter used as a condition is
    tested against zero. *)
Inductive IVar : Set :=
  | compass_enabled | sonar_enabled | current_enabled | log_bitmask
  | rc_1_control_in | rc_2_control_in | rc_3_control_in
  | ground_start_count | GPS_failure_counter | gps_fix_count
  | nav_roll | nav_pitch | nav_bearing | wp_distance | initial_simple_bearing
  | sonar_alt | baro_alt
  | fast_loopTimer | fast_loopTimeStamp | delta_ms_fast_loop | mainLoop_count
  | G_Dt_max | medium_loopTimer | medium_loopCounter | delta_ms_medium_loop
  | slow_loopCounter | superslow_loopCounter | fbw_timer
  | nav2_loopTimer | dTnav2 | counter_one_herz | perf_mon_timer.

Scheme Equality for IVar.

Inductive Msg : Set :=
  MSG_PERF_REPORT | MSG_RADIO_OUT | MSG_ATTITUDE | MSG_LOCATION | MSG_HEARTBEAT.

(** Procedures and driver methods called by the sketch and defined
    elsewhere. *)
Inductive Call : Set :=
  | dcm_update_DCM | dcm_get_gyro | dcm_get_dcm_matrix
  | set_servos_4
  | gcs_send_message (m : Msg) | gcs_update | gcs_data_stream_send
  | read_radio
  | g_gps_update | update_GPS_light | SendDebugln
  | compass_read | compass_calculate | compass_null_offsets
  | compass_save_offsets
  | navigate | calc_loiter_nav | calc_waypoint_nav | calc_bearing_error
  | update_commands
  | Log_Write_Attitude | Log_Write_Control_Tuning | Log_Write_Nav_Tuning
  | Log_Write_GPS | Log_Write_Raw | Log_Write_Performance | Log_Write_Current
  | Log_Write_Startup
  | resetPerfData | read_current | read_trim_switch | arm_motors
  | readgcsinput | camera_stabilization
  | read_control_switch | read_battery | update_events | update_motor_light
  | auto_yaw | control_nav_mixer | fbw_nav_mixer
  | output_stabilize_roll | output_stabilize_pitch
  | output_rate_roll | output_rate_pitch
  | output_auto_throttle | output_manual_yaw | output_manual_throttle
  | read_barometer | sonar_read
  | calc_altitude_smoothing_error | calc_nav_throttle.

Scheme Equality for Msg.
Scheme Equality for Call.
Scheme Equality for FlightMode.
Scheme Equality for AltSensor.

(** The values returned by [millis()] at its call sites, in source order:
    eight in [loop()], two in the navigation case of [medium_loop()]. *)
Record Clock : Set := mkClock {
  ms_fast_check : Z;
  ms_fast_delta : Z;
  ms_fast_timer : Z;
  ms_fast_stamp : Z;
  ms_medium_check : Z;
  ms_medium_delta : Z;
  ms_medium_timer : Z;
  ms_nav_delta : Z;
  ms_nav_timer : Z;
  ms_perf_check : Z
}.

(** What the devices deliver during one poll of [loop()]. *)
Record Inputs : Set := mkInputs {
  clock : Clock;
  gps_rd : GPS;       (* the driver object after [g_gps->update()] *)
  baro_rd : Z;        (* [read_barometer()] *)
  sonar_rd : Z        (* [sonar.read()] *)
}.

(** Compile-time configuration ([config.h], [defines.h]). *)
Record Config : Set := mkConfig {
  HIL_MODE_is_ATTITUDE : bool;
  HIL_PROTOCOL_is_MAVLINK : bool;
  GCS_PROTOCOL_is_MAVLINK : bool;
  GCS_PROTOCOL_is_6 : bool;
  BATTERY_EVENT : bool;
  ENABLE_CAM : bool;
  ACRO_RATE_TRIGGER : Z;
  MASK_LOG_ATTITUDE_FAST : Z;
  MASK_LOG_ATTITUDE_MED : Z;
  MASK_LOG_GPS : Z;
  MASK_LOG_PM : Z;
  MASK_LOG_CTUN : Z;
  MASK_LOG_NTUN : Z;
  MASK_LOG_RAW : Z;
  MASK_LOG_CMD : Z;
  MASK_LOG_CUR : Z
}.

(** The globals of the sketch.  [X] stands for the globals and device state
    that are not named here. *)
Record State (X : Type) : Type := mkState {
  ivar : IVar -> Z;
  control_mode : FlightMode;
  altitude_sensor : AltSensor;
  GPS_disabled : bool;
  home_is_set : bool;
  g_gps : GPS;
  home : Location;
  current_loc : Location;
  next_WP : Location;
  env : X
}.

Arguments mkState {X}.
Arguments ivar {X}.
Arguments control_mode {X}.
Arguments altitude_sensor {X}.
Arguments GPS_disabled {X}.
Arguments home_is_set {X}.
Arguments g_gps {X}.
Arguments home {X}.
Arguments current_loc {X}.
Arguments next_WP {X}.
Arguments env {X}.

(** A procedure transforms the globals and yields the calls it made, in
    order. *)
Definition Proc (X : Type) : Type := State X -> State X * list Call.

(** What the embedding takes from the rest of the sketch and its libraries. *)
Record Platform (X : Type) : Type := mkPlatform {
  cfg : Config;
  (* effect on the globals of a procedure defined elsewhere *)
  extern : Call -> State X -> State X;
  (* navigation math *)
  get_bearing : Location -> Location -> Z;
  get_distance : Location -> Location -> Z;
  wrap_360 : Z -> Z;
  (* [(long)((float)x * .4)], the stick scaling of SIMPLE mode *)
  simple_offset : Z -> Z
}.

Arguments mkPlatform {X}.
Arguments cfg {X}.
Arguments extern {X}.
Arguments get_bearing {X}.
Arguments get_distance {X}.
Arguments wrap_360 {X}.
Arguments simple_offset {X}.

Section Globals.

Context {X : Type}.

Definition set_ivar (f : IVar -> Z) (s : State X) : State X :=
  mkState f (control_mode s) (altitude_sensor s) (GPS_disabled s)
    (home_is_set s) (g_gps s) (home s) (current_loc s) (next_WP s) (env s).
Definition set_altitude_sensor (v : AltSensor) (s : State X) : State X :=
  mkState (ivar s) (control_mode s) v (GPS_disabled s)
    (home_is_set s) (g_gps s) (home s) (current_loc s) (next_WP s) (env s).
Definition set_GPS_disabled (v : bool) (s : State X) : State X :=
  mkState (ivar s) (control_mode s) (altitude_sensor s) v
    (home_is_set s) (g_gps s) (home s) (current_loc s) (next_WP s) (env s).
Definition set_g_gps (v : GPS) (s : State X) : State X :=
  mkState (ivar s) (control_mode s) (altitude_sensor s) (GPS_disabled s)
    (home_is_set s) v (home s) (current_loc s) (next_WP s) (env s).
Definition set_home (v : Location) (s : State X) : State X :=
  mkState (ivar s) (control_mode s) (altitude_sensor s) (GPS_disabled s)
    (home_is_set s) (g_gps s) v (current_loc s) (next_WP s) (env s).
Definition set_current_loc (v : Location) (s : State X) : State X :=
  mkState (ivar s) (control_mode s) (altitude_sensor s) (GPS_disabled s)
    (home_is_set s) (g_gps s) (home s) v (next_WP s) (env s).
Definition set_next_WP (v : Location) (s : State X) : State X :=
  mkState (ivar s) (control_mode s) (altitude_sensor s) (GPS_disabled s)
    (home_is_set s) (g_gps s) (home s) (current_loc s) v (env s).

(** Read and write of an integer global. *)
Definition rd (x : IVar) (s : State X) : Z := ivar s x.
Definition wr (x : IVar) (v : Z) (s : State X) : State X :=
  set_ivar (fun y => if IVar_beq x y then v else ivar s y) s.

Definition skip : Proc X := fun s => (s, []).
Definition seq (p q : Proc X) : Proc X :=
  fun s => let (s1, t1) := p s in let (s2, t2) := q s1 in (s2, t1 ++ t2).
Definition assign (f : State X -> State X) : Proc X := fun s => (f s, []).
Definition ifte (b : State X -> bool) (p q : Proc X) : Proc X :=
  fun s => if b s then p s else q s.
Definition when (b : State X -> bool) (p : Proc X) : Proc X := ifte b p skip.
(** [switch (e) { case k: ... }] with every case ending in [break]. *)
Definition switch (e : State X -> Z) (cases : Z -> Proc X) : Proc X :=
  fun s => cases (e s) s.

End Globals.

Definition with_lat (v : Z) (l : Location) : Location := mkLoc v (lng l) (alt l).
Definition with_lng (v : Z) (l : Location) : Location := mkLoc (lat l) v (alt l).
Definition with_alt (v : Z) (l : Location) : Location := mkLoc (lat l) (lng l) v.

(** [abs(x)] on an [int]: the macro [((x)>0?(x):-(x))]. *)
Definition abs_int (x : Z) : Z := if 0 <? x then x else i16 (- x).

Notation "p ;; q" := (seq p q) (at level 61, right associativity).

Section Sketch.

Context {X : Type} (P : Platform X).

(** A call of a procedure defined elsewhere. *)
Definition call (c : Call) : Proc X := fun s => (extern P c s, [c]).

(** [g.log_bitmask & mask] used as a condition *)
Definition logging (mask : Config -> Z) (s : State X) : bool :=
  negb (Z.land (rd log_bitmask s) (mask (cfg P)) =? 0).

(** *** GPS acquisition *)

(** Modelled from the spec: [init_home()] is defined outside the files at
    hand; the specification has it latch [home] from the current fix and
    its altitude. *)
Definition init_home : Proc X :=
  assign (fun s =>
    set_home (mkLoc (latitude (g_gps s)) (longitude (g_gps s))
                    (altitude (g_gps s))) s).

Definition update_GPS (i : Inputs) : Proc X :=
  call g_gps_update ;; assign (set_g_gps (gps_rd i)) ;;
  call update_GPS_light ;;
  ifte (fun s => new_data (g_gps s) && gps_fix (g_gps s))
    (assign (wr GPS_failure_counter 3) ;;
     when (fun _ => negb (GCS_PROTOCOL_is_MAVLINK (cfg P)))
       (call (gcs_send_message MSG_LOCATION)) ;;
     assign (fun s => wr gps_fix_count (i16 (rd gps_fix_count s + 1)) s) ;;
     ifte (fun s => 1 <? rd ground_start_count s)
       (assign (fun s =>
          wr ground_start_count (u8 (rd ground_start_count s - 1)) s))
       (when (fun s => rd ground_start_count s =? 1)
          (ifte (fun s => lat (current_loc s) =? 0)
             (call SendDebugln ;;
              assign (wr ground_start_count 5))
             (when (logging MASK_LOG_CMD) (call Log_Write_Startup) ;;
              init_home ;;
              assign (fun s =>
                set_current_loc
                  (with_alt (altitude (g_gps s)) (current_loc s)) s) ;;
              assign (wr ground_start_count 0)))) ;;
     assign (fun s =>
       set_current_loc (with_lng (longitude (g_gps s)) (current_loc s)) s) ;;
     assign (fun s =>
       set_current_loc (with_lat (latitude (g_gps s)) (current_loc s)) s))
    (when (fun s => 0 <? rd GPS_failure_counter s)
       (assign (fun s =>
          wr GPS_failure_counter (u8 (rd GPS_failure_counter s - 1)) s))).

(** *** Altitude *)

Definition update_alt (i : Inputs) : Proc X :=
  ifte (fun _ => HIL_MODE_is_ATTITUDE (cfg P))
    (assign (fun s =>
       set_current_loc (with_alt (altitude (g_gps s)) (current_loc s)) s))
    (assign (set_altitude_sensor BARO) ;;
     call read_barometer ;; assign (wr baro_alt (baro_rd i)) ;;
     ifte (fun s => negb (rd sonar_enabled s =? 0))
       (call sonar_read ;; assign (wr sonar_alt (sonar_rd i)) ;;
        when (fun s => rd baro_alt s <? 550)
          (assign (set_altitude_sensor SONAR)) ;;
        when (fun s => 600 <? rd sonar_alt s)
          (assign (set_altitude_sensor BARO)) ;;
        ifte (fun s => AltSensor_beq (altitude_sensor s) BARO)
          (assign (fun s =>
             set_current_loc
               (with_alt (i32 (rd baro_alt s + alt (home s))) (current_loc s))
               s))
          (assign (fun s => wr sonar_alt (Z.min (rd sonar_alt s) 600) s) ;;
           assign (fun s =>
             set_current_loc
               (with_alt (i32 (rd sonar_alt s + alt (home s))) (current_loc s))
               s)))
       (assign (fun s =>
          set_current_loc
            (with_alt (i32 (rd baro_alt s + alt (home s))) (current_loc s))
            s))) ;;
  call calc_altitude_smoothing_error ;;
  call calc_nav_throttle.

(** *** Flight modes *)

Definition clear_nav : Proc X :=
  assign (wr nav_pitch 0) ;; assign (wr nav_roll 0).

Definition update_current_flight_mode : Proc X :=
  ifte (fun s => FlightMode_beq (control_mode s) AUTO)
    ((* [switch (command_must_ID)] has a [default] case only *)
     call auto_yaw ;;
     call control_nav_mixer ;;
     call output_stabilize_roll ;;
     call output_stabilize_pitch ;;
     call output_auto_throttle)
    (fun s =>
       match control_mode s with
       | ACRO =>
           (clear_nav ;;
            call output_manual_yaw ;;
            call output_manual_throttle ;;
            call control_nav_mixer ;;
            ifte (fun s =>
                    ACRO_RATE_TRIGGER (cfg P) <=? abs_int (rd rc_1_control_in s))
              (call output_rate_roll)
              (call output_stabilize_roll) ;;
            ifte (fun s =>
                    ACRO_RATE_TRIGGER (cfg P) <=? abs_int (rd rc_2_control_in s))
              (call output_rate_pitch)
              (call output_stabilize_pitch)) s
       | STABILIZE =>
           (clear_nav ;;
            call output_manual_yaw ;;
            call output_manual_throttle ;;
            call control_nav_mixer ;;
            call output_stabilize_roll ;;
            call output_stabilize_pitch) s
       | SIMPLE =>
           (assign (fun s => wr fbw_timer (u8 (rd fbw_timer s + 1)) s) ;;
            when (fun s => 4 <? rd fbw_timer s)
              (assign (wr fbw_timer 0) ;;
               assign (fun s => set_current_loc (with_lat 0 (current_loc s)) s) ;;
               assign (fun s => set_current_loc (with_lng 0 (current_loc s)) s) ;;
               assign (fun s =>
                 set_next_WP
                   (with_lng (simple_offset P (rd rc_1_control_in s))
                             (next_WP s)) s) ;;
               assign (fun s =>
                 set_next_WP
                   (with_lat (- simple_offset P (rd rc_2_control_in s))
                             (next_WP s)) s) ;;
               assign (fun s =>
                 wr nav_bearing
                    (i32 (get_bearing P (current_loc s) (next_WP s)
                          + rd initial_simple_bearing s)) s) ;;
               assign (fun s =>
                 wr nav_bearing (wrap_360 P (rd nav_bearing s)) s) ;;
               assign (fun s =>
                 wr wp_distance
                    (get_distance P (current_loc s) (next_WP s)) s) ;;
               call calc_bearing_error ;;
               call calc_waypoint_nav) ;;
            call output_manual_yaw ;;
            call output_manual_throttle ;;
            call fbw_nav_mixer ;;
            call output_stabilize_roll ;;
            call output_stabilize_pitch) s
       | FBW =>
           (assign (fun s => wr fbw_timer (u8 (rd fbw_timer s + 1)) s) ;;
            when (fun s => 10 <? rd fbw_timer s)
              (assign (wr fbw_timer 0) ;;
               when (fun s => GPS_disabled s)
                 (assign (fun s => set_home (with_lat 0 (home s)) s) ;;
                  assign (fun s =>
                    set_current_loc (with_lat 0 (current_loc s)) s) ;;
                  assign (fun s => set_home (with_lng 0 (home s)) s) ;;
                  assign (fun s =>
                    set_current_loc (with_lng 0 (current_loc s)) s)) ;;
               assign (fun s =>
                 set_next_WP
                   (with_lng
                      (i32 (lng (home s) + Z.quot (rd rc_1_control_in s) 2))
                      (next_WP s)) s) ;;
               assign (fun s =>
                 set_next_WP
                   (with_lat
                      (i32 (lat (home s) - Z.quot (rd rc_2_control_in s) 2))
                      (next_WP s)) s) ;;
               call calc_loiter_nav) ;;
            call output_manual_yaw ;;
            call output_manual_throttle ;;
            call fbw_nav_mixer ;;
            call output_stabilize_roll ;;
            call output_stabilize_pitch) s
       | ALT_HOLD =>
           (clear_nav ;;
            assign (fun s =>
              set_next_WP
                (with_alt (i32 (alt (home s) + rd rc_3_control_in s))
                          (next_WP s)) s) ;;
            assign (fun s =>
              set_next_WP (with_alt (Z.max (alt (next_WP s)) 30) (next_WP s))
                          s) ;;
            call output_manual_yaw ;;
            call output_auto_throttle ;;
            call control_nav_mixer ;;
            call output_stabilize_roll ;;
            call output_stabilize_pitch) s
       | RTL =>
           (call auto_yaw ;;
            call output_auto_throttle ;;
            call control_nav_mixer ;;
            call output_stabilize_roll ;;
            call output_stabilize_pitch) s
       | LOITER =>
           (call output_manual_yaw ;;
            call output_auto_throttle ;;
            call control_nav_mixer ;;
            call output_stabilize_roll ;;
            call output_stabilize_pitch) s
       | _ => skip s                                   (* [default: break] *)
       end).

(** *** Scheduler *)

Definition read_AHRS : Proc X :=
  call dcm_update_DCM ;; call dcm_get_gyro.

(** [update_trig()] caches sines and cosines of the attitude: floating point,
    no integer global is written. *)
Definition update_trig : Proc X :=
  call dcm_get_dcm_matrix.

Definition fast_loop : Proc X :=
  read_AHRS ;;
  when (fun s => rd G_Dt_max s <? rd delta_ms_fast_loop s)
    (assign (fun s => wr G_Dt_max (rd delta_ms_fast_loop s) s)) ;;
  update_current_flight_mode ;;
  call set_servos_4 ;;
  when (fun _ => HIL_PROTOCOL_is_MAVLINK (cfg P))
    (call (gcs_send_message MSG_RADIO_OUT)).

Definition slow_loop : Proc X :=
  switch (rd slow_loopCounter) (fun k =>
    match k with
    | 0 =>
        assign (fun s => wr slow_loopCounter (u8 (rd slow_loopCounter s + 1)) s) ;;
        assign (fun s =>
          wr superslow_loopCounter (i16 (rd superslow_loopCounter s + 1)) s) ;;
        when (fun s => 1400 <? rd superslow_loopCounter s)
          (when (fun _ => negb (HIL_MODE_is_ATTITUDE (cfg P)))
             (when (fun s => (rd rc_3_control_in s =? 0)
                             && negb (rd compass_enabled s =? 0))
                (call compass_save_offsets ;;
                 assign (wr superslow_loopCounter 0))))
    | 1 =>
        assign (fun s => wr slow_loopCounter (u8 (rd slow_loopCounter s + 1)) s) ;;
        call read_control_switch ;;
        when (fun _ => BATTERY_EVENT (cfg P)) (call read_battery)
    | 2 =>
        assign (wr slow_loopCounter 0) ;;
        call update_events ;;
        call update_motor_light ;;
        ifte (fun _ => GCS_PROTOCOL_is_MAVLINK (cfg P))
          (call gcs_data_stream_send)
          (call (gcs_send_message MSG_LOCATION))
    | _ => assign (wr slow_loopCounter 0)
    end).

Definition super_slow_loop : Proc X :=
  when (logging MASK_LOG_CUR) (call Log_Write_Current) ;;
  call (gcs_send_message MSG_HEARTBEAT).

Definition medium_loop (i : Inputs) : Proc X :=
  call read_radio ;;
  update_trig ;;
  switch (rd medium_loopCounter) (fun k =>
    match k with
    | 0 =>
        assign (fun s =>
          wr medium_loopCounter (u8 (rd medium_loopCounter s + 1)) s) ;;
        ifte (fun s => 0 <? rd GPS_failure_counter s)
          (update_GPS i)
          (when (fun s => rd GPS_failure_counter s =? 0)
             (assign (set_GPS_disabled true))) ;;
        when (fun s => negb (rd compass_enabled s =? 0))
          (call compass_read ;;
           call compass_calculate ;;
           call dcm_get_dcm_matrix ;;
           call compass_null_offsets)
    | 1 =>
        assign (fun s =>
          wr medium_loopCounter (u8 (rd medium_loopCounter s + 1)) s) ;;
        assign (fun s =>
          wr dTnav2 (u32 (ms_nav_delta (clock i) - rd nav2_loopTimer s)) s) ;;
        assign (wr nav2_loopTimer (ms_nav_timer (clock i))) ;;
        ifte (fun s => FlightMode_beq (control_mode s) SIMPLE)
          skip                                         (* [break] *)
          (ifte (fun s => FlightMode_beq (control_mode s) FBW)
             skip                                      (* [break] *)
             (when (fun s => new_data (g_gps s))
                (assign (fun s =>
                   set_g_gps
                     (mkGPS false (gps_fix (g_gps s)) (latitude (g_gps s))
                            (longitude (g_gps s)) (altitude (g_gps s))) s) ;;
                 call navigate) ;;
              ifte (fun s => rd wp_distance s <? 800)
                (call calc_loiter_nav)
                (call calc_waypoint_nav)))
    | 2 =>
        assign (fun s =>
          wr medium_loopCounter (u8 (rd medium_loopCounter s + 1)) s) ;;
        update_alt i ;;
        when (fun s => FlightMode_beq (control_mode s) AUTO
                       || FlightMode_beq (control_mode s) GCS_AUTO)
          (call update_commands)
    | 3 =>
        assign (fun s =>
          wr medium_loopCounter (u8 (rd medium_loopCounter s + 1)) s) ;;
        (* [&] binds weaker than [==]: the second operand is
           [g.log_bitmask & (MASK_LOG_ATTITUDE_FAST == 0)] *)
        when (fun s =>
                logging MASK_LOG_ATTITUDE_MED s
                && negb (Z.land (rd log_bitmask s)
                           (if MASK_LOG_ATTITUDE_FAST (cfg P) =? 0
                            then 1 else 0) =? 0))
          (call Log_Write_Attitude) ;;
        when (fun _ => negb (HIL_MODE_is_ATTITUDE (cfg P)))
          (when (logging MASK_LOG_CTUN) (call Log_Write_Control_Tuning)) ;;
        when (logging MASK_LOG_NTUN) (call Log_Write_Nav_Tuning) ;;
        when (logging MASK_LOG_GPS)
          (when (fun s => home_is_set s) (call Log_Write_GPS)) ;;
        call (gcs_send_message MSG_ATTITUDE)
    | 4 =>
        assign (wr medium_loopCounter 0) ;;
        when (fun s => negb (rd current_enabled s =? 0)) (call read_current) ;;
        call read_trim_switch ;;
        call arm_motors ;;
        slow_loop
    | _ => assign (wr medium_loopCounter 0)
    end) ;;
  call calc_bearing_error ;;
  when (logging MASK_LOG_ATTITUDE_FAST) (call Log_Write_Attitude) ;;
  when (fun _ => negb (HIL_MODE_is_ATTITUDE (cfg P)))
    (when (logging MASK_LOG_RAW) (call Log_Write_Raw)) ;;
  when (fun _ => GCS_PROTOCOL_is_6 (cfg P)) (call readgcsinput) ;;
  when (fun _ => ENABLE_CAM (cfg P)) (call camera_stabilization) ;;
  call gcs_update.

(** The block of [loop()] guarded by the 20 ms check. *)
Definition medium_tier (i : Inputs) : Proc X :=
  assign (fun s =>
    wr delta_ms_medium_loop
       (u8 (ms_medium_delta (clock i) - rd medium_loopTimer s)) s) ;;
  assign (wr medium_loopTimer (ms_medium_timer (clock i))) ;;
  medium_loop i ;;
  assign (fun s => wr counter_one_herz (u8 (rd counter_one_herz s + 1)) s) ;;
  when (fun s => rd counter_one_herz s =? 50)
    super_slow_loop ;;
  when (fun s => 20000 <? u32 (ms_perf_check (clock i) - rd perf_mon_timer s))
    (when (fun s => negb (rd mainLoop_count s =? 0))
       (call (gcs_send_message MSG_PERF_REPORT) ;;
        when (logging MASK_LOG_PM) (call Log_Write_Performance) ;;
        call resetPerfData)).

(** The block of [loop()] guarded by the 10 ms check. *)
Definition fast_tier (i : Inputs) : Proc X :=
  assign (fun s =>
    wr delta_ms_fast_loop
       (u8 (ms_fast_delta (clock i) - rd fast_loopTimer s)) s) ;;
  assign (wr fast_loopTimer (ms_fast_timer (clock i))) ;;
  assign (fun s => wr mainLoop_count (i16 (rd mainLoop_count s + 1)) s) ;;
  fast_loop ;;
  assign (wr fast_loopTimeStamp (ms_fast_stamp (clock i))).

Definition fast_due (i : Inputs) (s : State X) : bool :=
  9 <? u32 (ms_fast_check (clock i) - rd fast_loopTimer s).
Definition medium_due (i : Inputs) (s : State X) : bool :=
  19 <? u32 (ms_medium_check (clock i) - rd medium_loopTimer s).

Definition loop (i : Inputs) : Proc X :=
  when (fast_due i) (fast_tier i) ;;
  when (medium_due i) (medium_tier i).

(** *** Runs *)

(** Successive polls of [loop()], one input record each. *)
Fixpoint run_loop (ins : list Inputs) : Proc X :=
  match ins with
  | [] => skip
  | i :: rest => loop i ;; run_loop rest
  end.

(** Successive entries of the fast and of the medium tier. *)
Fixpoint run_fast (n : nat) : Proc X :=
  match n with
  | O => skip
  | S k => fast_loop ;; run_fast k
  end.

Fixpoint run_medium (ins : list Inputs) : Proc X :=
  match ins with
  | [] => skip
  | i :: rest => medium_loop i ;; run_medium rest
  end.

(** *** Observations on runs *)

(** The part of [medium_loop()] that precedes the distance test of the
    navigation case, in the modes that reach the test. *)
Definition before_dispatch (i : Inputs) : Proc X :=
  call read_radio ;;
  update_trig ;;
  assign (fun s =>
    wr medium_loopCounter (u8 (rd medium_loopCounter s + 1)) s) ;;
  assign (fun s =>
    wr dTnav2 (u32 (ms_nav_delta (clock i) - rd nav2_loopTimer s)) s) ;;
  assign (wr nav2_loopTimer (ms_nav_timer (clock i))) ;;
  when (fun s => new_data (g_gps s))
    (assign (fun s =>
       set_g_gps
         (mkGPS false (gps_fix (g_gps s)) (latitude (g_gps s))
                (longitude (g_gps s)) (altitude (g_gps s))) s) ;;
     call navigate).

(** The sensor chosen by each of successive calls of [update_alt()]. *)
Fixpoint run_alt (ins : list Inputs) (s : State X) : list AltSensor :=
  match ins with
  | [] => []
  | i :: rest =>
      let s1 := fst (update_alt i s) in
      altitude_sensor s1 :: run_alt rest s1
  end.

(** How many of the polls of a run entered the medium tier. *)
Fixpoint medium_entries (ins : list Inputs) (s : State X) : nat :=
  match ins with
  | [] => O
  | i :: rest =>
      ((if medium_due i (fst (when (fast_due i) (fast_tier i) s))
        then 1 else 0)
       + medium_entries rest (fst (loop i s)))%nat
  end.

(** The polls of a run of [loop()] during which the GPS driver was polled:
    those whose calls include [g_gps->update()]. *)
Fixpoint gps_polls (ins : list Inputs) (s : State X) : list Inputs :=
  match ins with
  | [] => []
  | i :: rest =>
      (if (tally (Call_beq g_gps_update) (snd (loop i s)) =? 0)%nat
       then [] else [i])
      ++ gps_polls rest (fst (loop i s))
  end.

End Sketch.

(** The procedures defined elsewhere leave the observation [f] alone. *)
Definition keeps {X T : Type} (P : Platform X) (f : State X -> T) : Prop :=
  forall c s, f (extern P c s) = f s.

(** Run from [s], the procedure [p] leaves the observation [f] as it was. *)
Definition stable_at {X T : Type} (f : State X -> T) (p : Proc X) (s : State X)
  : Prop :=
  f (fst (p s)) = f s.

(** Run from [s], the procedure [p] makes none of the calls selected by
    [h]. *)
Definition silent_at {X : Type} (h : Call -> bool) (p : Proc X) (s : State X)
  : Prop :=
  tally h (snd (p s)) = 0%nat.

(** The driver reports a new fix with lock. *)
Definition valid_fix (i : Inputs) : bool :=
  new_data (gps_rd i) && gps_fix (gps_rd i).

Definition fix_location (i : Inputs) : Location :=
  mkLoc (latitude (gps_rd i)) (longitude (gps_rd i)) (altitude (gps_rd i)).

(** The countdown of good fixes, [home] and the stored latitude. *)
Definition acquisition {X : Type} (s : State X) : Z * Location * Z :=
  (rd ground_start_count s, home s, lat (current_loc s)).

(** The mode, and the two globals by which the GPS is given up. *)
Definition guard {X : Type} (s : State X) : FlightMode * bool * Z :=
  (control_mode s, GPS_disabled s, rd GPS_failure_counter s).

(** What [update_GPS()] does to the countdown, to [home] and to the stored
    latitude on a new fix with lock (lemma [update_GPS_acquire]). *)
Definition acquire (i : Inputs) (a : Z * Location * Z) : Z * Location * Z :=
  let '(c, h, l) := a in
  (if 1 <? c then u8 (c - 1)
   else if c =? 1 then if l =? 0 then 5 else 0 else c,
   if negb (1 <? c) && (c =? 1) && negb (l =? 0) then fix_location i else h,
   latitude (gps_rd i)).

(** The phase of the medium tier and the health of the GPS. *)
Definition health {X : Type} (s : State X) : Z * Z * bool :=
  (rd medium_loopCounter s, rd GPS_failure_counter s, GPS_disabled s).

(** Changes of value between neighbours of a list of sensor choices. *)
Fixpoint flips (l : list AltSensor) : nat :=
  match l with
  | a :: (b :: _) as rest =>
      ((if AltSensor_beq a b then 0 else 1) + flips rest)%nat
  | _ => O
  end.

(** The selection rule as the specification words it: SONAR while the
    barometric altitude is below 550 and the sonar reading below 600,
    otherwise BARO. *)
Definition spec_altitude_source (baro sonar : Z) : AltSensor :=
  if (baro <? 550) && (sonar <? 600) then SONAR else BARO.

(** *** Further observations *)

(** Yaw and throttle commands among the calls of a mode evaluation. *)
Definition is_yaw (c : Call) : bool :=
  match c with auto_yaw | output_manual_yaw => true | _ => false end.
Definition is_throttle (c : Call) : bool :=
  match c with
  | output_auto_throttle | output_manual_throttle => true
  | _ => false
  end.

(** The phase counters of [medium_loop()] and [slow_loop()] after a pass
    through their [switch]: the next case, and 0 from the last case and
    from the [default] case. *)
Definition next_medium (k : Z) : Z :=
  match k with 0 => 1 | 1 => 2 | 2 => 3 | 3 => 4 | _ => 0 end.
Definition next_slow (j : Z) : Z :=
  match j with 0 => 1 | 1 => 2 | _ => 0 end.

Definition phases {X : Type} (s : State X) : Z * Z :=
  (rd medium_loopCounter s, rd slow_loopCounter s).

(** The position in the cycle of fifteen entries of the medium tier. *)
Definition cascade {X : Type} (s : State X) : Z :=
  5 * rd slow_loopCounter s + rd medium_loopCounter s.

(** The two globals by which the GPS is given up, and the range they keep
    to. *)
Definition gps_state {X : Type} (s : State X) : Z * bool :=
  (rd GPS_failure_counter s, GPS_disabled s).

Definition healthy_range {X : Type} (s : State X) : Prop :=
  0 <= rd GPS_failure_counter s <= 3
  /\ (GPS_disabled s = true -> rd GPS_failure_counter s = 0).


End Copter.

Module XPlane.

(** ** The bridge to the simulator ([SITL::XPlane]) *)

(** Members of the base class [Aircraft]: the two integers written by
    [receive_data] and the rest. *)
Record Base (A : Type) : Type := mkBase {
  time_now_us : Z;              (* uint64_t *)
  frame_time_us : Z;
  members : A
}.

Arguments mkBase {A}.
Arguments time_now_us {A}.
Arguments frame_time_us {A}.
Arguments members {A}.

Record Bridge (A : Type) : Type := mkBridge {
  base : Base A;
  time_base_us : Z;             (* uint64_t *)
  unselected_mask : Z;          (* uint64_t *)
  connected : bool;
  last_data_time_ms : Z;        (* uint32_t *)
  xplane_frame_time : Z;        (* uint32_t *)
  data_count : Z;               (* report.data_count *)
  frame_count : Z               (* report.frame_count *)
}.

Arguments mkBridge {A}.
Arguments base {A}.
Arguments time_base_us {A}.
Arguments unselected_mask {A}.
Arguments connected {A}.
Arguments last_data_time_ms {A}.
Arguments xplane_frame_time {A}.
Arguments data_count {A}.
Arguments frame_count {A}.

(** Methods of [Aircraft] called by the bridge. *)
Inductive Method : Set :=
  update_position | time_advance | update_mag_field_bf | extrapolate_sensors.

Inductive Marker : Set := DSEL | USEL.

(** What the bridge does to the outside, in order.  A selection datagram
    carries the eight 32-bit slots of [data]; the scan filled the first
    [count] of them with data codes and the others are zero.  [count] is
    the local that the function prints; it is not part of the datagram. *)
Inductive Out : Set :=
  | Recv (wait_time_ms : Z)
  | Connect
  | Send (m : Marker) (count : nat) (data : list Z)
  | Did (m : Method).

(** What [receive_data] reads from the outside: [millis()] at its three call
    sites and the datagram returned by [socket_in.recv], if any ([recv]
    returns -1 without one). *)
Record Rx : Set := mkRx {
  rx_now : Z;
  rx_pkt : option (list Z);
  rx_ms_failed : Z;
  rx_ms_done : Z
}.

(** The parts of [receive_data] that compute in floating point, and the
    constants of the header. *)
Record Models (A L : Type) : Type := mkModels {
  required_mask : Z;
  (* the locals [loc] and [pos] at entry *)
  locals0 : L;
  (* the body of [switch (code)] on one 36-byte record *)
  decode : list Z -> Base A * Z * L -> Base A * Z * L;
  method : Method -> Base A -> Base A;
  (* [position = pos + position_zero] *)
  set_position : L -> Base A -> Base A;
  (* [accel_earth = dcm * accel_body; accel_earth.z += GRAVITY_MSS] *)
  earth_accel : Base A -> Base A;
  (* the test and the body of the home reset *)
  home_moved : L -> Base A -> bool;
  reset_home : L -> Base A -> Base A
}.

Arguments mkModels {A L}.
Arguments required_mask {A L}.
Arguments locals0 {A L}.
Arguments decode {A L}.
Arguments method {A L}.
Arguments set_position {A L}.
Arguments earth_accel {A L}.
Arguments home_moved {A L}.
Arguments reset_home {A L}.

(** [((uint64_t)1) << i] *)
Definition bit (i : Z) : Z := Z.shiftl 1 i.

(** [for (uint8_t i=0; i<64 && count<8; i++) if (bit(i) & mask)
    data[count++] = i;]  with [n] iterations left and [data] the slots
    filled so far. *)
Fixpoint scan (n : nat) (i : Z) (mask : Z) (data : list Z) : list Z :=
  match n with
  | O => data
  | S k =>
      if Z.of_nat (length data) <? 8
      then scan k (i + 1) mask
             (if negb (Z.land (bit i) mask =? 0) then data ++ [i] else data)
      else data
  end.

(** The array [data[8]] with its first slots filled by [codes]. *)
Definition slots (codes : list Z) : list Z :=
  codes ++ repeat 0 (8 - length codes).

Definition DATA : list Z := [68; 65; 84; 65].

Definition bytes_eqb (a b : list Z) : bool :=
  (length a =? length b)%nat && forallb (fun p => fst p =? snd p) (combine a b).

Section Bridge.

Context {A L : Type} (M : Models A L).

Definition set_base (v : Base A) (b : Bridge A) : Bridge A :=
  mkBridge v (time_base_us b) (unselected_mask b) (connected b)
    (last_data_time_ms b) (xplane_frame_time b) (data_count b) (frame_count b).
Definition set_time_base_us (v : Z) (b : Bridge A) : Bridge A :=
  mkBridge (base b) v (unselected_mask b) (connected b)
    (last_data_time_ms b) (xplane_frame_time b) (data_count b) (frame_count b).
Definition set_unselected_mask (v : Z) (b : Bridge A) : Bridge A :=
  mkBridge (base b) (time_base_us b) v (connected b)
    (last_data_time_ms b) (xplane_frame_time b) (data_count b) (frame_count b).
Definition set_connected (v : bool) (b : Bridge A) : Bridge A :=
  mkBridge (base b) (time_base_us b) (unselected_mask b) v
    (last_data_time_ms b) (xplane_frame_time b) (data_count b) (frame_count b).
Definition set_last_data_time_ms (v : Z) (b : Bridge A) : Bridge A :=
  mkBridge (base b) (time_base_us b) (unselected_mask b) (connected b)
    v (xplane_frame_time b) (data_count b) (frame_count b).
Definition set_xplane_frame_time (v : Z) (b : Bridge A) : Bridge A :=
  mkBridge (base b) (time_base_us b) (unselected_mask b) (connected b)
    (last_data_time_ms b) v (data_count b) (frame_count b).
Definition set_data_count (v : Z) (b : Bridge A) : Bridge A :=
  mkBridge (base b) (time_base_us b) (unselected_mask b) (connected b)
    (last_data_time_ms b) (xplane_frame_time b) v (frame_count b).
Definition set_frame_count (v : Z) (b : Bridge A) : Bridge A :=
  mkBridge (base b) (time_base_us b) (unselected_mask b) (connected b)
    (last_data_time_ms b) (xplane_frame_time b) (data_count b) v.

(** A call of a method of the base class. *)
Definition did (m : Method) (b : Bridge A) : Bridge A :=
  set_base (method M m (base b)) b.

Definition select_data (usel_mask sel_mask : Z) (b : Bridge A)
  : Bridge A * list Out :=
  let dsel := scan 64 0 sel_mask [] in
  let out_dsel :=
    if negb (length dsel =? 0)%nat
    then [Send DSEL (length dsel) (slots dsel)] else [] in
  (* only de-select an output once, so we don't fight the user *)
  let usel_mask := Z.land usel_mask (u64 (Z.lnot (unselected_mask b))) in
  let b1 := set_unselected_mask (Z.lor (unselected_mask b) usel_mask) b in
  let usel := scan 64 0 usel_mask [] in
  let out_usel :=
    if negb (length usel =? 0)%nat
    then [Send USEL (length usel) (slots usel)] else [] in
  (b1, out_dsel ++ out_usel).

(** The code after the label [failed]; [ms] is what [millis()] returns
    there. *)
Definition failed (ms : Z) (b : Bridge A) : bool * Bridge A * list Out :=
  if 200 <? u32 (ms - last_data_time_ms b)
  then (false, b, [])                      (* don't extrapolate beyond 0.2s *)
  else
    let b1 :=
      set_base (mkBase (time_now_us (base b)) 1000 (members (base b))) b in
    let b2 :=
      set_base (mkBase (u64 (time_now_us (base b1) + frame_time_us (base b1)))
                       (frame_time_us (base b1)) (members (base b1))) b1 in
    let b3 := did update_mag_field_bf
                (did time_advance
                   (did update_position (did extrapolate_sensors b2))) in
    (false, set_frame_count (u32 (frame_count b3 + 1)) b3,
     [Did extrapolate_sensors; Did update_position; Did time_advance;
      Did update_mag_field_bf]).

(** [while (len >= pkt_len)]: [n] records of 36 bytes are left at [p]. *)
Fixpoint read_records (n : nat) (p : list Z) (data_mask : Z)
    (st : Base A * Z * L) : Z * (Base A * Z * L) :=
  match n with
  | O => (data_mask, st)
  | S k =>
      let code := nth 0 p 0 in
      let data_mask' :=
        if code <? 64 then Z.lor data_mask (bit code) else data_mask in
      read_records k (skipn 36 p) data_mask' (decode M (firstn 36 p) st)
  end.

Definition pkt_length (r : option (list Z)) : Z :=
  match r with
  | Some pkt => Z.of_nat (length pkt)
  | None => -1
  end.

Definition pkt_bytes (r : option (list Z)) : list Z :=
  match r with
  | Some pkt => pkt
  | None => []
  end.

(** [len < pkt_len+5 || memcmp(pkt, "DATA", 4) != 0] *)
Definition malformed (r : option (list Z)) : bool :=
  (pkt_length r <? 36 + 5) || negb (bytes_eqb (firstn 4 (pkt_bytes r)) DATA).

Definition receive_data (i : Rx) (b : Bridge A) : bool * Bridge A * list Out :=
  let wait_time_ms :=
    if (1 <? xplane_frame_time b)
       && (u32 (last_data_time_ms b + xplane_frame_time b) <=? u32 (rx_now i + 1))
    then 10 else 1 in
  let len := pkt_length (rx_pkt i) in
  if malformed (rx_pkt i)
  then
    let '(r, b', t) := failed (rx_ms_failed i) b in
    (r, b', Recv wait_time_ms :: t)
  else
    let len := len - 5 in
    let (b0, t_conn) :=
      if connected b then (b, []) else (set_connected true b, [Connect]) in
    let '(data_mask, (bs, tb, locals)) :=
      read_records (Z.to_nat (len / 36)) (skipn 5 (pkt_bytes (rx_pkt i))) 0
        (base b0, time_base_us b0, locals0 M) in
    let b1 := set_time_base_us tb (set_base bs b0) in
    let usel := Z.land (Z.land data_mask (u64 (Z.lnot (required_mask M))))
                       (u64 (Z.lnot (unselected_mask b1))) in
    let sel := Z.land (required_mask M) (u64 (Z.lnot data_mask)) in
    if negb (data_mask =? required_mask M)
       && (negb (usel =? 0) || negb (sel =? 0))
    then
      (* ask XPlane to change what data it sends *)
      let (b2, t_sel) := select_data usel sel b1 in
      let '(r, b3, t) := failed (rx_ms_failed i) b2 in
      (r, b3, Recv wait_time_ms :: t_conn ++ t_sel ++ t)
    else
      let b2 := set_base (set_position M locals (base b1)) b1 in
      let b3 := did time_advance (did update_position b2) in
      let b4 := set_base (earth_accel M (base b3)) b3 in
      let (b5, t_home) :=
        if home_moved M locals (base b4)
        then (did time_advance
                (did update_position
                   (set_base (reset_home M locals (base b4)) b4)),
              [Did update_position; Did time_advance])
        else (b4, []) in
      let b6 := did update_mag_field_bf b5 in
      let b7 :=
        if (last_data_time_ms b6 <? rx_now i)
           && (u32 (rx_now i - last_data_time_ms b6) <? 100)
        then set_xplane_frame_time (u32 (rx_now i - last_data_time_ms b6)) b6
        else b6 in
      let b8 := set_last_data_time_ms (rx_ms_done i) b7 in
      let b9 := set_frame_count (u32 (frame_count b8 + 1))
                  (set_data_count (u32 (data_count b8 + 1)) b8) in
      (true, b9,
       Recv wait_time_ms :: t_conn
         ++ [Did update_position; Did time_advance] ++ t_home
         ++ [Did update_mag_field_bf]).

(** Operations on the bridge over its lifetime. *)
Inductive Op : Set :=
  | OpSelect (usel_mask sel_mask : Z)
  | OpReceive (i : Rx).

Definition step (o : Op) (b : Bridge A) : Bridge A * list Out :=
  match o with
  | OpSelect u s => select_data u s b
  | OpReceive i => let '(_, b', t) := receive_data i b in (b', t)
  end.

Fixpoint run (ops : list Op) (b : Bridge A) : Bridge A * list Out :=
  match ops with
  | [] => (b, [])
  | o :: rest =>
      let (b1, t1) := step o b in
      let (b2, t2) := run rest b1 in
      (b2, t1 ++ t2)
  end.

End Bridge.

(** The 32-bit slots of the de-selection requests of a trace, as they go
    out: [send(&usel, sizeof(usel))] transmits all eight slots of every
    request, the filled ones and the zero-initialised ones alike, and the
    number of filled slots is not part of the datagram. *)
Fixpoint deselected (t : list Out) : list Z :=
  match t with
  | [] => []
  | Send USEL _ data :: rest => data ++ deselected rest
  | _ :: rest => deselected rest
  end.

(** The slots that hold a code other than 0. *)
Definition nonzero (l : list Z) : list Z :=
  filter (fun c => negb (c =? 0)) l.

(** A request as [select_data] builds it: eight slots, between one and
    eight of them filled by the scan, the others zero. *)
Definition padded (o : Out) : Prop :=
  match o with
  | Send _ count data =>
      (1 <= count <= 8)%nat
      /\ length data = 8%nat
      /\ skipn count data = repeat 0 (8 - count)
  | _ => True
  end.

(** Going from [b] to [b'] with the trace [t] keeps the de-selected codes,
    and the non-zero slots of its requests hold only codes that were not
    de-selected in [b], each once, and records them. *)
Definition deselects_afresh {A : Type} (b b' : Bridge A) (t : list Out)
  : Prop :=
  (forall c, Z.testbit (unselected_mask b) c = true ->
             Z.testbit (unselected_mask b') c = true)
  /\ NoDup (nonzero (deselected t))
  /\ (forall c, In c (nonzero (deselected t)) ->
                Z.testbit (unselected_mask b) c = false
                /\ Z.testbit (unselected_mask b') c = true).

(** *** Further observations *)

(** The codes whose bit is set in [mask], in ascending order. *)
Definition set_bits (mask : Z) : list Z :=
  filter (Z.testbit mask) (map Z.of_nat (List.seq 0 64)).

(** The datagram sent for the codes found by a scan, if any. *)
Definition request (m : Marker) (codes : list Z) : list Out :=
  match codes with
  | [] => []
  | _ :: _ => [Send m (length codes) (slots codes)]
  end.

(** The data codes of [n] records of 36 bytes at [p]: the first byte of
    each. *)
Fixpoint record_codes (n : nat) (p : list Z) : list Z :=
  match n with
  | O => []
  | S k => nth 0 p 0 :: record_codes k (skipn 36 p)
  end.

(** [data_mask] after the records with these codes, from [m]. *)
Definition mask_of (codes : list Z) (m : Z) : Z :=
  fold_left (fun m c => if c <? 64 then Z.lor m (bit c) else m) codes m.

Definition is_connect (o : Out) : bool :=
  match o with Connect => true | _ => false end.

(** What one call can do to the fields of the bridge that the report and
    the receive timeout read. *)
Definition steps_to {A : Type} (b b' : Bridge A) (t : list Out) : Prop :=
  (connected b = true -> connected b' = true)
  /\ tally is_connect t
     = (if negb (connected b) && connected b' then 1%nat else 0%nat)
  /\ (xplane_frame_time b' = xplane_frame_time b
      \/ 0 <= xplane_frame_time b' < 100)
  /\ ((frame_count b' = frame_count b /\ data_count b' = data_count b)
      \/ (frame_count b' = u32 (frame_count b + 1)
          /\ (data_count b' = data_count b
              \/ data_count b' = u32 (data_count b + 1)))).

End XPlane.

(** ** Reference instances *)

Module Bench.

Import Copter.

(** A build with the MAVLink ground station and real sensors; the log masks
    are distinct bits. *)
Definition bench_cfg : Config :=
  mkConfig false false true false false false 4200 1 2 4 8 16 32 64 128 256.

(** A platform whose outside procedures leave the globals alone. *)
Definition quiet : Platform unit :=
  mkPlatform bench_cfg (fun _ s => s)
    (fun _ _ => 0) (fun _ _ => 0) (fun x => x mod 36000)
    (fun x => Z.quot (2 * x) 5).

(** The globals as their initialisers leave them. *)
Definition power_on : State unit :=
  mkState
    (fun x =>
       match x with
       | ground_start_count => 5
       | GPS_failure_counter => 3
       | _ => 0
       end)
    STABILIZE BARO false false (mkGPS false false 0 0 0)
    (mkLoc 0 0 0) (mkLoc 0 0 0) (mkLoc 0 0 0) tt.

Definition at_rest : Clock := mkClock 0 0 0 0 0 0 0 0 0 0.

(** A poll during which the GPS delivers a new fix with lock. *)
Definition fix_at (la lo al : Z) : Inputs :=
  mkInputs at_rest (mkGPS true true la lo al) 0 0.

(** A poll at [t] milliseconds during which the GPS holds a new fix with
    lock, and [n] such polls, 20 ms apart, the latitude growing by one from
    poll to poll. *)
Definition fix_poll (t la lo al : Z) : Inputs :=
  mkInputs (mkClock t t t t t t t t t t) (mkGPS true true la lo al) 0 0.

Definition fix_polls (n : nat) (la lo al : Z) : list Inputs :=
  map (fun k => fix_poll (20 * Z.of_nat k) (la + Z.of_nat k) lo al)
      (List.seq 1 n).

(** A poll during which the GPS delivers nothing new. *)
Definition no_fix : Inputs :=
  mkInputs at_rest (mkGPS false false 0 0 0) 0 0.

(** A poll with the given barometer and sonar readings. *)
Definition altitudes (baro sonar : Z) : Inputs :=
  mkInputs at_rest (mkGPS false false 0 0 0) baro sonar.

(** A poll at [t] milliseconds. *)
Definition poll_at (t : Z) : Inputs :=
  mkInputs (mkClock t t t t t t t t t t) (mkGPS false false 0 0 0) 0 0.

(** [n] polls, 20 ms apart. *)
Definition polls (n : nat) : list Inputs :=
  map (fun k => poll_at (20 * Z.of_nat k)) (List.seq 1 n).

(** [s] with the mode switch in position [m]. *)
Definition in_mode (m : FlightMode) (s : State unit) : State unit :=
  mkState (ivar s) m (altitude_sensor s) (GPS_disabled s) (home_is_set s)
    (g_gps s) (home s) (current_loc s) (next_WP s) (env s).

End Bench.

Module BridgeBench.

Import XPlane.

(** A model whose floating point parts do nothing; the required codes are
    1, 3 and 4. *)
Definition idle : Models unit unit :=
  mkModels 26 tt (fun _ st => st) (fun _ a => a) (fun _ a => a)
    (fun a => a) (fun _ _ => false) (fun _ a => a).

(** The bridge before the first datagram. *)
Definition unconnected : Bridge unit :=
  mkBridge (mkBase 0 0 tt) 0 0 false 0 0 0 0.

(** A record of 36 bytes with the data code [c], and a DATA datagram with
    one record for each of [codes]. *)
Definition record (c : Z) : list Z := c :: repeat 0 35.
Definition datagram (codes : list Z) : list Z :=
  DATA ++ [48] ++ concat (map record codes).

End BridgeBench.

(** ** Properties of the control core *)

Module CopterFacts.

Import Copter.

(** *** Sequencing lemmas *)

Section Combinators.

Context {X : Type}.

Lemma fst_seq (p q : Proc X) s : fst ((p ;; q) s) = fst (q (fst (p s))).
Proof. unfold seq. destruct (p s) as [s1 t1]. cbn. now destruct (q s1). Qed.

Lemma snd_seq (p q : Proc X) s :
  snd ((p ;; q) s) = snd (p s) ++ snd (q (fst (p s))).
Proof. unfold seq. destruct (p s) as [s1 t1]. cbn. now destruct (q s1). Qed.

Lemma fst_ifte b (p q : Proc X) s :
  fst (ifte b p q s) = if b s then fst (p s) else fst (q s).
Proof. unfold ifte. now destruct (b s). Qed.

Lemma snd_ifte b (p q : Proc X) s :
  snd (ifte b p q s) = if b s then snd (p s) else snd (q s).
Proof. unfold ifte. now destruct (b s). Qed.

Lemma fst_when b (p : Proc X) s :
  fst (when b p s) = if b s then fst (p s) else s.
Proof. unfold when. now rewrite fst_ifte. Qed.

Lemma snd_when b (p : Proc X) s :
  snd (when b p s) = if b s then snd (p s) else [].
Proof. unfold when. now rewrite snd_ifte. Qed.

End Combinators.

(** *** Symbolic execution *)

Ltac st_cbn :=
  unfold rd;
  cbn [wr ivar control_mode altitude_sensor GPS_disabled home_is_set g_gps
       home current_loc next_WP env set_ivar set_altitude_sensor
       set_GPS_disabled set_g_gps set_home set_current_loc set_next_WP
       with_lat with_lng with_alt lat lng alt new_data gps_fix latitude
       longitude altitude IVar_beq fst snd andb orb negb].

Ltac open_frames :=
  repeat match goal with
         | H : keeps ?P ?f |- _ =>
             let T := eval cbv beta delta [keeps rd] in (keeps P f) in
             lazymatch goal with
             | _ : T |- _ => fail
             | _ => assert T by exact H
             end
         end.

Ltac rw_frames :=
  repeat match goal with
         | H : forall (c : Call) (s : State _), _ = _ |- _ =>
             progress (rewrite ?H)
         end.

Ltac norm := open_frames; repeat (progress (st_cbn; rw_frames)).

Ltac resolved s :=
  lazymatch s with
  | context [@fst (State _) (list Call)] => fail
  | _ => idtac
  end.

(** One step of a procedure whose state is known; a condition splits the
    goal. *)
Ltac step :=
  match goal with
  | |- context [fst ((?p ;; ?q) ?s)] => rewrite (fst_seq p q s)
  | |- context [fst (call ?Q ?c ?s)] =>
      change (fst (call Q c s)) with (extern Q c s)
  | |- context [fst (assign ?f ?s)] =>
      change (fst (assign f s)) with (f s); cbv beta
  | |- context [fst (skip ?s)] => change (fst (skip s)) with s
  | |- context [fst (when ?b ?p ?s)] =>
      resolved s; rewrite (fst_when b p s); cbv beta;
      let E := fresh "E" in
      destruct (b s) eqn:E; cbv beta in E; revert E; norm; intro E
  | |- context [fst (ifte ?b ?p ?q ?s)] =>
      resolved s; rewrite (fst_ifte b p q s); cbv beta;
      let E := fresh "E" in
      destruct (b s) eqn:E; cbv beta in E; revert E; norm; intro E
  end.

Ltac use_conditions :=
  repeat match goal with
         | H : ?b = true |- context [?b] => rewrite H
         | H : ?b = false |- context [?b] => rewrite H
         end.

(** The calls made by a procedure, one constructor at a time. *)
Ltac tstep :=
  match goal with
  | |- context [snd ((?p ;; ?q) ?s)] => rewrite (snd_seq p q s)
  | |- context [snd (call ?Q ?c ?s)] => change (snd (call Q c s)) with [c]
  | |- context [snd (assign ?f ?s)] =>
      change (snd (assign f s)) with (@nil Call)
  | |- context [snd (skip ?s)] => change (snd (skip s)) with (@nil Call)
  | |- context [snd (when ?b ?p ?s)] => rewrite (snd_when b p s); cbv beta
  | |- context [snd (ifte ?b ?p ?q ?s)] =>
      rewrite (snd_ifte b p q s); cbv beta
  end.

Ltac split_conditions :=
  repeat match goal with
         | |- context [if ?b then _ else _] => destruct b
         end.

(** Cut a trace at the pair of stabilisation calls and at the servo
    output that follows. *)
Ltac find_servo r pre post :=
  lazymatch r with
  | set_servos_4 :: ?tail => exists pre, post, tail
  | ?x :: ?r' => find_servo r' pre constr:(post ++ [x])
  end.

Ltac find_stabilisation l pre :=
  lazymatch l with
  | output_stabilize_roll :: output_stabilize_pitch :: ?r =>
      find_servo r pre constr:(@nil Call)
  | ?x :: ?r => find_stabilisation r constr:(pre ++ [x])
  end.

(** *** Procedures that leave an observation alone *)

Section Stable.

Context {X T : Type} (P : Platform X) (f : State X -> T).

Lemma stable_seq p q s :
  stable_at f p s -> stable_at f q (fst (p s)) -> stable_at f (p ;; q) s.
Proof. unfold stable_at. intros Hp Hq. now rewrite fst_seq, Hq. Qed.

Lemma stable_call c s : keeps P f -> stable_at f (call P c) s.
Proof. intros H. apply H. Qed.

Lemma stable_assign g s : f (g s) = f s -> stable_at f (assign g) s.
Proof. intros H. exact H. Qed.

Lemma stable_skip s : stable_at f skip s.
Proof. reflexivity. Qed.

Lemma stable_ifte b p q s :
  stable_at f p s -> stable_at f q s -> stable_at f (ifte b p q) s.
Proof. unfold stable_at. intros Hp Hq. rewrite fst_ifte. now destruct (b s). Qed.

Lemma stable_when b p s : stable_at f p s -> stable_at f (when b p) s.
Proof. intros Hp. apply stable_ifte; [assumption | apply stable_skip]. Qed.

Lemma stable_switch e cases s :
  stable_at f (cases (e s)) s -> stable_at f (switch e cases) s.
Proof. intros H. exact H. Qed.

End Stable.

Ltac unfold_sketch :=
  unfold loop, fast_tier, medium_tier, fast_loop, medium_loop, slow_loop,
    super_slow_loop, update_GPS, init_home, update_alt,
    update_current_flight_mode, clear_nav, read_AHRS, update_trig,
    before_dispatch.

Ltac stable :=
  lazymatch goal with
  | |- stable_at _ (?p ;; _) ?s =>
      apply stable_seq;
      [stable | let s1 := fresh "s" in generalize (fst (p s)); intro s1; stable]
  | |- stable_at _ (call _ _) _ => eapply stable_call; eassumption
  | |- stable_at _ (assign _) _ => apply stable_assign; reflexivity
  | |- stable_at _ skip _ => apply stable_skip
  | |- stable_at _ (ifte _ _ _) _ => apply stable_ifte; stable
  | |- stable_at _ (when _ _) _ => apply stable_when; stable
  | |- stable_at _ (switch _ _) _ => apply stable_switch; cbv beta; stable
  | |- stable_at _ (match ?k with _ => _ end) _ => destruct k; stable
  | |- stable_at ?f (fun s => match control_mode s with _ => _ end) ?s0 =>
      unfold stable_at; cbv beta; destruct (control_mode s0);
      lazymatch goal with
      | |- f (fst (?p ?s)) = f ?s => change (stable_at f p s)
      end; stable
  | |- stable_at _ _ _ => progress unfold_sketch; stable
  end.

(** [f (fst (p s))] is [f s] when [p] leaves [f] alone. *)
Ltac drop f :=
  match goal with
  | |- context [f (fst (?p ?s))] =>
      replace (f (fst (p s))) with (f s)
        by (symmetry; change (stable_at f p s); stable)
  end.

Lemma tally_app {A : Type} (p : A -> bool) (t1 t2 : list A) :
  tally p (t1 ++ t2) = (tally p t1 + tally p t2)%nat.
Proof. unfold tally. now rewrite filter_app, length_app. Qed.

(** *** Procedures that never make the calls selected by [h] *)

Section Silent.

Context {X : Type} (P : Platform X) (h : Call -> bool).

Lemma silent_seq p q (s : State X) :
  silent_at h p s -> silent_at h q (fst (p s)) -> silent_at h (p ;; q) s.
Proof.
  unfold silent_at. intros Hp Hq. now rewrite snd_seq, tally_app, Hp, Hq.
Qed.

Lemma silent_call c (s : State X) : h c = false -> silent_at h (call P c) s.
Proof. intros H. unfold silent_at, tally. cbn. now rewrite H. Qed.

Lemma silent_assign g (s : State X) : silent_at h (assign g) s.
Proof. reflexivity. Qed.

Lemma silent_skip (s : State X) : silent_at h skip s.
Proof. reflexivity. Qed.

Lemma silent_ifte b p q (s : State X) :
  silent_at h p s -> silent_at h q s -> silent_at h (ifte b p q) s.
Proof.
  unfold silent_at. intros Hp Hq. rewrite snd_ifte. now destruct (b s).
Qed.

Lemma silent_when b p (s : State X) :
  silent_at h p s -> silent_at h (when b p) s.
Proof. intros Hp. apply silent_ifte; [assumption | apply silent_skip]. Qed.

Lemma silent_switch e cases (s : State X) :
  silent_at h (cases (e s)) s -> silent_at h (switch e cases) s.
Proof. intros H. exact H. Qed.

End Silent.

Ltac silent :=
  lazymatch goal with
  | |- silent_at _ (?p ;; _) ?s =>
      apply silent_seq;
      [silent | let s1 := fresh "s" in generalize (fst (p s)); intro s1; silent]
  | |- silent_at _ (call _ _) _ => apply silent_call; reflexivity
  | |- silent_at _ (assign _) _ => apply silent_assign
  | |- silent_at _ skip _ => apply silent_skip
  | |- silent_at _ (ifte _ _ _) _ => apply silent_ifte; silent
  | |- silent_at _ (when _ _) _ => apply silent_when; silent
  | |- silent_at _ (switch _ _) _ => apply silent_switch; cbv beta; silent
  | |- silent_at _ (match ?k with _ => _ end) _ => destruct k; silent
  | |- silent_at ?h (fun s => match control_mode s with _ => _ end) ?s0 =>
      unfold silent_at; cbv beta; destruct (control_mode s0);
      lazymatch goal with
      | |- tally h (snd (?p ?s)) = _ => change (silent_at h p s)
      end; silent
  | |- silent_at _ _ _ => progress unfold_sketch; silent
  end.

(** Replace by 0 the tallies of the procedures that are silent. *)
Ltac mute :=
  repeat match goal with
         | |- context [tally ?h (snd (?p ?s))] =>
             replace (tally h (snd (p s))) with 0%nat
               by (symmetry; change (silent_at h p s); silent)
         end.

(** *** GPS acquisition *)

Section Acquisition.

Context {X : Type} (P : Platform X).

Hypothesis keeps_count : keeps P (rd ground_start_count).
Hypothesis keeps_loc : keeps P current_loc.
Hypothesis keeps_home : keeps P home.
Hypothesis keeps_gps : keeps P g_gps.

(** What a new fix with lock does to the countdown, to [home] and to the
    stored position. *)
Lemma update_GPS_valid i s :
  valid_fix i = true ->
  let n := rd ground_start_count s in
  let latch := negb (1 <? n) && (n =? 1) && negb (lat (current_loc s) =? 0) in
  let s' := fst (update_GPS P i s) in
  rd ground_start_count s'
  = (if 1 <? n then u8 (n - 1)
     else if n =? 1 then if lat (current_loc s) =? 0 then 5 else 0 else n)
  /\ home s' = (if latch then fix_location i else home s)
  /\ current_loc s'
     = mkLoc (latitude (gps_rd i)) (longitude (gps_rd i))
             (if latch then altitude (gps_rd i) else alt (current_loc s)).
Proof.
  unfold valid_fix. intros Hv. cbv zeta.
  unfold update_GPS, init_home, fix_location.
  repeat step.
  all: norm.
  all: try (rewrite Hv in *; discriminate).
  all: use_conditions; cbn [andb negb].
  all: repeat split; reflexivity.
Qed.

Hypothesis keeps_mode : keeps P control_mode.
Hypothesis keeps_disabled : keeps P GPS_disabled.
Hypothesis keeps_failures : keeps P (rd GPS_failure_counter).

Lemma keeps_acquisition : keeps P acquisition.
Proof.
  intros c s. unfold acquisition.
  now rewrite keeps_count, keeps_home, keeps_loc.
Qed.

Lemma keeps_guard : keeps P guard.
Proof.
  intros c s. unfold guard.
  now rewrite keeps_mode, keeps_disabled, keeps_failures.
Qed.

Lemma update_GPS_acquire i s :
  valid_fix i = true ->
  acquisition (fst (update_GPS P i s)) = acquire i (acquisition s)
  /\ guard (fst (update_GPS P i s)) = (control_mode s, GPS_disabled s, 3).
Proof.
  unfold valid_fix. intros Hv.
  unfold update_GPS, init_home, fix_location, acquisition, guard, acquire.
  repeat step.
  all: norm.
  all: try (rewrite Hv in *; discriminate).
  all: use_conditions; cbn [andb negb].
  all: split; reflexivity.
Qed.

(** The mode evaluation leaves the position and the GPS health alone,
    outside SIMPLE and with the GPS in use. *)
Lemma flight_mode_tracked s :
  control_mode s <> SIMPLE ->
  GPS_disabled s = false ->
  acquisition (fst (update_current_flight_mode P s)) = acquisition s
  /\ guard (fst (update_current_flight_mode P s)) = guard s.
Proof.
  intros Hm Hd.
  unfold update_current_flight_mode, clear_nav.
  rewrite fst_ifte. cbv beta.
  destruct (control_mode s) eqn:Em; cbn [FlightMode_beq]; try congruence.
  all: repeat step.
  all: unfold acquisition, guard; norm; rewrite ?Em, ?Hd.
  all: try (split; reflexivity).
  all: congruence.
Qed.

Lemma fast_tier_tracked i s :
  control_mode s <> SIMPLE ->
  GPS_disabled s = false ->
  acquisition (fst (fast_tier P i s)) = acquisition s
  /\ guard (fst (fast_tier P i s)) = guard s.
Proof.
  intros Hm Hd.
  pose proof keeps_acquisition as Ka. pose proof keeps_guard as Kg.
  unfold fast_tier, fast_loop. rewrite !fst_seq.
  repeat drop (@acquisition X). repeat drop (@guard X).
  match goal with
  | |- context [update_current_flight_mode P ?s0] =>
      assert (G0 : guard s0 = guard s)
        by (unfold read_AHRS; rewrite ?fst_seq; repeat drop (@guard X);
            reflexivity);
      assert (A0 : acquisition s0 = acquisition s)
        by (unfold read_AHRS; rewrite ?fst_seq;
            repeat drop (@acquisition X); reflexivity);
      destruct (flight_mode_tracked s0) as (A1 & G1)
  end.
  - unfold guard in G0. congruence.
  - unfold guard in G0. congruence.
  - split; congruence.
Qed.

Lemma fast_tier_quiet i s :
  tally (Call_beq g_gps_update) (snd (when (fast_due i) (fast_tier P i) s))
  = 0%nat.
Proof.
  match goal with
  | |- tally ?h (snd (?p ?s0)) = _ => change (silent_at h p s0)
  end.
  silent.
Qed.

Lemma update_GPS_polls i s :
  tally (Call_beq g_gps_update) (snd (update_GPS P i s)) = 1%nat.
Proof.
  unfold update_GPS. rewrite !snd_seq, !tally_app. mute. reflexivity.
Qed.

Lemma medium_loop_tracked i s :
  let n := tally (Call_beq g_gps_update) (snd (medium_loop P i s)) in
  let s' := fst (medium_loop P i s) in
  (n = 0%nat
   /\ acquisition s' = acquisition s
   /\ control_mode s' = control_mode s
   /\ (0 < rd GPS_failure_counter s -> guard s' = guard s))
  \/ (n = 1%nat
      /\ (valid_fix i = true ->
          acquisition s' = acquire i (acquisition s)
          /\ guard s' = (control_mode s, GPS_disabled s, 3))).
Proof.
  cbv zeta.
  pose proof keeps_acquisition as Ka. pose proof keeps_guard as Kg.
  unfold medium_loop. rewrite !snd_seq, !tally_app, !fst_seq. mute.
  repeat drop (@acquisition X). repeat drop (@guard X).
  repeat drop (@control_mode X).
  cbn [Nat.add]. rewrite Nat.add_0_r.
  set (s3 := fst (update_trig P (fst (call P read_radio s)))).
  assert (A3 : acquisition s3 = acquisition s)
    by (subst s3; repeat drop (@acquisition X); reflexivity).
  assert (G3 : guard s3 = guard s)
    by (subst s3; repeat drop (@guard X); reflexivity).
  rewrite <- A3, <- G3.
  replace (control_mode s) with (control_mode s3)
    by (unfold guard in G3; congruence).
  replace (GPS_disabled s) with (GPS_disabled s3)
    by (unfold guard in G3; congruence).
  replace (rd GPS_failure_counter s) with (rd GPS_failure_counter s3)
    by (unfold guard in G3; congruence).
  clearbody s3. clear A3 G3.
  unfold switch.
  destruct (rd medium_loopCounter s3) as [|p|p];
    repeat match goal with
           | |- context [match ?k with _ => _ end] => is_var k; destruct k
           end.
  all: try (left; split; [|split; [|split; [|intros _]]];
            match goal with
            | |- tally ?h (snd (?p ?s0)) = 0%nat =>
                change (silent_at h p s0); silent
            | |- ?a = ?a => reflexivity
            | |- ?f (fst (?p ?s0)) = ?f ?s0 =>
                change (stable_at f p s0); stable
            end).
  rewrite !snd_seq, !tally_app, !fst_seq. mute.
  repeat drop (@acquisition X). repeat drop (@guard X).
  rewrite snd_ifte, !fst_ifte.
  change (fst (assign ?f s3)) with (f s3). cbv beta.
  set (s4 := wr medium_loopCounter (u8 (rd medium_loopCounter s3 + 1)) s3).
  change (rd GPS_failure_counter s4) with (rd GPS_failure_counter s3).
  change (acquisition s3) with (acquisition s4).
  change (control_mode s3) with (control_mode s4).
  change (GPS_disabled s3) with (GPS_disabled s4).
  destruct (Z.ltb_spec 0 (rd GPS_failure_counter s3)) as [Hf|Hf].
  - right. split.
    + now rewrite update_GPS_polls.
    + intros Hv. now apply update_GPS_acquire.
  - left. split; [|split; [|split]].
    + rewrite snd_when. now destruct (rd GPS_failure_counter s4 =? 0).
    + rewrite fst_when. now destruct (rd GPS_failure_counter s4 =? 0).
    + reflexivity.
    + intros H. lia.
Qed.

Lemma medium_tier_tracked i s :
  let n := tally (Call_beq g_gps_update) (snd (medium_tier P i s)) in
  let s' := fst (medium_tier P i s) in
  (n = 0%nat
   /\ acquisition s' = acquisition s
   /\ control_mode s' = control_mode s
   /\ (0 < rd GPS_failure_counter s -> guard s' = guard s))
  \/ (n = 1%nat
      /\ (valid_fix i = true ->
          acquisition s' = acquire i (acquisition s)
          /\ guard s' = (control_mode s, GPS_disabled s, 3))).
Proof.
  cbv zeta.
  pose proof keeps_acquisition as Ka. pose proof keeps_guard as Kg.
  unfold medium_tier. rewrite !snd_seq, !tally_app, !fst_seq. mute.
  repeat drop (@acquisition X). repeat drop (@guard X).
  repeat drop (@control_mode X).
  cbn [Nat.add]. rewrite Nat.add_0_r.
  repeat (change (fst (assign ?f ?s0)) with (f s0); cbv beta).
  match goal with
  | |- context [medium_loop P i ?s2] => set (s2' := s2)
  end.
  assert (A2 : acquisition s2' = acquisition s) by reflexivity.
  assert (G2 : guard s2' = guard s) by reflexivity.
  destruct (medium_loop_tracked i s2') as [(N & A & Mo & G)|(N & H)];
    [left|right].
  - rewrite N, A, A2. repeat split; try reflexivity.
    intros Hf. rewrite G, G2; [reflexivity|].
    unfold guard in G2. congruence.
  - rewrite N. split; [reflexivity|]. intros Hv.
    destruct (H Hv) as (A & G). rewrite A, G, A2.
    unfold guard in G2. split; congruence.
Qed.

Lemma loop_tracked i s :
  control_mode s <> SIMPLE ->
  GPS_disabled s = false ->
  let n := tally (Call_beq g_gps_update) (snd (loop P i s)) in
  let s' := fst (loop P i s) in
  (n = 0%nat
   /\ acquisition s' = acquisition s
   /\ control_mode s' = control_mode s
   /\ (0 < rd GPS_failure_counter s -> guard s' = guard s))
  \/ (n = 1%nat
      /\ (valid_fix i = true ->
          acquisition s' = acquire i (acquisition s)
          /\ guard s' = (control_mode s, GPS_disabled s, 3))).
Proof.
  intros Hm Hd. cbv zeta.
  unfold loop. rewrite snd_seq, tally_app, fst_seq, fast_tier_quiet.
  cbn [Nat.add].
  set (s1 := fst (when (fast_due i) (fast_tier P i) s)).
  assert (H1 : acquisition s1 = acquisition s /\ guard s1 = guard s).
  { subst s1. rewrite fst_when. destruct (fast_due i s); [|now split].
    now apply fast_tier_tracked. }
  destruct H1 as (A1 & G1).
  assert (M1 : control_mode s1 = control_mode s)
    by (unfold guard in G1; congruence).
  assert (D1 : GPS_disabled s1 = GPS_disabled s)
    by (unfold guard in G1; congruence).
  assert (F1 : rd GPS_failure_counter s1 = rd GPS_failure_counter s)
    by (unfold guard in G1; congruence).
  rewrite <- A1, <- G1, <- M1, <- D1, <- F1. clearbody s1.
  rewrite snd_when, fst_when.
  destruct (medium_due i s1).
  - apply medium_tier_tracked.
  - left. repeat split; reflexivity.
Qed.

Lemma run_loop_acquires ins :
  forall s,
    control_mode s <> SIMPLE ->
    GPS_disabled s = false ->
    0 < rd GPS_failure_counter s ->
    Forall (fun i => valid_fix i = true) (gps_polls P ins s) ->
    acquisition (fst (run_loop P ins s))
    = fold_left (fun a i => acquire i a) (gps_polls P ins s) (acquisition s).
Proof.
  induction ins as [|i ins IH]; intros s Hm Hd Hf Hv; [reflexivity|].
  cbn [run_loop gps_polls] in *. rewrite fst_seq.
  destruct (loop_tracked i s Hm Hd) as [(N & A & Mo & G)|(N & H)];
    rewrite N in *; cbn [Nat.eqb app] in *.
  - specialize (G Hf). unfold guard in G.
    rewrite IH, A; congruence.
  - apply Forall_cons_iff in Hv. destruct Hv as (Hi & Hv).
    destruct (H Hi) as (A & G). unfold guard in G.
    cbn [fold_left]. rewrite IH, A; try congruence.
    injection G as _ _ G. lia.
Qed.

(** C1 (as amended).  Take a run of [loop()] that starts with a countdown
    of 5, in a mode other than SIMPLE and with the GPS in use
    ([GPS_disabled] clear, [GPS_failure_counter] positive), the mode switch
    being left alone during the run.  If the GPS is
    polled five times during the run, and each of these polls finds a new
    fix with lock and a non-zero latitude, then at the end of the run
    [home] holds the latitude, longitude and altitude of the fifth fix and
    the countdown is 0.  At a countdown of 1, a poll of the GPS that finds
    a new fix with lock while the stored latitude [current_loc.lat] is zero
    resets the countdown to 5 and leaves [home] alone: the test reads the
    stored latitude, not the fix. *)
Theorem C1_ground_start_latches_fifth_fix
    (s : State X) (ins : list Inputs) (i1 i2 i3 i4 i5 : Inputs)
    (s1 : State X) (j : Inputs) :
  control_mode s <> SIMPLE ->
  GPS_disabled s = false ->
  0 < rd GPS_failure_counter s ->
  rd ground_start_count s = 5 ->
  gps_polls P ins s = [i1; i2; i3; i4; i5] ->
  Forall (fun i => valid_fix i = true /\ latitude (gps_rd i) <> 0)
         [i1; i2; i3; i4; i5] ->
  control_mode s1 <> SIMPLE ->
  GPS_disabled s1 = false ->
  rd ground_start_count s1 = 1 ->
  lat (current_loc s1) = 0 ->
  gps_polls P [j] s1 = [j] ->
  valid_fix j = true ->
  (let s' := fst (run_loop P ins s) in
   home s' = fix_location i5 /\ rd ground_start_count s' = 0)
  /\ (let s1' := fst (loop P j s1) in
      rd ground_start_count s1' = 5 /\ home s1' = home s1).
Proof.
  intros Hm Hd Hf H5 Hp Hall Hm1 Hd1 Hone Hzero Hj Hv. cbv zeta. split.
  - assert (Hvalid : Forall (fun i => valid_fix i = true) (gps_polls P ins s)).
    { rewrite Hp. eapply Forall_impl; [|exact Hall]. now intros i (Hi & _). }
    pose proof (run_loop_acquires ins s Hm Hd Hf Hvalid) as H.
    rewrite Hp in H. unfold acquisition in H. rewrite H5 in H.
    repeat match goal with
           | H : Forall _ (_ :: _) |- _ => inversion H; subst; clear H
           end.
    repeat match goal with H : _ /\ _ |- _ => destruct H end.
    cbn [fold_left acquire] in H.
    change (1 <? 5) with true in H. cbv iota in H.
    change (u8 (5 - 1)) with 4 in H.
    change (1 <? 4) with true in H. cbv iota in H.
    change (u8 (4 - 1)) with 3 in H.
    change (1 <? 3) with true in H. cbv iota in H.
    change (u8 (3 - 1)) with 2 in H.
    change (1 <? 2) with true in H. cbv iota in H.
    change (u8 (2 - 1)) with 1 in H.
    change (1 <? 1) with false in H. change (1 =? 1) with true in H.
    cbn [negb andb] in H. cbv iota in H.
    assert (L4 : (latitude (gps_rd i4) =? 0) = false) by now apply Z.eqb_neq.
    rewrite L4 in H. cbn [negb] in H. cbv iota in H.
    injection H as Hc Hh _. now split.
  - destruct (loop_tracked j s1 Hm1 Hd1) as [(N & _)|(N & H)].
    + cbn [gps_polls] in Hj. rewrite N in Hj. discriminate Hj.
    + destruct (H Hv) as (A & _). unfold acquisition in A.
      rewrite Hone, Hzero in A. cbn [acquire] in A.
      change (1 <? 1) with false in A. change (1 =? 1) with true in A.
      change (0 =? 0) with true in A. cbn [negb andb] in A. cbv iota in A.
      injection A as Hc Hh _. now split.
Qed.

End Acquisition.

Lemma quiet_keeps {T : Type} (f : State unit -> T) : keeps Bench.quiet f.
Proof. intros c s. reflexivity. Defined.

Lemma C1_ground_start_latches_fifth_fix_witness :
  let ins := Bench.fix_polls 21 470 85 400 in
  let s1 := fst (run_loop Bench.quiet (Bench.fix_polls 20 (-16) 0 0)
                   Bench.power_on) in
  let j := Bench.fix_poll 420 475 89 440 in
  (let s' := fst (run_loop Bench.quiet ins Bench.power_on) in
   home s' = mkLoc 491 85 400 /\ rd ground_start_count s' = 0)
  /\ (let s1' := fst (loop Bench.quiet j s1) in
      rd ground_start_count s1' = 5 /\ home s1' = home s1).
Proof.
  cbv zeta.
  apply (C1_ground_start_latches_fifth_fix Bench.quiet
           (quiet_keeps _) (quiet_keeps _) (quiet_keeps _) (quiet_keeps _)
           (quiet_keeps _) (quiet_keeps _) (quiet_keeps _)
           Bench.power_on (Bench.fix_polls 21 470 85 400)
           (Bench.fix_poll 20 471 85 400) (Bench.fix_poll 120 476 85 400)
           (Bench.fix_poll 220 481 85 400) (Bench.fix_poll 320 486 85 400)
           (Bench.fix_poll 420 491 85 400)).
  - discriminate.
  - reflexivity.
  - reflexivity.
  - reflexivity.
  - vm_compute. reflexivity.
  - repeat constructor; discriminate.
  - vm_compute. discriminate.
  - vm_compute. reflexivity.
  - vm_compute. reflexivity.
  - vm_compute. reflexivity.
  - vm_compute. reflexivity.
  - reflexivity.
Defined.

(** C1 as the specification words it fails in two ways.  With the
    countdown at 1 and a position stored, a new fix with lock and zero
    coordinates is not rejected: the countdown goes to 0, not to 5, and
    [home] is latched from the zero fix.  And in SIMPLE mode good fixes do
    not latch [home]: the fast tier sets the stored latitude to zero
    between two polls of the GPS, so that the countdown restarts from 5
    each time it reaches 1; after forty consecutive good fixes [home] is
    not set. *)
Lemma C1_zero_fix_at_countdown_one_is_latched :
  let s20 := fst (run_loop Bench.quiet (Bench.fix_polls 20 470 85 400)
                    Bench.power_on) in
  let j := Bench.fix_poll 420 0 0 50 in
  let s21 := fst (loop Bench.quiet j s20) in
  let simple := Bench.in_mode SIMPLE Bench.power_on in
  let ins := Bench.fix_polls 200 470 85 400 in
  (rd ground_start_count s20 = 1
   /\ home s20 = mkLoc 0 0 0
   /\ lat (current_loc s20) = 486
   /\ gps_polls Bench.quiet [j] s20 = [j]
   /\ valid_fix j = true
   /\ fix_location j = mkLoc 0 0 50
   /\ rd ground_start_count s21 = 0
   /\ home s21 = mkLoc 0 0 50)
  /\ (length (gps_polls Bench.quiet ins simple) = 40%nat
      /\ forallb (fun i => valid_fix i
                           && negb (latitude (gps_rd i) =? 0))
           (gps_polls Bench.quiet ins simple) = true
      /\ home (fst (run_loop Bench.quiet ins simple)) = mkLoc 0 0 0
      /\ rd ground_start_count (fst (run_loop Bench.quiet ins simple)) = 5).
Proof. vm_compute. repeat split. Qed.

(** *** GPS health *)

Section Health.

Context {X : Type} (P : Platform X).

Hypothesis keeps_phase : keeps P (rd medium_loopCounter).
Hypothesis keeps_failures : keeps P (rd GPS_failure_counter).
Hypothesis keeps_disabled : keeps P GPS_disabled.
Hypothesis keeps_gps : keeps P g_gps.

Lemma keeps_health : keeps P health.
Proof.
  intros c s. unfold health.
  now rewrite keeps_phase, keeps_failures, keeps_disabled.
Qed.

Lemma update_GPS_health i s :
  let s' := fst (update_GPS P i s) in
  rd medium_loopCounter s' = rd medium_loopCounter s
  /\ rd GPS_failure_counter s'
     = (if valid_fix i then 3
        else if 0 <? rd GPS_failure_counter s
             then u8 (rd GPS_failure_counter s - 1)
             else rd GPS_failure_counter s)
  /\ GPS_disabled s' = GPS_disabled s.
Proof.
  cbv zeta. unfold update_GPS, init_home, valid_fix.
  repeat step.
  all: norm; use_conditions; repeat split; reflexivity.
Qed.

(** One entry of the medium tier, seen on the phase and on the GPS health:
    the GPS is polled in phase 0 while the failure counter is positive, and
    the counter at zero raises [GPS_disabled] instead. *)
Lemma medium_loop_health i s :
  health (fst (medium_loop P i s))
  = (let '(k, c, d) := health s in
     match k with
     | 0 =>
         (1,
          (if 0 <? c then if valid_fix i then 3 else u8 (c - 1) else c),
          (if 0 <? c then d else if c =? 0 then true else d))
     | 1 => (2, c, d)
     | 2 => (3, c, d)
     | 3 => (4, c, d)
     | _ => (0, c, d)
     end).
Proof.
  pose proof keeps_health as Hh.
  unfold medium_loop at 1. rewrite !fst_seq.
  repeat drop (@health X).
  unfold switch, update_trig. repeat step.
  unfold health at 2. norm.
  destruct (ivar s medium_loopCounter) as [|p|p] eqn:Hk;
    repeat match goal with
           | |- context [match ?k with _ => _ end] => is_var k; destruct k
           end.
  all: rewrite ?fst_seq; repeat drop (@health X).
  all: repeat step.
  all: unfold health, rd.
  all: try match goal with
           | |- context [fst (update_GPS _ ?j ?S)] =>
               let A := fresh "A" in
               let B := fresh "B" in
               let C := fresh "C" in
               pose proof (update_GPS_health j S) as A; cbv zeta in A;
               destruct A as (A & B & C);
               unfold rd in A, B, C; rewrite A, B, C
           end.
  all: norm; rewrite ?Hk; use_conditions.
  all: reflexivity.
Qed.

Lemma run_medium_cons i ins s :
  fst (run_medium P (i :: ins) s)
  = fst (run_medium P ins (fst (medium_loop P i s))).
Proof. cbn [run_medium]. now rewrite fst_seq. Qed.

Lemma run_medium_app ins1 ins2 s :
  fst (run_medium P (ins1 ++ ins2) s)
  = fst (run_medium P ins2 (fst (run_medium P ins1 s))).
Proof.
  revert s. induction ins1 as [|i ins1 IH]; intros s.
  - reflexivity.
  - cbn [app]. now rewrite !run_medium_cons, IH.
Qed.

(** A round of the five phases, started in phase 0, polls the GPS once. *)
Lemma medium_round i0 i1 i2 i3 i4 s c d :
  health s = (0, c, d) ->
  health (fst (run_medium P [i0; i1; i2; i3; i4] s))
  = (0,
     (if 0 <? c then if valid_fix i0 then 3 else u8 (c - 1) else c),
     (if 0 <? c then d else if c =? 0 then true else d)).
Proof.
  intros H0.
  rewrite !run_medium_cons. cbn [run_medium skip fst].
  rewrite medium_loop_health, medium_loop_health, medium_loop_health,
    medium_loop_health, medium_loop_health, H0.
  reflexivity.
Qed.

(** Once the counter is at zero and the GPS disabled, they stay so. *)
Lemma disabled_is_sticky ins s :
  rd GPS_failure_counter s = 0 ->
  GPS_disabled s = true ->
  rd GPS_failure_counter (fst (run_medium P ins s)) = 0
  /\ GPS_disabled (fst (run_medium P ins s)) = true.
Proof.
  revert s. induction ins as [|i ins IH]; intros s Hc Hd.
  - now split.
  - rewrite run_medium_cons.
    pose proof (medium_loop_health i s) as H.
    unfold health in H. rewrite Hc, Hd in H.
    apply IH.
    + destruct (rd medium_loopCounter s) as [|[[p|p|]|[[p|p|]|p|]|]|p];
        now inversion H.
    + destruct (rd medium_loopCounter s) as [|[[p|p|]|[[p|p|]|p|]|]|p];
        now inversion H.
Qed.

(** C2 (as amended).  Medium-tier entries are counted from phase 0, so that
    every fifth one is a GPS phase.  From a failure counter of 3, three
    rounds without a new fix with lock bring the counter to 0 and leave
    [GPS_disabled] clear; the next GPS phase sets [GPS_disabled], whatever
    the driver delivers then.  Once set, with the counter at 0, both stay
    so.  A GPS phase with a new fix with lock resets a counter of 1, 2 or
    3 to 3. *)
Theorem C2_failure_counter_disables_on_fourth_phase
    (s : State X) (ins : list Inputs) (j : Inputs)
    (s2 : State X) (ins2 : list Inputs)
    (s3 : State X) (i3 : Inputs) :
  health s = (0, 3, false) ->
  length ins = 15%nat ->
  Forall (fun i => valid_fix i = false) ins ->
  rd GPS_failure_counter s2 = 0 ->
  GPS_disabled s2 = true ->
  rd medium_loopCounter s3 = 0 ->
  0 < rd GPS_failure_counter s3 ->
  valid_fix i3 = true ->
  (health (fst (run_medium P ins s)) = (0, 0, false)
   /\ health (fst (run_medium P (ins ++ [j]) s)) = (1, 0, true))
  /\ (rd GPS_failure_counter (fst (run_medium P ins2 s2)) = 0
      /\ GPS_disabled (fst (run_medium P ins2 s2)) = true)
  /\ rd GPS_failure_counter (fst (medium_loop P i3 s3)) = 3.
Proof.
  intros Hs Hlen Hall Hc2 Hd2 Hk3 Hc3 Hv3.
  assert (Hthree : health (fst (run_medium P ins s)) = (0, 0, false)).
  { do 15 (destruct ins as [|? ins]; [discriminate Hlen|]).
    destruct ins; [|discriminate Hlen].
    repeat match goal with
           | H : Forall _ (_ :: _) |- _ => inversion H; subst; clear H
           end.
    match goal with
    | |- health (fst (run_medium P (?a :: ?b :: ?c :: ?d :: ?e :: ?r) s)) = _ =>
        change (a :: b :: c :: d :: e :: r) with ([a; b; c; d; e] ++ r);
        rewrite run_medium_app;
        assert (R1 : health (fst (run_medium P [a; b; c; d; e] s))
                     = (0, 2, false))
          by (rewrite (medium_round a b c d e s 3 false Hs);
              match goal with H : valid_fix a = false |- _ => now rewrite H end);
        set (s_1 := fst (run_medium P [a; b; c; d; e] s)) in *
    end.
    match goal with
    | |- health (fst (run_medium P (?a :: ?b :: ?c :: ?d :: ?e :: ?r) s_1)) = _ =>
        change (a :: b :: c :: d :: e :: r) with ([a; b; c; d; e] ++ r);
        rewrite run_medium_app;
        assert (R2 : health (fst (run_medium P [a; b; c; d; e] s_1))
                     = (0, 1, false))
          by (rewrite (medium_round a b c d e s_1 2 false R1);
              match goal with H : valid_fix a = false |- _ => now rewrite H end);
        set (s_2 := fst (run_medium P [a; b; c; d; e] s_1)) in *
    end.
    match goal with
    | |- health (fst (run_medium P [?a; ?b; ?c; ?d; ?e] s_2)) = _ =>
        rewrite (medium_round a b c d e s_2 1 false R2);
        match goal with H : valid_fix a = false |- _ => now rewrite H end
    end. }
  split; [split|split].
  - exact Hthree.
  - rewrite run_medium_app, run_medium_cons. cbn [run_medium skip fst].
    now rewrite medium_loop_health, Hthree.
  - now apply disabled_is_sticky.
  - pose proof (medium_loop_health i3 s3) as H.
    unfold health in H. rewrite Hk3, Hv3 in H.
    apply Z.ltb_lt in Hc3. rewrite Hc3 in H. now inversion H.
Qed.

End Health.

Lemma C2_failure_counter_disables_on_fourth_phase_witness :
  let s := Bench.power_on in
  let ins := repeat Bench.no_fix 15 in
  let j := Bench.fix_at 471 85 400 in
  let s2 := fst (run_medium Bench.quiet (repeat Bench.no_fix 16) s) in
  let ins2 := repeat j 10 in
  (health (fst (run_medium Bench.quiet ins s)) = (0, 0, false)
   /\ health (fst (run_medium Bench.quiet (ins ++ [j]) s)) = (1, 0, true))
  /\ (rd GPS_failure_counter (fst (run_medium Bench.quiet ins2 s2)) = 0
      /\ GPS_disabled (fst (run_medium Bench.quiet ins2 s2)) = true)
  /\ rd GPS_failure_counter
       (fst (medium_loop Bench.quiet j
               (fst (run_medium Bench.quiet (repeat Bench.no_fix 5) s)))) = 3.
Proof.
  cbv zeta.
  apply (C2_failure_counter_disables_on_fourth_phase Bench.quiet
           (quiet_keeps _) (quiet_keeps _) (quiet_keeps _) (quiet_keeps _)).
  - reflexivity.
  - reflexivity.
  - repeat constructor.
  - reflexivity.
  - reflexivity.
  - reflexivity.
  - vm_compute. reflexivity.
  - reflexivity.
Defined.

(** C2 as the specification words it fails twice.  After three GPS phases
    without a fix the counter is 0 and [GPS_disabled] is still clear; and
    with the counter at 0 the driver is not polled, so a new fix with lock
    leaves the counter at 0. *)
Lemma C2_three_failed_phases_leave_gps_enabled :
  let s3 := fst (run_medium Bench.quiet (repeat Bench.no_fix 15)
                   Bench.power_on) in
  let j := Bench.fix_at 471 85 400 in
  health s3 = (0, 0, false)
  /\ valid_fix j = true
  /\ rd GPS_failure_counter (fst (medium_loop Bench.quiet j s3)) = 0.
Proof. vm_compute. repeat split. Qed.

(** *** Altitude source *)

Lemma flips_sonar_then_baro n m :
  (flips (repeat SONAR n ++ repeat BARO m) <= 1)%nat.
Proof.
  induction n as [|n IH].
  - cbn [repeat app]. induction m as [|[|m] IHm]; cbn in *; lia.
  - destruct n as [|n].
    + destruct m as [|m]; cbn [repeat app flips AltSensor_beq].
      * lia.
      * change (1 + flips (repeat BARO (S m)) <= 1)%nat.
        clear IH. induction m as [|m IHm]; cbn in *; lia.
    + cbn [repeat app flips AltSensor_beq] in *. lia.
Qed.

(** On a non-decreasing sweep the readings up to 600 come first. *)
Lemma sweep_choices (l : list Z) :
  Sorted Z.le l ->
  exists n m,
    map (fun x => if negb (600 <? x) then SONAR else BARO) l
    = repeat SONAR n ++ repeat BARO m.
Proof.
  intros Hs. apply Sorted_StronglySorted in Hs; [|exact Z.le_trans].
  induction Hs as [|x l Hl IH Hx].
  - exists O, O. reflexivity.
  - destruct (600 <? x) eqn:E.
    + exists O, (S (length l)). cbn [map negb repeat app]. rewrite E. cbn [negb].
      f_equal. clear IH Hl.
      induction l as [|y l IHl]; [reflexivity|].
      inversion Hx; subst. cbn [map length repeat].
      apply Z.ltb_lt in E.
      assert (Hy : (600 <? y) = true) by (apply Z.ltb_lt; lia).
      rewrite Hy. cbn [negb]. f_equal. now apply IHl.
    + destruct IH as (n & m & IH).
      exists (S n), m. cbn [map repeat app]. rewrite E. cbn [negb].
      now rewrite IH.
Qed.

Section Altitude.

Context {X : Type} (P : Platform X).

Hypothesis keeps_sensor : keeps P altitude_sensor.
Hypothesis keeps_enabled : keeps P (rd sonar_enabled).
Hypothesis keeps_baro : keeps P (rd baro_alt).
Hypothesis keeps_sonar : keeps P (rd sonar_alt).

Lemma update_alt_choice i s :
  HIL_MODE_is_ATTITUDE (cfg P) = false ->
  rd sonar_enabled s <> 0 ->
  altitude_sensor (fst (update_alt P i s))
  = (if (baro_rd i <? 550) && negb (600 <? sonar_rd i) then SONAR else BARO).
Proof.
  intros Hhil Hen. apply Z.eqb_neq in Hen.
  unfold update_alt. rewrite !fst_seq.
  repeat drop (@altitude_sensor X).
  repeat step.
  all: norm.
  all: try congruence.
  all: repeat match goal with
              | H : _ = _ |- _ => revert H
              end; norm; intros.
  all: use_conditions; cbn [andb negb]; try reflexivity.
  all: try congruence.
  all: match goal with
       | H : negb _ = false |- _ => rewrite Hen in H; discriminate H
       end.
Qed.

Lemma update_alt_enabled i s :
  rd sonar_enabled (fst (update_alt P i s)) = rd sonar_enabled s.
Proof. change (stable_at (rd sonar_enabled) (update_alt P i) s). stable. Qed.

Lemma run_alt_choices ins s :
  HIL_MODE_is_ATTITUDE (cfg P) = false ->
  rd sonar_enabled s <> 0 ->
  run_alt P ins s
  = map (fun i =>
           if (baro_rd i <? 550) && negb (600 <? sonar_rd i)
           then SONAR else BARO) ins.
Proof.
  intros Hhil. revert s. induction ins as [|i ins IH]; intros s Hen.
  - reflexivity.
  - cbn [run_alt map]. rewrite update_alt_choice by assumption.
    f_equal. apply IH. now rewrite update_alt_enabled.
Qed.

(** C3 (as amended).  With the sonar enabled, a call of [update_alt()]
    chooses SONAR exactly when the barometric altitude is below 550 and the
    sonar reading is at most 600, and BARO otherwise.  The choice is made
    afresh from the two readings and does not depend on the sensor chosen
    before.  With the barometric altitude held at 500, a non-decreasing
    sequence of sonar readings gives a run of SONAR followed by a run of
    BARO: the source changes at most once, from SONAR to BARO when the
    reading first exceeds 600. *)
Theorem C3_altitude_source_is_memoryless
    (s s' : State X) (i : Inputs) (sweep : list Inputs) :
  HIL_MODE_is_ATTITUDE (cfg P) = false ->
  rd sonar_enabled s <> 0 ->
  rd sonar_enabled s' <> 0 ->
  Forall (fun k => baro_rd k = 500) sweep ->
  Sorted Z.le (map sonar_rd sweep) ->
  altitude_sensor (fst (update_alt P i s))
  = (if (baro_rd i <? 550) && negb (600 <? sonar_rd i) then SONAR else BARO)
  /\ altitude_sensor (fst (update_alt P i s'))
     = altitude_sensor (fst (update_alt P i s))
  /\ run_alt P sweep s
     = map (fun k => if negb (600 <? sonar_rd k) then SONAR else BARO) sweep
  /\ (exists n m, run_alt P sweep s = repeat SONAR n ++ repeat BARO m)
  /\ (flips (run_alt P sweep s) <= 1)%nat.
Proof.
  intros Hhil Hen Hen' Hbaro Hsorted.
  assert (Hrun : run_alt P sweep s
                 = map (fun k => if negb (600 <? sonar_rd k) then SONAR else BARO)
                       sweep).
  { rewrite run_alt_choices by assumption.
    apply map_ext_in. intros k Hk.
    rewrite Forall_forall in Hbaro. now rewrite (Hbaro k Hk). }
  assert (Hshape : exists n m, run_alt P sweep s = repeat SONAR n ++ repeat BARO m).
  { destruct (sweep_choices _ Hsorted) as (n & m & H).
    exists n, m. rewrite Hrun. now rewrite map_map in H. }
  repeat split.
  - now apply update_alt_choice.
  - now rewrite !update_alt_choice.
  - exact Hrun.
  - exact Hshape.
  - destruct Hshape as (n & m & ->). apply flips_sonar_then_baro.
Qed.

End Altitude.

Lemma C3_altitude_source_is_memoryless_witness :
  let s := wr sonar_enabled 1 Bench.power_on in
  let s' := set_altitude_sensor SONAR s in
  let sweep := [Bench.altitudes 500 0; Bench.altitudes 500 300;
                Bench.altitudes 500 600; Bench.altitudes 500 601;
                Bench.altitudes 500 650] in
  altitude_sensor (fst (update_alt Bench.quiet (Bench.altitudes 500 601) s))
  = BARO
  /\ altitude_sensor (fst (update_alt Bench.quiet (Bench.altitudes 500 601) s'))
     = altitude_sensor (fst (update_alt Bench.quiet (Bench.altitudes 500 601) s))
  /\ run_alt Bench.quiet sweep s = [SONAR; SONAR; SONAR; BARO; BARO]
  /\ (exists n m,
        run_alt Bench.quiet sweep s = repeat SONAR n ++ repeat BARO m)
  /\ (flips (run_alt Bench.quiet sweep s) <= 1)%nat.
Proof.
  cbv zeta.
  apply (C3_altitude_source_is_memoryless Bench.quiet
           (quiet_keeps _) (quiet_keeps _) (quiet_keeps _) (quiet_keeps _)).
  - reflexivity.
  - discriminate.
  - discriminate.
  - repeat constructor.
  - cbn. repeat constructor; discriminate.
Defined.

(** C3 as the specification words it fails at the upper threshold: with the
    barometer at 500 a sonar reading of exactly 600 is not below 600, yet
    SONAR is chosen. *)
Lemma C3_sonar_reading_600_keeps_sonar :
  let s := wr sonar_enabled 1 Bench.power_on in
  altitude_sensor (fst (update_alt Bench.quiet (Bench.altitudes 500 600) s))
  = SONAR
  /\ spec_altitude_source 500 600 = BARO.
Proof. vm_compute. split; reflexivity. Qed.

(** *** Flight modes *)

Section Modes.

Context {X : Type} (P : Platform X).

(** The calls of one mode evaluation, mode by mode.  In ACRO the stick
    deflections are read after the mixer ran. *)
Lemma flight_mode_calls s :
  snd (update_current_flight_mode P s)
  = match control_mode s with
    | AUTO =>
        [auto_yaw; control_nav_mixer; output_stabilize_roll;
         output_stabilize_pitch; output_auto_throttle]
    | STABILIZE =>
        [output_manual_yaw; output_manual_throttle; control_nav_mixer;
         output_stabilize_roll; output_stabilize_pitch]
    | SIMPLE =>
        (if 4 <? u8 (rd fbw_timer s + 1)
         then [calc_bearing_error; calc_waypoint_nav] else [])
        ++ [output_manual_yaw; output_manual_throttle; fbw_nav_mixer;
            output_stabilize_roll; output_stabilize_pitch]
    | FBW =>
        (if 10 <? u8 (rd fbw_timer s + 1) then [calc_loiter_nav] else [])
        ++ [output_manual_yaw; output_manual_throttle; fbw_nav_mixer;
            output_stabilize_roll; output_stabilize_pitch]
    | ALT_HOLD =>
        [output_manual_yaw; output_auto_throttle; control_nav_mixer;
         output_stabilize_roll; output_stabilize_pitch]
    | RTL =>
        [auto_yaw; output_auto_throttle; control_nav_mixer;
         output_stabilize_roll; output_stabilize_pitch]
    | LOITER =>
        [output_manual_yaw; output_auto_throttle; control_nav_mixer;
         output_stabilize_roll; output_stabilize_pitch]
    | GCS_AUTO => []
    | ACRO =>
        let s3 := extern P control_nav_mixer
                    (extern P output_manual_throttle
                       (extern P output_manual_yaw
                          (wr nav_roll 0 (wr nav_pitch 0 s)))) in
        let roll :=
          if ACRO_RATE_TRIGGER (cfg P) <=? abs_int (rd rc_1_control_in s3)
          then output_rate_roll else output_stabilize_roll in
        let s4 := extern P roll s3 in
        [output_manual_yaw; output_manual_throttle; control_nav_mixer; roll;
         if ACRO_RATE_TRIGGER (cfg P) <=? abs_int (rd rc_2_control_in s4)
         then output_rate_pitch else output_stabilize_pitch]
    end.
Proof.
  unfold update_current_flight_mode, clear_nav.
  rewrite snd_ifte. cbv beta.
  destruct (control_mode s) eqn:Hm; cbn [FlightMode_beq].
  all: repeat tstep.
  all: repeat step.
  all: cbn [app]; st_cbn; split_conditions; reflexivity.
Qed.

Hypothesis keeps_mode : keeps P control_mode.
Hypothesis keeps_rc_1 : keeps P (rd rc_1_control_in).
Hypothesis keeps_rc_2 : keeps P (rd rc_2_control_in).

(** The calls of one entry of the fast tier. *)
Lemma fast_loop_calls s :
  snd (fast_loop P s)
  = [dcm_update_DCM; dcm_get_gyro]
    ++ snd (update_current_flight_mode P
              (fst (when (fun s => rd G_Dt_max s <? rd delta_ms_fast_loop s)
                      (assign (fun s => wr G_Dt_max (rd delta_ms_fast_loop s) s))
                      (fst (read_AHRS P s)))))
    ++ set_servos_4
       :: (if HIL_PROTOCOL_is_MAVLINK (cfg P)
           then [gcs_send_message MSG_RADIO_OUT] else []).
Proof.
  unfold fast_loop. rewrite !snd_seq, ?fst_seq.
  unfold read_AHRS at 1. repeat tstep.
  destruct (HIL_PROTOCOL_is_MAVLINK (cfg P)); split_conditions; reflexivity.
Qed.

(** C4 (as amended).  In the modes STABILIZE, ALT_HOLD, SIMPLE, FBW, AUTO,
    LOITER and RTL every entry of the fast tier calls
    [output_stabilize_roll] and then [output_stabilize_pitch] before the
    servo output [set_servos_4].  In ACRO an axis is stabilised only while
    its stick deflection is below [ACRO_RATE_TRIGGER]; at or above it the
    axis is rate controlled instead. *)
Theorem C4_stabilisation_except_acro_rate (s sa : State X) :
  control_mode s <> ACRO ->
  control_mode s <> GCS_AUTO ->
  control_mode sa = ACRO ->
  (exists pre post tail,
      snd (fast_loop P s)
      = pre ++ output_stabilize_roll :: output_stabilize_pitch
            :: post ++ set_servos_4 :: tail
      /\ ~ In set_servos_4 pre /\ ~ In set_servos_4 post)
  /\ snd (fast_loop P sa)
     = [dcm_update_DCM; dcm_get_gyro; output_manual_yaw;
        output_manual_throttle; control_nav_mixer;
        if ACRO_RATE_TRIGGER (cfg P) <=? abs_int (rd rc_1_control_in sa)
        then output_rate_roll else output_stabilize_roll;
        if ACRO_RATE_TRIGGER (cfg P) <=? abs_int (rd rc_2_control_in sa)
        then output_rate_pitch else output_stabilize_pitch;
        set_servos_4]
       ++ (if HIL_PROTOCOL_is_MAVLINK (cfg P)
           then [gcs_send_message MSG_RADIO_OUT] else []).
Proof.
  intros Hacro Hgcs Hsa. split.
  - rewrite fast_loop_calls, flight_mode_calls.
    drop (@control_mode X). unfold read_AHRS. rewrite fst_seq.
    repeat drop (@control_mode X).
    destruct (control_mode s); try congruence.
    all: split_conditions; cbn [app].
    all: match goal with
         | |- exists pre post tail, ?l = _ /\ _ =>
             find_stabilisation l constr:(@nil Call)
         end.
    all: cbn [app In]; repeat split; try reflexivity.
    all: intros H; repeat destruct H as [H|H]; try discriminate H; exact H.
  - rewrite fast_loop_calls, flight_mode_calls.
    drop (@control_mode X). unfold read_AHRS. rewrite fst_seq.
    repeat drop (@control_mode X).
    rewrite Hsa. cbv zeta.
    repeat step. all: norm.
    all: split_conditions; reflexivity.
Qed.

End Modes.

Lemma C4_stabilisation_except_acro_rate_witness :
  let s := Bench.in_mode SIMPLE (wr fbw_timer 4 Bench.power_on) in
  let sa := Bench.in_mode ACRO (wr rc_1_control_in 100 Bench.power_on) in
  (exists pre post tail,
      snd (fast_loop Bench.quiet s)
      = pre ++ output_stabilize_roll :: output_stabilize_pitch
            :: post ++ set_servos_4 :: tail
      /\ ~ In set_servos_4 pre /\ ~ In set_servos_4 post)
  /\ snd (fast_loop Bench.quiet sa)
     = [dcm_update_DCM; dcm_get_gyro; output_manual_yaw;
        output_manual_throttle; control_nav_mixer;
        output_stabilize_roll; output_stabilize_pitch; set_servos_4].
Proof.
  cbv zeta.
  apply (C4_stabilisation_except_acro_rate Bench.quiet
           (quiet_keeps _) (quiet_keeps _) (quiet_keeps _)).
  - discriminate.
  - discriminate.
  - reflexivity.
Defined.

(** C4 as the specification words it fails.  In ACRO with the roll stick at
    4500 and the trigger at 4200 the roll axis is rate controlled and
    [output_stabilize_roll] is not called; in GCS_AUTO the mode evaluation
    calls nothing before the servo output. *)
Lemma C4_acro_roll_bypasses_stabilisation :
  let sa := Bench.in_mode ACRO (wr rc_1_control_in 4500 Bench.power_on) in
  let sg := Bench.in_mode GCS_AUTO Bench.power_on in
  ACRO_RATE_TRIGGER (cfg Bench.quiet) = 4200
  /\ snd (fast_loop Bench.quiet sa)
     = [dcm_update_DCM; dcm_get_gyro; output_manual_yaw;
        output_manual_throttle; control_nav_mixer; output_rate_roll;
        output_stabilize_pitch; set_servos_4]
  /\ ~ In output_stabilize_roll (snd (fast_loop Bench.quiet sa))
  /\ snd (fast_loop Bench.quiet sg)
     = [dcm_update_DCM; dcm_get_gyro; set_servos_4].
Proof.
  cbv zeta. repeat split.
  vm_compute. intros H. repeat destruct H as [H|H]; try discriminate H; exact H.
Qed.

(** *** SIMPLE mode *)

Section Simple.

Context {X : Type} (P : Platform X).

Hypothesis keeps_mode : keeps P control_mode.
Hypothesis keeps_timer : keeps P (rd fbw_timer).

Lemma simple_mode_state s :
  control_mode s = SIMPLE ->
  let s' := fst (update_current_flight_mode P s) in
  let t := u8 (rd fbw_timer s + 1) in
  control_mode s' = SIMPLE
  /\ rd fbw_timer s' = (if 4 <? t then 0 else t).
Proof.
  intros Hm. cbv zeta.
  unfold update_current_flight_mode.
  rewrite fst_ifte. cbv beta. rewrite Hm. cbn [FlightMode_beq].
  repeat step.
  all: norm; use_conditions; rewrite ?Hm; repeat split; try reflexivity.
Qed.

(** One entry of the fast tier in SIMPLE mode: the waypoint is recomputed
    when the incremented counter exceeds 4, and the counter restarts. *)
Lemma fast_loop_simple s :
  control_mode s = SIMPLE ->
  let s' := fst (fast_loop P s) in
  let t := u8 (rd fbw_timer s + 1) in
  control_mode s' = SIMPLE
  /\ rd fbw_timer s' = (if 4 <? t then 0 else t)
  /\ tally (Call_beq calc_waypoint_nav) (snd (fast_loop P s))
     = (if 4 <? t then 1%nat else 0%nat).
Proof.
  intros Hm. cbv zeta.
  set (s0 := fst (when (fun s => rd G_Dt_max s <? rd delta_ms_fast_loop s)
                      (assign (fun s => wr G_Dt_max (rd delta_ms_fast_loop s) s))
                      (fst (read_AHRS P s)))).
  assert (Hm0 : control_mode s0 = SIMPLE).
  { subst s0. drop (@control_mode X). unfold read_AHRS. rewrite fst_seq.
    repeat drop (@control_mode X). exact Hm. }
  assert (Ht0 : rd fbw_timer s0 = rd fbw_timer s).
  { subst s0. drop (@rd X fbw_timer). unfold read_AHRS. rewrite fst_seq.
    repeat drop (@rd X fbw_timer). reflexivity. }
  destruct (simple_mode_state s0 Hm0) as (A & B).
  rewrite Ht0 in B.
  assert (Hfst : fst (fast_loop P s)
                 = fst (when (fun _ => HIL_PROTOCOL_is_MAVLINK (cfg P))
                          (call P (gcs_send_message MSG_RADIO_OUT))
                          (fst (call P set_servos_4
                                  (fst (update_current_flight_mode P s0))))))
    by (unfold fast_loop; now rewrite !fst_seq).
  repeat split.
  - rewrite Hfst. repeat drop (@control_mode X). exact A.
  - rewrite Hfst. repeat drop (@rd X fbw_timer). exact B.
  - rewrite fast_loop_calls. fold s0. rewrite flight_mode_calls, Hm0, Ht0.
    destruct (4 <? u8 (rd fbw_timer s + 1));
      destruct (HIL_PROTOCOL_is_MAVLINK (cfg P)); reflexivity.
Qed.

Lemma run_fast_simple n :
  forall (s : State X) (t0 : nat),
    control_mode s = SIMPLE ->
    rd fbw_timer s = Z.of_nat t0 ->
    (t0 <= 4)%nat ->
    tally (Call_beq calc_waypoint_nav) (snd (run_fast P n s))
    = ((t0 + n) / 5)%nat.
Proof.
  induction n as [|n IH]; intros s t0 Hm Ht Hle.
  - cbn [run_fast skip snd tally filter length].
    rewrite Nat.add_0_r. symmetry. apply Nat.div_small. lia.
  - cbn [run_fast]. rewrite snd_seq, tally_app.
    destruct (fast_loop_simple s Hm) as (A & B & C).
    rewrite C. rewrite Ht in B |- *.
    assert (Hu : u8 (Z.of_nat t0 + 1) = Z.of_nat t0 + 1)
      by (apply Z.mod_small; lia).
    rewrite Hu in B |- *.
    destruct (4 <? Z.of_nat t0 + 1) eqn:E.
    + apply Z.ltb_lt in E. assert (t0 = 4%nat) by lia. subst t0.
      rewrite (IH _ O A B) by lia.
      replace (4 + S n)%nat with (n + 1 * 5)%nat by lia.
      rewrite Nat.div_add by lia. cbn [Nat.add]. lia.
    + apply Z.ltb_ge in E.
      rewrite (IH _ (S t0) A) by lia.
      cbn [Nat.add]. f_equal. lia.
Qed.

(** C6, what the code does.  In SIMPLE mode, starting with the counter at
    0, [n] entries of the fast tier recompute the virtual waypoint [n / 5]
    times: the gate [fbw_timer > 4] opens on every fifth tick, not on every
    fourth. *)
Theorem C6_simple_recomputes_every_fifth_tick (s : State X) (n : nat) :
  control_mode s = SIMPLE ->
  rd fbw_timer s = 0 ->
  tally (Call_beq calc_waypoint_nav) (snd (run_fast P n s)) = (n / 5)%nat.
Proof.
  intros Hm Ht. now rewrite (run_fast_simple n s O Hm Ht) by lia.
Qed.

End Simple.

Section Position.

Context {X : Type} (P : Platform X).

Hypothesis keeps_loc : keeps P current_loc.
Hypothesis keeps_count : keeps P (rd ground_start_count).
Hypothesis keeps_home : keeps P home.
Hypothesis keeps_gps : keeps P g_gps.

(** C9.  In SIMPLE mode, when the gate opens, the stored latitude and
    longitude are set to zero before bearing and distance to the virtual
    waypoint are computed, whatever the state of the GPS; the altitude is
    kept.  The position stays zero through the rest of the mode evaluation
    and is written again by the next new fix with lock. *)
Theorem C9_simple_recompute_zeroes_position (s : State X) (i : Inputs) :
  control_mode s = SIMPLE ->
  4 < u8 (rd fbw_timer s + 1) ->
  valid_fix i = true ->
  let s' := fst (update_current_flight_mode P s) in
  let zero := mkLoc 0 0 (alt (current_loc s)) in
  (exists s0,
      s' = fold_left (fun st c => extern P c st)
             [calc_bearing_error; calc_waypoint_nav; output_manual_yaw;
              output_manual_throttle; fbw_nav_mixer; output_stabilize_roll;
              output_stabilize_pitch] s0
      /\ current_loc s0 = zero
      /\ rd wp_distance s0 = get_distance P zero (next_WP s0)
      /\ rd nav_bearing s0
         = wrap_360 P (i32 (get_bearing P zero (next_WP s0)
                            + rd initial_simple_bearing s)))
  /\ current_loc s' = zero
  /\ (let s'' := fst (update_GPS P i s') in
      lat (current_loc s'') = latitude (gps_rd i)
      /\ lng (current_loc s'') = longitude (gps_rd i)).
Proof.
  intros Hm Hgate Hv. cbv zeta.
  apply Z.ltb_lt in Hgate.
  split; [|split].
  - unfold update_current_flight_mode.
    rewrite fst_ifte. cbv beta. rewrite Hm. cbn [FlightMode_beq].
    repeat step.
    + eexists. split; [cbn [fold_left]; reflexivity|].
      st_cbn. repeat split; reflexivity.
    + exfalso. revert E. st_cbn. unfold rd in Hgate. rewrite Hgate. discriminate.
  - unfold update_current_flight_mode.
    rewrite fst_ifte. cbv beta. rewrite Hm. cbn [FlightMode_beq].
    repeat step.
    + norm. reflexivity.
    + exfalso. revert E. st_cbn. unfold rd in Hgate. rewrite Hgate. discriminate.
  - destruct (update_GPS_valid P keeps_count keeps_loc keeps_home keeps_gps i
                (fst (update_current_flight_mode P s)) Hv) as (_ & _ & C).
    rewrite C. split; reflexivity.
Qed.

End Position.

Lemma C6_simple_recomputes_every_fifth_tick_witness :
  tally (Call_beq calc_waypoint_nav)
    (snd (run_fast Bench.quiet 20 (Bench.in_mode SIMPLE Bench.power_on)))
  = 4%nat.
Proof.
  apply (C6_simple_recomputes_every_fifth_tick Bench.quiet
           (quiet_keeps _) (quiet_keeps _)
           (Bench.in_mode SIMPLE Bench.power_on) 20).
  - reflexivity.
  - reflexivity.
Defined.

Lemma C9_simple_recompute_zeroes_position_witness :
  let s := Bench.in_mode SIMPLE
             (set_current_loc (mkLoc 471 85 120)
                (wr fbw_timer 4 Bench.power_on)) in
  let s' := fst (update_current_flight_mode Bench.quiet s) in
  let zero := mkLoc 0 0 120 in
  (exists s0,
      s' = fold_left (fun st c => extern Bench.quiet c st)
             [calc_bearing_error; calc_waypoint_nav; output_manual_yaw;
              output_manual_throttle; fbw_nav_mixer; output_stabilize_roll;
              output_stabilize_pitch] s0
      /\ current_loc s0 = zero
      /\ rd wp_distance s0 = get_distance Bench.quiet zero (next_WP s0)
      /\ rd nav_bearing s0
         = wrap_360 Bench.quiet
             (i32 (get_bearing Bench.quiet zero (next_WP s0)
                   + rd initial_simple_bearing s)))
  /\ current_loc s' = zero
  /\ (let s'' := fst (update_GPS Bench.quiet (Bench.fix_at 472 86 130) s') in
      lat (current_loc s'') = 472 /\ lng (current_loc s'') = 86).
Proof.
  cbv zeta.
  apply (C9_simple_recompute_zeroes_position Bench.quiet
           (quiet_keeps _) (quiet_keeps _) (quiet_keeps _) (quiet_keeps _)).
  - reflexivity.
  - reflexivity.
  - reflexivity.
Defined.

(** *** Navigation phase *)

Section Navigation.

Context {X : Type} (P : Platform X).

Hypothesis keeps_phase : keeps P (rd medium_loopCounter).
Hypothesis keeps_mode : keeps P control_mode.

Ltac nav_phase Hk :=
  unfold medium_loop;
  rewrite !snd_seq, !tally_app;
  mute;
  unfold switch, update_trig; rewrite ?fst_seq; repeat step; norm;
  unfold rd in Hk; rewrite Hk;
  repeat tstep; rewrite !tally_app;
  unfold before_dispatch, update_trig; rewrite ?fst_seq; repeat step; norm.

(** The navigation calls of an entry of the medium tier in phase 1. *)
Lemma nav_phase_calls i s :
  rd medium_loopCounter s = 1 ->
  let held := FlightMode_beq (control_mode s) SIMPLE
              || FlightMode_beq (control_mode s) FBW in
  let near := rd wp_distance (fst (before_dispatch P i s)) <? 800 in
  tally (Call_beq calc_loiter_nav) (snd (medium_loop P i s))
  = (if held then 0%nat else if near then 1%nat else 0%nat)
  /\ tally (Call_beq calc_waypoint_nav) (snd (medium_loop P i s))
     = (if held then 0%nat else if near then 0%nat else 1%nat).
Proof.
  intros Hk. cbv zeta. split.
  - nav_phase Hk.
    all: destruct (control_mode s); cbn [FlightMode_beq orb].
    all: try congruence.
    all: use_conditions; split_conditions; reflexivity.
  - nav_phase Hk.
    all: destruct (control_mode s); cbn [FlightMode_beq orb].
    all: try congruence.
    all: use_conditions; split_conditions; reflexivity.
Qed.

(** C7 (as amended).  In the navigation phase of the medium tier, in a
    mode other than SIMPLE and FBW, [calc_loiter_nav] is called, once,
    exactly when [wp_distance] is below 800 at the test (after [navigate()]
    refreshed it, if the GPS had new data), and [calc_waypoint_nav] is
    called, once, exactly when it is 800 or more.  In SIMPLE and in FBW the
    phase ends before the test and calls neither. *)
Theorem C7_dispatch_outside_simple_and_fbw (s sq : State X) (i : Inputs) :
  rd medium_loopCounter s = 1 ->
  control_mode s <> SIMPLE ->
  control_mode s <> FBW ->
  rd medium_loopCounter sq = 1 ->
  control_mode sq = SIMPLE \/ control_mode sq = FBW ->
  let d := rd wp_distance (fst (before_dispatch P i s)) in
  tally (Call_beq calc_loiter_nav) (snd (medium_loop P i s))
  = (if d <? 800 then 1%nat else 0%nat)
  /\ tally (Call_beq calc_waypoint_nav) (snd (medium_loop P i s))
     = (if d <? 800 then 0%nat else 1%nat)
  /\ tally (Call_beq calc_loiter_nav) (snd (medium_loop P i sq)) = 0%nat
  /\ tally (Call_beq calc_waypoint_nav) (snd (medium_loop P i sq)) = 0%nat.
Proof.
  intros Hk Hs Hf Hkq Hq. cbv zeta.
  destruct (nav_phase_calls i s Hk) as (A & B).
  destruct (nav_phase_calls i sq Hkq) as (C & D).
  assert (Hheld : FlightMode_beq (control_mode s) SIMPLE
                  || FlightMode_beq (control_mode s) FBW = false)
    by (destruct (control_mode s); try reflexivity; congruence).
  assert (Hheldq : FlightMode_beq (control_mode sq) SIMPLE
                   || FlightMode_beq (control_mode sq) FBW = true)
    by (destruct Hq as [-> | ->]; reflexivity).
  rewrite Hheld in A, B. rewrite Hheldq in C, D.
  repeat split; assumption.
Qed.

End Navigation.

Lemma C7_dispatch_outside_simple_and_fbw_witness :
  let s := Bench.in_mode AUTO
             (wr wp_distance 799 (wr medium_loopCounter 1 Bench.power_on)) in
  let sq := Bench.in_mode SIMPLE s in
  tally (Call_beq calc_loiter_nav) (snd (medium_loop Bench.quiet Bench.no_fix s))
  = 1%nat
  /\ tally (Call_beq calc_waypoint_nav)
       (snd (medium_loop Bench.quiet Bench.no_fix s)) = 0%nat
  /\ tally (Call_beq calc_loiter_nav)
       (snd (medium_loop Bench.quiet Bench.no_fix sq)) = 0%nat
  /\ tally (Call_beq calc_waypoint_nav)
       (snd (medium_loop Bench.quiet Bench.no_fix sq)) = 0%nat.
Proof.
  cbv zeta.
  apply (C7_dispatch_outside_simple_and_fbw Bench.quiet
           (quiet_keeps _) (quiet_keeps _)).
  - reflexivity.
  - discriminate.
  - discriminate.
  - reflexivity.
  - left. reflexivity.
Defined.

(** C7 as the specification words it fails in SIMPLE mode: in the
    navigation phase, with [wp_distance] at 0, neither [calc_loiter_nav]
    nor [calc_waypoint_nav] is called. *)
Lemma C7_simple_mode_skips_navigation :
  let s := Bench.in_mode SIMPLE (wr medium_loopCounter 1 Bench.power_on) in
  rd wp_distance s = 0
  /\ snd (medium_loop Bench.quiet Bench.no_fix s)
     = [read_radio; dcm_get_dcm_matrix; calc_bearing_error; gcs_update]
  /\ tally (Call_beq calc_loiter_nav)
       (snd (medium_loop Bench.quiet Bench.no_fix s)) = 0%nat.
Proof. vm_compute. repeat split. Qed.

(** *** Super-slow tier *)

Section Scheduler.

Context {X : Type} (P : Platform X).

Hypothesis keeps_counter : keeps P (rd counter_one_herz).

Lemma medium_loop_counter i s :
  rd counter_one_herz (fst (medium_loop P i s)) = rd counter_one_herz s.
Proof. change (stable_at (rd counter_one_herz) (medium_loop P i) s). stable. Qed.

Lemma fast_tier_counter i s :
  rd counter_one_herz (fst (when (fast_due i) (fast_tier P i) s))
  = rd counter_one_herz s.
Proof.
  change (stable_at (rd counter_one_herz) (when (fast_due i) (fast_tier P i)) s).
  stable.
Qed.

(** One entry of the medium tier: the counter advances, it is not set back,
    and [super_slow_loop()] runs when it reads 50. *)
Lemma medium_tier_tick i s :
  let c := u8 (rd counter_one_herz s + 1) in
  rd counter_one_herz (fst (medium_tier P i s)) = c
  /\ tally (Call_beq (gcs_send_message MSG_HEARTBEAT)) (snd (medium_tier P i s))
     = (if c =? 50 then 1%nat else 0%nat).
Proof.
  cbv zeta. split.
  - unfold medium_tier. rewrite !fst_seq.
    repeat drop (@rd X counter_one_herz).
    repeat step. st_cbn.
    pose proof (medium_loop_counter i) as H. unfold rd in H. rewrite H.
    st_cbn. reflexivity.
  - unfold medium_tier. rewrite !snd_seq, !tally_app. mute.
    rewrite ?fst_seq. repeat step.
    rewrite snd_when. cbv beta. st_cbn.
    pose proof (medium_loop_counter i) as H. unfold rd in H. rewrite H.
    st_cbn.
    destruct (u8 (ivar s counter_one_herz + 1) =? 50).
    + unfold super_slow_loop. repeat tstep. split_conditions; reflexivity.
    + reflexivity.
Qed.

Lemma loop_poll i s :
  let due := medium_due i (fst (when (fast_due i) (fast_tier P i) s)) in
  let c := u8 (rd counter_one_herz s + 1) in
  rd counter_one_herz (fst (loop P i s))
  = (if due then c else rd counter_one_herz s)
  /\ tally (Call_beq (gcs_send_message MSG_HEARTBEAT)) (snd (loop P i s))
     = (if due && (c =? 50) then 1%nat else 0%nat).
Proof.
  cbv zeta. unfold loop. rewrite fst_seq, snd_seq, tally_app.
  set (s1 := fst (when (fast_due i) (fast_tier P i) s)).
  assert (H1 : rd counter_one_herz s1 = rd counter_one_herz s)
    by apply fast_tier_counter.
  assert (H0 : tally (Call_beq (gcs_send_message MSG_HEARTBEAT))
                 (snd (when (fast_due i) (fast_tier P i) s)) = 0%nat).
  { change (silent_at (Call_beq (gcs_send_message MSG_HEARTBEAT))
              (when (fast_due i) (fast_tier P i)) s). silent. }
  rewrite H0, fst_when, snd_when.
  destruct (medium_due i s1).
  - destruct (medium_tier_tick i s1) as (A & B).
    rewrite A, B, H1. now split.
  - now split.
Qed.

Lemma heartbeat_count (c m : Z) :
  0 <= c < 256 -> 0 <= m ->
  let c1 := u8 (c + 1) in
  (if c1 =? 50 then 1 else 0)
  + ((c1 + m - 50) / 256 - (c1 - 50) / 256)
  = (c + (m + 1) - 50) / 256 - (c - 50) / 256.
Proof.
  intros Hc Hm. cbv zeta. unfold u8, wrap_unsigned.
  change (2 ^ 8) with 256.
  destruct (Z.eq_dec c 255) as [->|Hne].
  - change ((255 + 1) mod 256) with 0. cbn [Z.eqb].
    Z.to_euclidean_division_equations. lia.
  - rewrite Z.mod_small by lia.
    destruct (c + 1 =? 50) eqn:E.
    + apply Z.eqb_eq in E. Z.to_euclidean_division_equations. lia.
    + apply Z.eqb_neq in E. Z.to_euclidean_division_equations. lia.
Qed.

Lemma run_loop_heartbeats ins :
  forall s,
    0 <= rd counter_one_herz s < 256 ->
    let c := rd counter_one_herz s in
    let m := Z.of_nat (medium_entries P ins s) in
    Z.of_nat (tally (Call_beq (gcs_send_message MSG_HEARTBEAT))
                (snd (run_loop P ins s)))
    = (c + m - 50) / 256 - (c - 50) / 256.
Proof.
  induction ins as [|i ins IH]; intros s Hc; cbv zeta.
  - cbn [run_loop medium_entries skip snd tally filter length].
    rewrite Z.add_0_r. lia.
  - cbn [run_loop medium_entries]. rewrite snd_seq, tally_app.
    destruct (loop_poll i s) as (A & B). cbv zeta in A, B.
    rewrite B. rewrite Nat2Z.inj_add, IH.
    2:{ rewrite A. destruct (medium_due i _); [|exact Hc].
        apply Z.mod_pos_bound. reflexivity. }
    rewrite A.
    destruct (medium_due i _); cbn [andb].
    + pose proof (heartbeat_count (rd counter_one_herz s)
                    (Z.of_nat (medium_entries P ins (fst (loop P i s))))
                    Hc (Nat2Z.is_nonneg _)) as Hh.
      cbv zeta in Hh.
      rewrite Nat2Z.inj_add. change (Z.of_nat 1) with 1.
      replace (rd counter_one_herz s
               + (1 + Z.of_nat (medium_entries P ins (fst (loop P i s)))) - 50)
        with (rd counter_one_herz s
              + (Z.of_nat (medium_entries P ins (fst (loop P i s))) + 1) - 50)
        by lia.
      rewrite <- Hh.
      destruct (u8 (rd counter_one_herz s + 1) =? 50); reflexivity.
    + cbn [Nat.add]. change (Z.of_nat 0) with 0. lia.
Qed.

(** C5, what the code does.  [counter_one_herz] is a byte that [loop()]
    increments on every entry of the medium tier and never sets back, so it
    reads 50 once in 256 entries.  From a counter of 0, a run of polls with
    [m] entries of the medium tier sends the heartbeat of
    [super_slow_loop()] [(m + 206) / 256] times: at entries 50, 306, 562,
    ... and not every 50 entries. *)
Theorem C5_super_slow_fires_every_256_entries (s : State X) (ins : list Inputs) :
  rd counter_one_herz s = 0 ->
  tally (Call_beq (gcs_send_message MSG_HEARTBEAT)) (snd (run_loop P ins s))
  = ((medium_entries P ins s + 206) / 256)%nat.
Proof.
  intros H0. apply Nat2Z.inj.
  rewrite run_loop_heartbeats by (rewrite H0; lia).
  rewrite H0, Nat2Z.inj_div, Nat2Z.inj_add.
  change (Z.of_nat 206) with 206. change (Z.of_nat 256) with 256.
  Z.to_euclidean_division_equations. lia.
Qed.
End Scheduler.

Lemma C5_super_slow_fires_every_256_entries_witness :
  medium_entries Bench.quiet (Bench.polls 100) Bench.power_on = 100%nat
  /\ tally (Call_beq (gcs_send_message MSG_HEARTBEAT))
       (snd (run_loop Bench.quiet (Bench.polls 100) Bench.power_on)) = 1%nat.
Proof.
  split.
  - vm_compute. reflexivity.
  - rewrite (C5_super_slow_fires_every_256_entries Bench.quiet
               (quiet_keeps _) Bench.power_on (Bench.polls 100) eq_refl).
    vm_compute. reflexivity.
Defined.

(** ** Further properties of the control core *)

(** *** Commands of a mode evaluation *)

Section Commands.

Context {X : Type} (P : Platform X).

(** X1.  One evaluation of the flight mode issues exactly one yaw command
    ([auto_yaw] or [output_manual_yaw]) and exactly one throttle command
    ([output_auto_throttle] or [output_manual_throttle]) in every mode but
    GCS_AUTO, where it issues none.  The throttle is the pilot's in ACRO,
    STABILIZE, SIMPLE and FBW and the autopilot's in the other modes. *)
Theorem one_yaw_and_one_throttle_command (s : State X) :
  let t := snd (update_current_flight_mode P s) in
  let active := negb (FlightMode_beq (control_mode s) GCS_AUTO) in
  tally is_yaw t = (if active then 1 else 0)%nat
  /\ tally is_throttle t = (if active then 1 else 0)%nat
  /\ tally (Call_beq output_manual_throttle) t
     = match control_mode s with
       | ACRO | STABILIZE | SIMPLE | FBW => 1%nat
       | _ => 0%nat
       end.
Proof.
  cbv zeta. rewrite flight_mode_calls.
  destruct (control_mode s); cbv zeta; cbn [FlightMode_beq negb];
    split_conditions; repeat split; reflexivity.
Qed.

End Commands.

(** *** The cascade of the medium and slow loops *)

Section Cascade.

Context {X : Type} (P : Platform X).

Hypothesis keeps_phase : keeps P (rd medium_loopCounter).
Hypothesis keeps_slow : keeps P (rd slow_loopCounter).

Lemma slow_loop_phase s :
  rd medium_loopCounter (fst (slow_loop P s)) = rd medium_loopCounter s
  /\ rd slow_loopCounter (fst (slow_loop P s)) = next_slow (rd slow_loopCounter s)
  /\ tally (Call_beq update_events) (snd (slow_loop P s))
     = (if rd slow_loopCounter s =? 2 then 1%nat else 0%nat).
Proof.
  split; [|split].
  - change (stable_at (rd medium_loopCounter) (slow_loop P) s). stable.
  - unfold slow_loop, switch, next_slow.
    destruct (rd slow_loopCounter s) as [|[[p|p|]|[p|p|]|]|p] eqn:Hk.
    all: repeat step.
    all: norm; unfold rd in Hk; rewrite ?Hk; reflexivity.
  - unfold slow_loop, switch.
    destruct (rd slow_loopCounter s) as [|[[p|p|]|[p|p|]|]|p] eqn:Hk.
    all: cbn [Z.eqb Pos.eqb].
    all: try (change (silent_at (Call_beq update_events) ?p ?s); silent).
    all: repeat tstep.
    all: split_conditions; reflexivity.
Qed.

Lemma keeps_phases : keeps P phases.
Proof. intros c s. unfold phases. now rewrite keeps_phase, keeps_slow. Qed.

Lemma medium_loop_phases i s :
  phases (fst (medium_loop P i s))
  = (next_medium (rd medium_loopCounter s),
     if rd medium_loopCounter s =? 4
     then next_slow (rd slow_loopCounter s) else rd slow_loopCounter s).
Proof.
  pose proof keeps_phases as Hh.
  unfold medium_loop at 1. rewrite !fst_seq.
  repeat drop (@phases X).
  unfold switch, update_trig. repeat step.
  replace (rd medium_loopCounter (extern P dcm_get_dcm_matrix (extern P read_radio s)))
    with (rd medium_loopCounter s) by (now rewrite !keeps_phase).
  unfold next_medium.
  destruct (rd medium_loopCounter s) as [|p|p] eqn:Hk;
    repeat match goal with
           | |- context [match ?k with _ => _ end] => is_var k; destruct k
           end.
  all: cbn [Z.eqb Pos.eqb].
  all: rewrite ?fst_seq; repeat drop (@phases X).
  all: try match goal with
           | |- context [fst (slow_loop P ?S)] =>
               let A := fresh "A" in
               let B := fresh "B" in
               pose proof (slow_loop_phase S) as (A & B & _);
               unfold phases; rewrite A, B
           end.
  all: repeat step.
  all: unfold phases; norm; unfold rd in Hk; rewrite ?Hk; try reflexivity.
Qed.

Lemma medium_loop_events i s :
  tally (Call_beq update_events) (snd (medium_loop P i s))
  = (if (rd medium_loopCounter s =? 4) && (rd slow_loopCounter s =? 2)
     then 1%nat else 0%nat).
Proof.
  unfold medium_loop. rewrite !snd_seq, !tally_app. mute.
  unfold switch, update_trig. rewrite ?fst_seq. repeat step.
  rewrite !keeps_phase.
  destruct (rd medium_loopCounter s) as [|p|p] eqn:Hk;
    repeat match goal with
           | |- context [match ?k with _ => _ end] => is_var k; destruct k
           end.
  all: cbn [Z.eqb Pos.eqb andb].
  all: rewrite ?snd_seq, ?tally_app; mute.
  all: try reflexivity.
  match goal with
  | |- context [snd (slow_loop P ?S)] =>
      destruct (slow_loop_phase S) as (_ & _ & C); rewrite C
  end.
  repeat drop (@rd X slow_loopCounter).
  rewrite !keeps_slow. cbn [Nat.add]. now rewrite Nat.add_0_r.
Qed.

(** One poll of [loop()], seen on the two phase counters. *)
Lemma loop_phases i s :
  let due := medium_due i (fst (when (fast_due i) (fast_tier P i) s)) in
  let k := rd medium_loopCounter s in
  let j := rd slow_loopCounter s in
  phases (fst (loop P i s))
  = (if due then (next_medium k, if k =? 4 then next_slow j else j)
     else (k, j))
  /\ tally (Call_beq update_events) (snd (loop P i s))
     = (if due && (k =? 4) && (j =? 2) then 1%nat else 0%nat).
Proof.
  cbv zeta. pose proof keeps_phases as Hh.
  unfold loop. rewrite fst_seq, snd_seq, tally_app.
  set (s1 := fst (when (fast_due i) (fast_tier P i) s)).
  assert (H1 : phases s1 = phases s)
    by (subst s1; change (stable_at phases (when (fast_due i) (fast_tier P i)) s);
        stable).
  assert (H0 : tally (Call_beq update_events)
                 (snd (when (fast_due i) (fast_tier P i) s)) = 0%nat).
  { change (silent_at (Call_beq update_events)
              (when (fast_due i) (fast_tier P i)) s). silent. }
  rewrite H0, fst_when, snd_when.
  assert (K1 : rd medium_loopCounter s1 = rd medium_loopCounter s)
    by (unfold phases in H1; congruence).
  assert (J1 : rd slow_loopCounter s1 = rd slow_loopCounter s)
    by (unfold phases in H1; congruence).
  rewrite <- K1, <- J1. clearbody s1.
  destruct (medium_due i s1); cbn [andb Nat.add]; [|now split].
  unfold medium_tier. rewrite !fst_seq, !snd_seq, !tally_app. mute.
  repeat drop (@phases X).
  repeat (change (fst (assign ?f ?s0)) with (f s0); cbv beta).
  rewrite medium_loop_phases, medium_loop_events.
  cbn [Nat.add]. rewrite Nat.add_0_r. split; reflexivity.
Qed.

Lemma cascade_step (k j m : Z) :
  0 <= k <= 4 -> 0 <= j <= 2 -> 0 <= m ->
  (if (k =? 4) && (j =? 2) then 1 else 0)
  + (5 * (if k =? 4 then next_slow j else j) + next_medium k + m) / 15
  = (5 * j + k + (m + 1)) / 15.
Proof.
  intros Hk Hj Hm.
  assert (Hc : k = 0 \/ k = 1 \/ k = 2 \/ k = 3 \/ k = 4) by lia.
  assert (Hd : j = 0 \/ j = 1 \/ j = 2) by lia.
  destruct Hc as [->|[->|[->|[->| ->]]]]; destruct Hd as [->|[->| ->]];
    cbn [next_medium next_slow Z.eqb Pos.eqb andb];
    Z.to_euclidean_division_equations; lia.
Qed.

Lemma run_loop_events ins :
  forall s,
    0 <= rd medium_loopCounter s <= 4 ->
    0 <= rd slow_loopCounter s <= 2 ->
    Z.of_nat (tally (Call_beq update_events) (snd (run_loop P ins s)))
    = (cascade s + Z.of_nat (medium_entries P ins s)) / 15.
Proof.
  induction ins as [|i ins IH]; intros s Hk Hj.
  - cbn [run_loop medium_entries skip snd tally filter length Z.of_nat].
    unfold cascade. rewrite Z.add_0_r. symmetry. apply Z.div_small. lia.
  - cbn [run_loop medium_entries]. rewrite snd_seq, tally_app, Nat2Z.inj_add.
    destruct (loop_phases i s) as (A & B). cbv zeta in A, B.
    rewrite B. unfold phases in A.
    destruct (medium_due i (fst (when (fast_due i) (fast_tier P i) s)));
      injection A as Ak Aj; cbn [andb].
    + rewrite IH; unfold cascade; rewrite ?Ak, ?Aj.
      * rewrite Nat2Z.inj_add. change (Z.of_nat 1) with 1.
        replace (1 + Z.of_nat (medium_entries P ins (fst (loop P i s))))
          with (Z.of_nat (medium_entries P ins (fst (loop P i s))) + 1)
          by lia.
        rewrite <- (cascade_step (rd medium_loopCounter s)
                      (rd slow_loopCounter s)
                      (Z.of_nat (medium_entries P ins (fst (loop P i s)))))
          by (try assumption; apply Nat2Z.is_nonneg).
        destruct ((rd medium_loopCounter s =? 4)
                  && (rd slow_loopCounter s =? 2)); reflexivity.
      * destruct (rd medium_loopCounter s) as [|[[p|p|]|[[p|p|]|[p|p|]|]|]|p];
          cbn [next_medium]; lia.
      * destruct (rd medium_loopCounter s =? 4); [|assumption].
        destruct (rd slow_loopCounter s) as [|[[p|p|]|[p|p|]|]|p];
          cbn [next_slow]; lia.
    + rewrite IH; unfold cascade; rewrite ?Ak, ?Aj; try assumption.
      reflexivity.
Qed.

(** X2.  [update_events()], the third phase of [slow_loop()], runs once in
    fifteen entries of the medium tier: the medium loop enters the slow
    loop in its fifth phase, and the slow loop has three phases.  Counted
    from both phase counters at 0, a run of polls of [loop()] with [m]
    entries of the medium tier calls it [m / 15] times. *)
Theorem update_events_every_fifteenth_entry
    (s : State X) (ins : list Inputs) :
  rd medium_loopCounter s = 0 ->
  rd slow_loopCounter s = 0 ->
  tally (Call_beq update_events) (snd (run_loop P ins s))
  = (medium_entries P ins s / 15)%nat.
Proof.
  intros Hk Hj. apply Nat2Z.inj.
  rewrite run_loop_events, Nat2Z.inj_div by lia.
  unfold cascade. rewrite Hk, Hj. reflexivity.
Qed.

(** X3.  An entry of [medium_loop()] takes the phase counter from 0, 1, 2
    and 3 to the next value and from any other value to 0, so that it is
    within 0..4 afterwards, whatever it held.  The slow loop's counter is
    touched in phase 4 only, where it goes from 0 and 1 to the next value
    and from any other value to 0. *)
Theorem phase_counters_recover (s : State X) (i : Inputs) :
  let k := rd medium_loopCounter s in
  let j := rd slow_loopCounter s in
  let s' := fst (medium_loop P i s) in
  rd medium_loopCounter s'
  = (if (0 <=? k) && (k <=? 3) then k + 1 else 0)
  /\ 0 <= rd medium_loopCounter s' <= 4
  /\ rd slow_loopCounter s'
     = (if k =? 4 then if (0 <=? j) && (j <=? 1) then j + 1 else 0 else j).
Proof.
  cbv zeta. pose proof (medium_loop_phases i s) as H.
  unfold phases in H. injection H as Hk Hj. rewrite Hk, Hj.
  split; [|split].
  - destruct (rd medium_loopCounter s) as [|[[p|p|]|[[p|p|]|[p|p|]|]|]|p];
      reflexivity.
  - destruct (rd medium_loopCounter s) as [|[[p|p|]|[[p|p|]|[p|p|]|]|]|p];
      cbn [next_medium]; lia.
  - destruct (rd medium_loopCounter s =? 4); [|reflexivity].
    destruct (rd slow_loopCounter s) as [|[[p|p|]|[p|p|]|]|p]; reflexivity.
Qed.

End Cascade.

Lemma update_events_every_fifteenth_entry_witness :
  tally (Call_beq update_events)
    (snd (run_loop Bench.quiet (Bench.polls 100) Bench.power_on))
  = (medium_entries Bench.quiet (Bench.polls 100) Bench.power_on / 15)%nat.
Proof.
  apply (update_events_every_fifteenth_entry Bench.quiet
           (quiet_keeps _) (quiet_keeps _)); reflexivity.
Defined.

Lemma phase_counters_recover_witness :
  let s := wr medium_loopCounter 9 Bench.power_on in
  let s' := fst (medium_loop Bench.quiet Bench.no_fix s) in
  rd medium_loopCounter s'
  = (if (0 <=? rd medium_loopCounter s) && (rd medium_loopCounter s <=? 3)
     then rd medium_loopCounter s + 1 else 0)
  /\ 0 <= rd medium_loopCounter s' <= 4
  /\ rd slow_loopCounter s'
     = (if rd medium_loopCounter s =? 4
        then if (0 <=? rd slow_loopCounter s) && (rd slow_loopCounter s <=? 1)
             then rd slow_loopCounter s + 1 else 0
        else rd slow_loopCounter s).
Proof.
  cbv zeta.
  apply (phase_counters_recover Bench.quiet (quiet_keeps _) (quiet_keeps _)).
Defined.

(** *** Fly-by-wire mode *)

Section FlyByWire.

Context {X : Type} (P : Platform X).

Hypothesis keeps_mode : keeps P control_mode.
Hypothesis keeps_timer : keeps P (rd fbw_timer).

Lemma fbw_mode_state s :
  control_mode s = FBW ->
  let s' := fst (update_current_flight_mode P s) in
  let t := u8 (rd fbw_timer s + 1) in
  control_mode s' = FBW
  /\ rd fbw_timer s' = (if 10 <? t then 0 else t).
Proof.
  intros Hm. cbv zeta.
  unfold update_current_flight_mode.
  rewrite fst_ifte. cbv beta. rewrite Hm. cbn [FlightMode_beq].
  repeat step.
  all: norm; use_conditions; rewrite ?Hm; repeat split; try reflexivity.
Qed.

(** The state in which the fast tier evaluates the flight mode. *)
Lemma fast_loop_fbw s :
  control_mode s = FBW ->
  let s' := fst (fast_loop P s) in
  let t := u8 (rd fbw_timer s + 1) in
  control_mode s' = FBW
  /\ rd fbw_timer s' = (if 10 <? t then 0 else t)
  /\ tally (Call_beq calc_loiter_nav) (snd (fast_loop P s))
     = (if 10 <? t then 1%nat else 0%nat).
Proof.
  intros Hm. cbv zeta.
  set (s0 := fst (when (fun s => rd G_Dt_max s <? rd delta_ms_fast_loop s)
                      (assign (fun s => wr G_Dt_max (rd delta_ms_fast_loop s) s))
                      (fst (read_AHRS P s)))).
  assert (Hm0 : control_mode s0 = FBW).
  { subst s0. drop (@control_mode X). unfold read_AHRS. rewrite fst_seq.
    repeat drop (@control_mode X). exact Hm. }
  assert (Ht0 : rd fbw_timer s0 = rd fbw_timer s).
  { subst s0. drop (@rd X fbw_timer). unfold read_AHRS. rewrite fst_seq.
    repeat drop (@rd X fbw_timer). reflexivity. }
  destruct (fbw_mode_state s0 Hm0) as (A & B).
  rewrite Ht0 in B.
  assert (Hfst : fst (fast_loop P s)
                 = fst (when (fun _ => HIL_PROTOCOL_is_MAVLINK (cfg P))
                          (call P (gcs_send_message MSG_RADIO_OUT))
                          (fst (call P set_servos_4
                                  (fst (update_current_flight_mode P s0))))))
    by (unfold fast_loop; now rewrite !fst_seq).
  repeat split.
  - rewrite Hfst. repeat drop (@control_mode X). exact A.
  - rewrite Hfst. repeat drop (@rd X fbw_timer). exact B.
  - rewrite fast_loop_calls. fold s0. rewrite flight_mode_calls, Hm0, Ht0.
    destruct (10 <? u8 (rd fbw_timer s + 1));
      destruct (HIL_PROTOCOL_is_MAVLINK (cfg P)); reflexivity.
Qed.

Lemma run_fast_fbw n :
  forall (s : State X) (t0 : nat),
    control_mode s = FBW ->
    rd fbw_timer s = Z.of_nat t0 ->
    (t0 <= 10)%nat ->
    tally (Call_beq calc_loiter_nav) (snd (run_fast P n s))
    = ((t0 + n) / 11)%nat.
Proof.
  induction n as [|n IH]; intros s t0 Hm Ht Hle.
  - cbn [run_fast skip snd tally filter length].
    rewrite Nat.add_0_r. symmetry. apply Nat.div_small. lia.
  - cbn [run_fast]. rewrite snd_seq, tally_app.
    destruct (fast_loop_fbw s Hm) as (A & B & C).
    rewrite C. rewrite Ht in B |- *.
    assert (Hu : u8 (Z.of_nat t0 + 1) = Z.of_nat t0 + 1)
      by (apply Z.mod_small; lia).
    rewrite Hu in B |- *.
    destruct (10 <? Z.of_nat t0 + 1) eqn:E.
    + apply Z.ltb_lt in E. assert (t0 = 10%nat) by lia. subst t0.
      rewrite (IH _ O A B) by lia.
      replace (10 + S n)%nat with (n + 1 * 11)%nat by lia.
      rewrite Nat.div_add by lia. cbn [Nat.add]. lia.
    + apply Z.ltb_ge in E.
      rewrite (IH _ (S t0) A) by lia.
      cbn [Nat.add]. f_equal. lia.
Qed.

(** X4.  In FBW mode, starting with the counter [fbw_timer] at 0, [n]
    entries of the fast tier call [calc_loiter_nav()] [n / 11] times: the
    gate [fbw_timer > 10] opens on every eleventh entry. *)
Theorem fbw_recomputes_every_eleventh_tick (s : State X) (n : nat) :
  control_mode s = FBW ->
  rd fbw_timer s = 0 ->
  tally (Call_beq calc_loiter_nav) (snd (run_fast P n s)) = (n / 11)%nat.
Proof.
  intros Hm Ht. now rewrite (run_fast_fbw n s O Hm Ht) by lia.
Qed.

End FlyByWire.

Lemma fbw_recomputes_every_eleventh_tick_witness :
  tally (Call_beq calc_loiter_nav)
    (snd (run_fast Bench.quiet 33 (Bench.in_mode FBW Bench.power_on)))
  = (33 / 11)%nat.
Proof.
  apply (fbw_recomputes_every_eleventh_tick Bench.quiet
           (quiet_keeps _) (quiet_keeps _)); reflexivity.
Defined.

(** *** Targets set by the mode evaluation *)

Section Targets.

Context {X : Type} (P : Platform X).

Hypothesis keeps_target : keeps P next_WP.

(** X5.  In ALT_HOLD the target altitude [next_WP.alt] is the home altitude
    plus the throttle stick, and never below 30: a lower sum is replaced
    by 30.  Latitude and longitude of the target are left as they were. *)
Theorem alt_hold_target_floor (s : State X) :
  control_mode s = ALT_HOLD ->
  let s' := fst (update_current_flight_mode P s) in
  next_WP s'
  = with_alt (Z.max (i32 (alt (home s) + rd rc_3_control_in s)) 30) (next_WP s)
  /\ 30 <= alt (next_WP s').
Proof.
  intros Hm. cbv zeta.
  assert (E : next_WP (fst (update_current_flight_mode P s))
              = with_alt (Z.max (i32 (alt (home s) + rd rc_3_control_in s)) 30)
                  (next_WP s)).
  { unfold update_current_flight_mode, clear_nav.
    rewrite fst_ifte. cbv beta. rewrite Hm. cbn [FlightMode_beq].
    repeat step. norm. reflexivity. }
  rewrite E. split; [reflexivity|]. cbn [with_alt alt]. lia.
Qed.

Hypothesis keeps_home : keeps P home.
Hypothesis keeps_loc : keeps P current_loc.

(** X6.  In FBW mode, when the gate [fbw_timer > 10] opens while
    [GPS_disabled] is set, latitude and longitude of [home] and of the
    stored position are overwritten with 0 (the altitudes are kept), and
    the target is placed at half the stick deflections from there, the
    division truncating towards zero.  With the GPS in use [home] and the
    stored position are left alone and the target is placed around
    [home]. *)
Theorem fbw_without_gps_wipes_home (s : State X) :
  control_mode s = FBW ->
  10 < u8 (rd fbw_timer s + 1) ->
  let s' := fst (update_current_flight_mode P s) in
  home s' = (if GPS_disabled s then mkLoc 0 0 (alt (home s)) else home s)
  /\ current_loc s'
     = (if GPS_disabled s then mkLoc 0 0 (alt (current_loc s))
        else current_loc s)
  /\ next_WP s'
     = mkLoc (i32 (lat (home s') - Z.quot (rd rc_2_control_in s) 2))
             (i32 (lng (home s') + Z.quot (rd rc_1_control_in s) 2))
             (alt (next_WP s)).
Proof.
  intros Hm Hgate. cbv zeta. apply Z.ltb_lt in Hgate.
  unfold update_current_flight_mode.
  rewrite fst_ifte. cbv beta. rewrite Hm. cbn [FlightMode_beq].
  repeat step.
  all: norm.
  all: use_conditions; unfold with_lat, with_lng; cbn [lat lng alt].
  all: try (repeat split; reflexivity).
  exfalso. revert E. st_cbn. unfold rd in Hgate. rewrite Hgate. discriminate.
Qed.

End Targets.

Lemma alt_hold_target_floor_witness :
  let s := Bench.in_mode ALT_HOLD Bench.power_on in
  let s' := fst (update_current_flight_mode Bench.quiet s) in
  next_WP s'
  = with_alt (Z.max (i32 (alt (home s) + rd rc_3_control_in s)) 30) (next_WP s)
  /\ 30 <= alt (next_WP s').
Proof.
  cbv zeta.
  apply (alt_hold_target_floor Bench.quiet (quiet_keeps _)). reflexivity.
Defined.

Lemma fbw_without_gps_wipes_home_witness :
  let s := set_GPS_disabled true
             (set_home (mkLoc 471 85 400)
                (wr rc_1_control_in (-301)
                   (wr fbw_timer 10 (Bench.in_mode FBW Bench.power_on)))) in
  let s' := fst (update_current_flight_mode Bench.quiet s) in
  home s' = (if GPS_disabled s then mkLoc 0 0 (alt (home s)) else home s)
  /\ current_loc s'
     = (if GPS_disabled s then mkLoc 0 0 (alt (current_loc s))
        else current_loc s)
  /\ next_WP s'
     = mkLoc (i32 (lat (home s') - Z.quot (rd rc_2_control_in s) 2))
             (i32 (lng (home s') + Z.quot (rd rc_1_control_in s) 2))
             (alt (next_WP s)).
Proof.
  cbv zeta.
  apply (fbw_without_gps_wipes_home Bench.quiet
           (quiet_keeps _) (quiet_keeps _) (quiet_keeps _)).
  - reflexivity.
  - vm_compute. reflexivity.
Defined.

(** *** The GPS health counters *)

Section HealthRange.

Context {X : Type} (P : Platform X).

Hypothesis keeps_phase : keeps P (rd medium_loopCounter).
Hypothesis keeps_failures : keeps P (rd GPS_failure_counter).
Hypothesis keeps_disabled : keeps P GPS_disabled.
Hypothesis keeps_gps : keeps P g_gps.

Lemma medium_loop_range i (s : State X) :
  healthy_range s -> healthy_range (fst (medium_loop P i s)).
Proof.
  unfold healthy_range. intros (Hc & Hd).
  pose proof (medium_loop_health P keeps_phase keeps_failures keeps_disabled
                keeps_gps i s) as H.
  unfold health in H.
  destruct (rd medium_loopCounter s) as [|[[p|p|]|[[p|p|]|p|]|]|p];
    cbv beta iota zeta in H; injection H as _ H1 H2; rewrite H1, H2;
    try (split; assumption).
  destruct (0 <? rd GPS_failure_counter s) eqn:E.
  - apply Z.ltb_lt in E. split.
    + destruct (valid_fix i); [lia|].
      unfold u8, wrap_unsigned. rewrite Z.mod_small; lia.
    + intros Hdis. specialize (Hd Hdis). lia.
  - apply Z.ltb_ge in E. split; [lia|]. intros _. lia.
Qed.

Lemma loop_range i (s : State X) :
  healthy_range s -> healthy_range (fst (loop P i s)).
Proof.
  intros H.
  assert (Kh : keeps P (@gps_state X))
    by (intros c s0; unfold gps_state;
        now rewrite keeps_failures, keeps_disabled).
  assert (St : forall (p : Proc X) (s0 : State X),
             stable_at gps_state p s0 ->
             healthy_range s0 -> healthy_range (fst (p s0))).
  { intros p s0 Hs Hr. unfold stable_at, gps_state in Hs.
    unfold healthy_range in *. injection Hs as -> ->. exact Hr. }
  unfold loop. rewrite fst_seq.
  set (s1 := fst (when (fast_due i) (fast_tier P i) s)).
  assert (H1 : healthy_range s1) by (subst s1; apply St; [stable|exact H]).
  clearbody s1. rewrite fst_when. destruct (medium_due i s1); [|exact H1].
  unfold medium_tier. rewrite !fst_seq.
  repeat (apply St; [stable|]).
  apply medium_loop_range.
  repeat (apply St; [stable|]). exact H1.
Qed.

(** X7.  [GPS_failure_counter] stays within 0..3, and [GPS_disabled] is
    set only while the counter is 0: both hold after any run of polls of
    [loop()] if they hold before it. *)
Theorem gps_failure_counter_stays_in_range
    (s : State X) (ins : list Inputs) :
  0 <= rd GPS_failure_counter s <= 3 ->
  (GPS_disabled s = true -> rd GPS_failure_counter s = 0) ->
  let s' := fst (run_loop P ins s) in
  0 <= rd GPS_failure_counter s' <= 3
  /\ (GPS_disabled s' = true -> rd GPS_failure_counter s' = 0).
Proof.
  intros H1 H2. cbv zeta.
  change (healthy_range (fst (run_loop P ins s))).
  assert (H : healthy_range s) by (split; assumption).
  clear H1 H2. revert s H.
  induction ins as [|i ins IH]; intros s H; [exact H|].
  cbn [run_loop]. rewrite fst_seq. apply IH. now apply loop_range.
Qed.

End HealthRange.

Lemma gps_failure_counter_stays_in_range_witness :
  let s' := fst (run_loop Bench.quiet (Bench.polls 50) Bench.power_on) in
  0 <= rd GPS_failure_counter s' <= 3
  /\ (GPS_disabled s' = true -> rd GPS_failure_counter s' = 0).
Proof.
  cbv zeta.
  apply (gps_failure_counter_stays_in_range Bench.quiet
           (quiet_keeps _) (quiet_keeps _) (quiet_keeps _) (quiet_keeps _)).
  - vm_compute. split; discriminate.
  - discriminate.
Defined.

(** *** Home is latched once *)

Section LatchOnce.

Context {X : Type} (P : Platform X).

Hypothesis keeps_count : keeps P (rd ground_start_count).
Hypothesis keeps_home : keeps P home.
Hypothesis keeps_mode : keeps P control_mode.







End LatchOnce.


(** *** The altitude written by [update_alt()] *)

Section AltitudeValue.

Context {X : Type} (P : Platform X).

Hypothesis keeps_sensor : keeps P altitude_sensor.
Hypothesis keeps_enabled : keeps P (rd sonar_enabled).
Hypothesis keeps_baro : keeps P (rd baro_alt).
Hypothesis keeps_sonar : keeps P (rd sonar_alt).
Hypothesis keeps_loc : keeps P current_loc.
Hypothesis keeps_home : keeps P home.

(** X9.  In a build with real sensors, [update_alt()] writes to
    [current_loc.alt] the reading of the sensor it chose plus the home
    altitude, wrapped to 32 bits, and leaves latitude and longitude alone.
    The sonar is chosen when it is enabled, the barometric altitude is
    below 550 and the sonar reading is at most 600.  [sonar_alt] then holds
    the reading as it was read: the clamp [min(sonar_alt, 600)] runs only
    when the reading is at most 600 and never changes it. *)
Theorem altitude_from_chosen_sensor (s : State X) (i : Inputs) :
  HIL_MODE_is_ATTITUDE (cfg P) = false ->
  let s' := fst (update_alt P i s) in
  let by_sonar := negb (rd sonar_enabled s =? 0)
                  && (baro_rd i <? 550) && (sonar_rd i <=? 600) in
  altitude_sensor s' = (if by_sonar then SONAR else BARO)
  /\ current_loc s'
     = with_alt (i32 ((if by_sonar then sonar_rd i else baro_rd i)
                      + alt (home s)))
         (current_loc s)
  /\ rd baro_alt s' = baro_rd i
  /\ rd sonar_alt s'
     = (if rd sonar_enabled s =? 0 then rd sonar_alt s else sonar_rd i).
Proof.
  intros Hhil. cbv zeta.
  unfold update_alt.
  repeat step.
  all: norm.
  all: try congruence.
  all: repeat match goal with
              | H : AltSensor_beq _ _ = _ |- _ =>
                  cbn in H; try discriminate H; clear H
              | H : negb _ = true |- _ => apply negb_true_iff in H
              | H : negb _ = false |- _ => apply negb_false_iff in H
              end.
  all: use_conditions; cbn [negb andb].
  all: repeat match goal with
              | |- context [?a <? ?b] => destruct (Z.ltb_spec a b)
              | |- context [?a <=? ?b] => destruct (Z.leb_spec a b)
              | H : (_ <? _) = true |- _ => apply Z.ltb_lt in H
              | H : (_ <? _) = false |- _ => apply Z.ltb_ge in H
              end.
  all: cbn [andb]; try lia.
  all: rewrite ?Z.min_l by lia.
  all: repeat split; reflexivity.
Qed.

End AltitudeValue.

Lemma altitude_from_chosen_sensor_witness :
  let s := set_home (mkLoc 471 85 1000) (wr sonar_enabled 1 Bench.power_on) in
  let i := Bench.altitudes 500 300 in
  let s' := fst (update_alt Bench.quiet i s) in
  let by_sonar := negb (rd sonar_enabled s =? 0)
                  && (baro_rd i <? 550) && (sonar_rd i <=? 600) in
  altitude_sensor s' = (if by_sonar then SONAR else BARO)
  /\ current_loc s'
     = with_alt (i32 ((if by_sonar then sonar_rd i else baro_rd i)
                      + alt (home s)))
         (current_loc s)
  /\ rd baro_alt s' = baro_rd i
  /\ rd sonar_alt s'
     = (if rd sonar_enabled s =? 0 then rd sonar_alt s else sonar_rd i).
Proof.
  cbv zeta.
  apply (altitude_from_chosen_sensor Bench.quiet
           (quiet_keeps _) (quiet_keeps _) (quiet_keeps _) (quiet_keeps _)
           (quiet_keeps _) (quiet_keeps _)).
  reflexivity.
Defined.

(** *** Attitude logging *)

Section Logging.

Context {X : Type} (P : Platform X).

Hypothesis keeps_bitmask : keeps P (rd log_bitmask).

Lemma silent_unless h b (p : Proc X) s :
  b s = false -> silent_at h (when b p) s.
Proof.
  intros H. unfold silent_at. rewrite snd_when, H. reflexivity.
Qed.

Lemma medium_attitude_gate (s : State X) :
  MASK_LOG_ATTITUDE_FAST (cfg P) <> 0 ->
  logging P MASK_LOG_ATTITUDE_MED s
  && negb (Z.land (rd log_bitmask s)
             (if MASK_LOG_ATTITUDE_FAST (cfg P) =? 0 then 1 else 0) =? 0)
  = false.
Proof.
  intros H. apply Z.eqb_neq in H. rewrite H, Z.land_0_r.
  apply andb_false_r.
Qed.

(** X10.  With a non-zero [MASK_LOG_ATTITUDE_FAST], an entry of
    [medium_loop()] writes the attitude to the log once if that bit of
    [g.log_bitmask] is set, and not at all otherwise, in phase 3 as in any
    other phase and whatever the bit [MASK_LOG_ATTITUDE_MED]: in the test
    of phase 3 [==] binds tighter than [&], so that its second operand is
    [g.log_bitmask & 0] and the medium-rate entry is never written. *)
Theorem attitude_is_logged_at_the_fast_rate_only (s : State X) (i : Inputs) :
  MASK_LOG_ATTITUDE_FAST (cfg P) <> 0 ->
  tally (Call_beq Log_Write_Attitude) (snd (medium_loop P i s))
  = (if logging P MASK_LOG_ATTITUDE_FAST s then 1%nat else 0%nat).
Proof.
  intros Hmask.
  unfold medium_loop. rewrite !snd_seq, !tally_app. mute.
  rewrite ?fst_seq.
  match goal with
  | |- context [tally ?h (snd (switch ?e ?c ?s0))] =>
      replace (tally h (snd (switch e c s0))) with 0%nat
  end.
  - rewrite snd_when. unfold logging at 1.
    repeat drop (@rd X log_bitmask).
    unfold logging.
    destruct (negb (Z.land (rd log_bitmask s) (MASK_LOG_ATTITUDE_FAST (cfg P)) =? 0));
      reflexivity.
  - symmetry.
    match goal with
    | |- tally ?h (snd (?p ?s0)) = _ => change (silent_at h p s0); generalize s0
    end.
    intros s0. apply silent_switch. cbv beta.
    destruct (rd medium_loopCounter s0) as [|p|p];
      repeat match goal with
             | |- context [match ?k with _ => _ end] => is_var k; destruct k
             end.
    all: try silent.
    apply silent_seq; [silent|].
    apply silent_seq; [|silent].
    apply silent_unless. now apply medium_attitude_gate.
Qed.

End Logging.

Lemma attitude_is_logged_at_the_fast_rate_only_witness :
  let s := wr log_bitmask 2 (wr medium_loopCounter 3 Bench.power_on) in
  tally (Call_beq Log_Write_Attitude)
    (snd (medium_loop Bench.quiet Bench.no_fix s))
  = (if logging Bench.quiet MASK_LOG_ATTITUDE_FAST s then 1%nat else 0%nat).
Proof.
  cbv zeta.
  apply (attitude_is_logged_at_the_fast_rate_only Bench.quiet (quiet_keeps _)).
  discriminate.
Defined.

(** *** The new-data flag of the GPS *)

Section FixFlag.

Context {X : Type} (P : Platform X).

Hypothesis keeps_phase : keeps P (rd medium_loopCounter).
Hypothesis keeps_mode : keeps P control_mode.
Hypothesis keeps_gps : keeps P g_gps.

(** X11.  In the navigation phase of [medium_loop()], in a mode other than
    SIMPLE and FBW, [navigate()] is called exactly when the GPS driver holds
    new data, and the flag [new_data] is clear afterwards; the other fields
    of the driver are left alone.  In SIMPLE and in FBW the phase calls
    nothing there and leaves the flag as it is. *)
Theorem navigation_consumes_the_fix (s : State X) (i : Inputs) :
  rd medium_loopCounter s = 1 ->
  let held := FlightMode_beq (control_mode s) SIMPLE
              || FlightMode_beq (control_mode s) FBW in
  let s' := fst (medium_loop P i s) in
  tally (Call_beq navigate) (snd (medium_loop P i s))
  = (if held then 0%nat else if new_data (g_gps s) then 1%nat else 0%nat)
  /\ g_gps s'
     = (if held then g_gps s
        else mkGPS false (gps_fix (g_gps s)) (latitude (g_gps s))
               (longitude (g_gps s)) (altitude (g_gps s))).
Proof.
  intros Hk. cbv zeta. split.
  - unfold medium_loop.
    rewrite !snd_seq, !tally_app.
    mute.
    unfold switch, update_trig; rewrite ?fst_seq; repeat step; norm.
    unfold rd in Hk; rewrite Hk.
    repeat tstep; rewrite !tally_app.
    rewrite ?fst_seq; repeat step; norm.
    all: destruct (control_mode s); cbn [FlightMode_beq orb].
    all: try congruence.
    all: use_conditions; split_conditions; try reflexivity.
  - unfold medium_loop. rewrite !fst_seq.
    repeat drop (@g_gps X).
    unfold switch, update_trig. repeat step. norm.
    unfold rd in Hk; rewrite Hk.
    rewrite ?fst_seq; repeat step; norm.
    all: destruct (control_mode s); cbn [FlightMode_beq orb].
    all: try congruence.
    all: try reflexivity.
    all: cbn [FlightMode_beq] in *; try discriminate.
    all: destruct (g_gps s) as [nd fx la lo al];
      cbn [new_data gps_fix latitude longitude altitude] in *; congruence.
Qed.

End FixFlag.

Lemma navigation_consumes_the_fix_witness :
  let s := set_g_gps (mkGPS true true 471 85 400)
             (wr medium_loopCounter 1 (Bench.in_mode LOITER Bench.power_on)) in
  let i := Bench.no_fix in
  let held := FlightMode_beq (control_mode s) SIMPLE
              || FlightMode_beq (control_mode s) FBW in
  let s' := fst (medium_loop Bench.quiet i s) in
  tally (Call_beq navigate) (snd (medium_loop Bench.quiet i s))
  = (if held then 0%nat else if new_data (g_gps s) then 1%nat else 0%nat)
  /\ g_gps s'
     = (if held then g_gps s
        else mkGPS false (gps_fix (g_gps s)) (latitude (g_gps s))
               (longitude (g_gps s)) (altitude (g_gps s))).
Proof.
  cbv zeta.
  apply (navigation_consumes_the_fix Bench.quiet
           (quiet_keeps _) (quiet_keeps _) (quiet_keeps _)).
  reflexivity.
Defined.

(** *** The two tiers and the millisecond clock *)

Lemma u32_elapsed (t d : Z) :
  0 <= d < 2 ^ 32 -> u32 (u32 (t + d) - t) = d.
Proof.
  intros Hd. unfold u32, wrap_unsigned.
  rewrite Zminus_mod_idemp_l.
  replace (t + d - t) with d by lia.
  now apply Z.mod_small.
Qed.

Section Rollover.

Context {X : Type} (P : Platform X).

Hypothesis keeps_timer : keeps P (rd medium_loopTimer).

Lemma fast_tier_servo i (s : State X) :
  tally (Call_beq set_servos_4) (snd (fast_tier P i s)) = 1%nat.
Proof.
  unfold fast_tier. rewrite !snd_seq, !tally_app.
  repeat tstep. rewrite ?fst_seq.
  rewrite fast_loop_calls, !tally_app. mute.
  destruct (HIL_PROTOCOL_is_MAVLINK (cfg P)); reflexivity.
Qed.

Lemma medium_tier_link i (s : State X) :
  tally (Call_beq gcs_update) (snd (medium_tier P i s)) = 1%nat.
Proof.
  unfold medium_tier. rewrite !snd_seq, !tally_app.
  mute.
  unfold medium_loop. rewrite !snd_seq, !tally_app. mute. reflexivity.
Qed.

(** X12.  A poll of [loop()] enters the fast tier exactly when more than
    9 ms have passed since [fast_loopTimer], and the medium tier exactly
    when more than 19 ms have passed since [medium_loopTimer], the elapsed
    time being taken modulo 2^32: the test is on the unsigned difference,
    so it holds across the wrap of [millis()].  An entry of the fast tier
    writes the servos once, an entry of the medium tier kicks the ground
    station link once. *)
Theorem tiers_run_on_elapsed_time (s : State X) (i : Inputs) (df dm : Z) :
  0 <= df < 2 ^ 32 ->
  0 <= dm < 2 ^ 32 ->
  ms_fast_check (clock i) = u32 (rd fast_loopTimer s + df) ->
  ms_medium_check (clock i) = u32 (rd medium_loopTimer s + dm) ->
  fast_due i s = (9 <? df)
  /\ tally (Call_beq set_servos_4) (snd (loop P i s))
     = (if 9 <? df then 1%nat else 0%nat)
  /\ tally (Call_beq gcs_update) (snd (loop P i s))
     = (if 19 <? dm then 1%nat else 0%nat).
Proof.
  intros Hf Hm Ef Em.
  assert (Df : fast_due i s = (9 <? df)).
  { unfold fast_due. now rewrite Ef, u32_elapsed. }
  split; [exact Df|].
  unfold loop. rewrite !snd_seq, !tally_app.
  split.
  - mute. rewrite snd_when, Df.
    destruct (9 <? df); [|reflexivity].
    now rewrite fast_tier_servo.
  - mute. rewrite snd_when.
    assert (Dm : medium_due i (fst (when (fast_due i) (fast_tier P i) s))
                 = (19 <? dm)).
    { unfold medium_due. drop (@rd X medium_loopTimer).
      now rewrite Em, u32_elapsed. }
    rewrite Dm. destruct (19 <? dm); [|reflexivity].
    now rewrite medium_tier_link.
Qed.

End Rollover.

Lemma tiers_run_on_elapsed_time_witness :
  let s := wr medium_loopTimer 4294967290
             (wr fast_loopTimer 4294967290 Bench.power_on) in
  let i := Bench.poll_at 14 in
  fast_due i s = (9 <? 20)
  /\ tally (Call_beq set_servos_4) (snd (loop Bench.quiet i s))
     = (if 9 <? 20 then 1%nat else 0%nat)
  /\ tally (Call_beq gcs_update) (snd (loop Bench.quiet i s))
     = (if 19 <? 20 then 1%nat else 0%nat).
Proof.
  cbv zeta.
  apply (tiers_run_on_elapsed_time Bench.quiet (quiet_keeps _)).
  - lia.
  - lia.
  - reflexivity.
  - reflexivity.
Defined.

End CopterFacts.

(** ** Properties of the simulator bridge *)

Module XPlaneFacts.

Import XPlane.

(** *** Bits *)

Lemma bit_land_testbit (c mask : Z) :
  0 <= c -> Z.land (bit c) mask <> 0 -> Z.testbit mask c = true.
Proof.
  intros Hc Hne.
  destruct (Z.testbit mask c) eqn:E; [reflexivity|].
  exfalso. apply Hne. apply Z.bits_inj'. intros n Hn.
  rewrite Z.land_spec, Z.bits_0. unfold bit.
  rewrite Z.shiftl_spec by assumption.
  destruct (Z.eq_dec n c) as [->|Hnc].
  - rewrite E. apply andb_false_r.
  - destruct (Z.lt_ge_cases n c) as [Hlt|Hge].
    + rewrite (Z.testbit_neg_r 1 (n - c)) by lia. reflexivity.
    + replace (Z.testbit 1 (n - c)) with false; [reflexivity|].
      symmetry. change 1 with (2 ^ 0).
      apply Z.pow2_bits_false. lia.
Qed.

Lemma u64_lnot_testbit (m c : Z) :
  0 <= c < 64 -> Z.testbit (u64 (Z.lnot m)) c = negb (Z.testbit m c).
Proof.
  intros Hc. unfold u64, wrap_unsigned.
  rewrite Z.mod_pow2_bits_low by lia.
  apply Z.lnot_spec. lia.
Qed.

(** *** The scan of a mask *)

Lemma scan_spec mask n :
  forall i data,
    0 <= i ->
    exists found,
      scan n i mask data = data ++ found
      /\ (forall c, In c found ->
                    i <= c < i + Z.of_nat n /\ Z.testbit mask c = true)
      /\ NoDup found.
Proof.
  induction n as [|n IH]; intros i data Hi.
  - exists []. cbn [scan]. rewrite app_nil_r.
    split; [reflexivity|]. split; [intros c []|constructor].
  - cbn [scan]. destruct (Z.of_nat (length data) <? 8).
    + destruct (negb (Z.land (bit i) mask =? 0)) eqn:E.
      * destruct (IH (i + 1) (data ++ [i])) as (found & Hs & Hin & Hnd); [lia|].
        exists (i :: found). rewrite Hs, <- app_assoc. cbn [app].
        split; [reflexivity|]. split.
        -- intros c [<-|Hc].
           ++ split; [lia|]. apply bit_land_testbit; [assumption|].
              apply negb_true_iff in E. now apply Z.eqb_neq.
           ++ destruct (Hin c Hc). split; [lia|assumption].
        -- constructor; [|assumption].
           intros Hc. destruct (Hin i Hc). lia.
      * destruct (IH (i + 1) data) as (found & Hs & Hin & Hnd); [lia|].
        exists found. split; [assumption|]. split; [|assumption].
        intros c Hc. destruct (Hin c Hc). split; [lia|assumption].
    + exists []. rewrite app_nil_r.
      split; [reflexivity|]. split; [intros c []|constructor].
Qed.

Lemma deselected_app t1 t2 :
  deselected (t1 ++ t2) = deselected t1 ++ deselected t2.
Proof.
  induction t1 as [|o t1 IH]; [reflexivity|].
  destruct o as [w| |[|] n data|m]; cbn [app deselected]; rewrite IH;
    try reflexivity.
  now rewrite app_assoc.
Qed.

Lemma nonzero_app l1 l2 : nonzero (l1 ++ l2) = nonzero l1 ++ nonzero l2.
Proof. apply filter_app. Qed.

Lemma nonzero_slots codes : nonzero (slots codes) = nonzero codes.
Proof.
  unfold slots. rewrite nonzero_app.
  induction (8 - length codes)%nat as [|k IH]; [apply app_nil_r|exact IH].
Qed.

Lemma nonzero_In c l : In c (nonzero l) <-> In c l /\ c <> 0.
Proof.
  unfold nonzero. rewrite filter_In, negb_true_iff, Z.eqb_neq. reflexivity.
Qed.

Lemma scan_length mask n :
  forall i data,
    (length data <= 8)%nat -> (length (scan n i mask data) <= 8)%nat.
Proof.
  induction n as [|n IH]; intros i data Hl; [exact Hl|].
  cbn [scan]. destruct (Z.ltb_spec (Z.of_nat (length data)) 8) as [H|H].
  - apply IH. destruct (negb (Z.land (bit i) mask =? 0)); [|exact Hl].
    rewrite length_app. cbn [length]. lia.
  - exact Hl.
Qed.

(** The request built from the codes found by a scan. *)
Lemma request_padded m codes :
  (length codes <= 8)%nat ->
  Forall padded
    (if negb (length codes =? 0)%nat
     then [Send m (length codes) (slots codes)] else []).
Proof.
  intros Hl. destruct (length codes =? 0)%nat eqn:E; cbn [negb].
  - constructor.
  - apply Nat.eqb_neq in E. constructor; [|constructor].
    cbn [padded]. unfold slots.
    rewrite length_app, repeat_length, skipn_app, skipn_all, Nat.sub_diag.
    cbn [skipn app]. repeat split; lia || reflexivity.
Qed.

Section BridgeFacts.

Context {A L : Type} (M : Models A L).

Lemma deselects_nothing (b b' : Bridge A) t :
  unselected_mask b' = unselected_mask b ->
  deselected t = [] ->
  deselects_afresh b b' t.
Proof.
  intros Hm Ht. unfold deselects_afresh. rewrite Hm, Ht.
  split; [auto|]. split; [constructor|intros c []].
Qed.

Lemma deselects_then (b b1 b2 : Bridge A) t1 t2 :
  deselects_afresh b b1 t1 ->
  deselects_afresh b1 b2 t2 ->
  deselects_afresh b b2 (t1 ++ t2).
Proof.
  intros (M1 & N1 & F1) (M2 & N2 & F2).
  unfold deselects_afresh. rewrite deselected_app, nonzero_app.
  split; [auto|]. split.
  - apply NoDup_app; [assumption|assumption|].
    intros c H1 H2. destruct (F1 c H1) as (_ & Ht). destruct (F2 c H2) as (Hf & _).
    congruence.
  - intros c Hc. apply in_app_or in Hc. destruct Hc as [Hc|Hc].
    + destruct (F1 c Hc). auto.
    + destruct (F2 c Hc) as (Hf & Ht). split; [|assumption].
      destruct (Z.testbit (unselected_mask b) c) eqn:E; [|reflexivity].
      rewrite (M1 c E) in Hf. discriminate.
Qed.

Lemma select_data_afresh usel_mask sel_mask (b : Bridge A) :
  deselects_afresh b (fst (select_data usel_mask sel_mask b))
    (snd (select_data usel_mask sel_mask b)).
Proof.
  unfold select_data. cbv zeta. cbn [fst snd].
  set (fresh := Z.land usel_mask (u64 (Z.lnot (unselected_mask b)))).
  destruct (scan_spec fresh 64 0 []) as (found & Hs & Hin & Hnd); [lia|].
  cbn [app] in Hs. rewrite Hs.
  assert (Hd : nonzero
                 (deselected
                    ((if negb (length (scan 64 0 sel_mask []) =? 0)%nat
                      then [Send DSEL (length (scan 64 0 sel_mask []))
                              (slots (scan 64 0 sel_mask []))] else [])
                     ++ (if negb (length found =? 0)%nat
                         then [Send USEL (length found) (slots found)]
                         else [])))
               = nonzero found).
  { rewrite deselected_app.
    assert (Hf : nonzero
                   (deselected
                      (if negb (length found =? 0)%nat
                       then [Send USEL (length found) (slots found)] else []))
                 = nonzero found).
    { destruct (negb (length found =? 0)%nat) eqn:En.
      - cbn [deselected]. rewrite app_nil_r. apply nonzero_slots.
      - apply negb_false_iff, Nat.eqb_eq in En.
        destruct found; [reflexivity|discriminate]. }
    rewrite nonzero_app, Hf.
    destruct (negb (length (scan 64 0 sel_mask []) =? 0)%nat); reflexivity. }
  unfold deselects_afresh. rewrite Hd. cbn [unselected_mask set_unselected_mask].
  split; [|split].
  - intros c Hc. rewrite Z.lor_spec, Hc. reflexivity.
  - now apply NoDup_filter.
  - intros c Hc. apply nonzero_In in Hc. destruct Hc as (Hc & _).
    destruct (Hin c Hc) as (Hr & Hb).
    rewrite Z.lor_spec, Hb, orb_true_r.
    unfold fresh in Hb. rewrite Z.land_spec in Hb.
    apply andb_true_iff in Hb. destruct Hb as (_ & Hb).
    rewrite u64_lnot_testbit in Hb by lia.
    apply negb_true_iff in Hb. split; [assumption|reflexivity].
Qed.

Lemma select_data_padded usel_mask sel_mask (b : Bridge A) :
  Forall padded (snd (select_data usel_mask sel_mask b)).
Proof.
  unfold select_data. cbv zeta. cbn [snd].
  apply Forall_app. split; apply request_padded; apply scan_length;
    cbn [length]; lia.
Qed.

Lemma failed_afresh ms (b : Bridge A) :
  deselects_afresh b (snd (fst (failed M ms b))) (snd (failed M ms b)).
Proof.
  unfold failed. destruct (200 <? u32 (ms - last_data_time_ms b));
    apply deselects_nothing; reflexivity.
Qed.

Lemma failed_returns_false ms (b : Bridge A) :
  fst (fst (failed M ms b)) = false.
Proof.
  unfold failed. now destruct (200 <? u32 (ms - last_data_time_ms b)).
Qed.

Lemma receive_data_afresh i (b : Bridge A) :
  deselects_afresh b (snd (fst (receive_data M i b)))
    (snd (receive_data M i b)).
Proof.
  unfold receive_data. cbv zeta.
  destruct (malformed (rx_pkt i)).
  - pose proof (failed_afresh (rx_ms_failed i) b) as H.
    destruct (failed M (rx_ms_failed i) b) as [[r b'] t]. cbn [fst snd] in *.
    unfold deselects_afresh. cbn [deselected]. exact H.
  - set (b0 := fst (if connected b then (b, [])
                    else (set_connected true b, [Connect]))).
    set (t0 := snd (if connected b then (b, @nil Out)
                    else (set_connected true b, [Connect]))).
    assert (Hb0 : unselected_mask b0 = unselected_mask b)
      by (subst b0; destruct (connected b); reflexivity).
    assert (Ht0 : deselected t0 = [])
      by (subst t0; destruct (connected b); reflexivity).
    replace (if connected b then (b, @nil Out)
             else (set_connected true b, [Connect])) with (b0, t0)
      by (subst b0 t0; destruct (connected b); reflexivity).
    destruct (read_records M _ _ 0 (base b0, time_base_us b0, locals0 M))
      as [data_mask [[bs tb] locals]].
    set (b1 := set_time_base_us tb (set_base bs b0)).
    assert (Hb1 : unselected_mask b1 = unselected_mask b) by exact Hb0.
    match goal with
    | |- context [if ?c then _ else _] => destruct c
    end.
    + match goal with
      | |- context [select_data ?u ?s b1] =>
          pose proof (select_data_afresh u s b1) as Hsel;
          destruct (select_data u s b1) as [b2 t_sel]
      end.
      cbn [fst snd] in Hsel.
      pose proof (failed_afresh (rx_ms_failed i) b2) as Hf.
      destruct (failed M (rx_ms_failed i) b2) as [[r b3] t]. cbn [fst snd] in *.
      change (Recv ?w :: t0 ++ t_sel ++ t) with ([Recv w] ++ t0 ++ t_sel ++ t).
      apply (deselects_then b b b3); [now apply deselects_nothing|].
      apply (deselects_then b b b3); [now apply deselects_nothing|].
      apply (deselects_then b b2 b3); [|assumption].
      destruct Hsel as (S1 & S2 & S3). unfold deselects_afresh.
      rewrite <- Hb1. auto.
    + destruct (home_moved M locals _); cbn [fst snd];
        apply deselects_nothing;
        try (destruct ((last_data_time_ms _ <? rx_now i) && _); exact Hb0);
        cbn [deselected]; rewrite deselected_app, Ht0; reflexivity.
Qed.

Lemma failed_padded ms (b : Bridge A) :
  Forall padded (snd (failed M ms b)).
Proof.
  unfold failed. destruct (200 <? u32 (ms - last_data_time_ms b)); cbn [snd];
    repeat constructor.
Qed.

Lemma receive_data_padded i (b : Bridge A) :
  Forall padded (snd (receive_data M i b)).
Proof.
  unfold receive_data. cbv zeta.
  destruct (malformed (rx_pkt i)).
  - pose proof (failed_padded (rx_ms_failed i) b) as H.
    destruct (failed M (rx_ms_failed i) b) as [[r b'] t]. cbn [snd] in *.
    constructor; [exact I|exact H].
  - set (c := if connected b then (b, @nil Out)
              else (set_connected true b, [Connect])).
    assert (Hc : Forall padded (snd c))
      by (subst c; destruct (connected b); repeat constructor).
    destruct c as [b0 t0]. cbn [snd] in Hc.
    destruct (read_records M _ _ 0 (base b0, time_base_us b0, locals0 M))
      as [data_mask [[bs tb] locals]].
    match goal with
    | |- context [if ?c then _ else _] => destruct c
    end.
    + match goal with
      | |- context [select_data ?u ?s ?b1] =>
          pose proof (select_data_padded u s b1) as Hsel;
          destruct (select_data u s b1) as [b2 t_sel]
      end.
      pose proof (failed_padded (rx_ms_failed i) b2) as Hf.
      destruct (failed M (rx_ms_failed i) b2) as [[r b3] t]. cbn [snd] in *.
      constructor; [exact I|]. repeat (apply Forall_app; split); assumption.
    + destruct (home_moved M locals _); cbn [snd];
        (constructor; [exact I|]);
        repeat (apply Forall_app; split); try assumption;
        repeat constructor.
Qed.

Lemma step_afresh o (b : Bridge A) :
  deselects_afresh b (fst (step M o b)) (snd (step M o b)).
Proof.
  destruct o as [u s|i]; cbn [step].
  - apply select_data_afresh.
  - pose proof (receive_data_afresh i b) as H.
    destruct (receive_data M i b) as [[r b'] t]. exact H.
Qed.

Lemma step_padded o (b : Bridge A) : Forall padded (snd (step M o b)).
Proof.
  destruct o as [u s|i]; cbn [step].
  - apply select_data_padded.
  - pose proof (receive_data_padded i b) as H.
    destruct (receive_data M i b) as [[r b'] t]. exact H.
Qed.

Lemma run_afresh ops :
  forall b : Bridge A,
    deselects_afresh b (fst (run M ops b)) (snd (run M ops b)).
Proof.
  induction ops as [|o ops IH]; intros b.
  - cbn [run fst snd]. now apply deselects_nothing.
  - cbn [run].
    pose proof (step_afresh o b) as H1.
    destruct (step M o b) as [b1 t1]. cbn [fst snd] in H1.
    pose proof (IH b1) as H2.
    destruct (run M ops b1) as [b2 t2]. cbn [fst snd] in *.
    now apply (deselects_then b b1 b2).
Qed.

Lemma run_padded ops :
  forall b : Bridge A, Forall padded (snd (run M ops b)).
Proof.
  induction ops as [|o ops IH]; intros b.
  - constructor.
  - cbn [run].
    pose proof (step_padded o b) as H1.
    destruct (step M o b) as [b1 t1]. cbn [snd] in H1.
    pose proof (IH b1) as H2.
    destruct (run M ops b1) as [b2 t2]. cbn [snd] in *.
    apply Forall_app. now split.
Qed.

(** C10, what the code does.  Over any sequence of calls of [select_data]
    and [receive_data], the bits of [unselected_mask] are only ever set, and
    a code other than 0 goes out in the slots of the de-selection requests
    at most once, and only if it was not recorded in [unselected_mask]
    before, after which it is.  Code 0 is not covered: every request is
    sent with all of its eight slots, and the slots that the scan did not
    fill hold 0. *)
Theorem C10_nonzero_codes_deselected_at_most_once
    (ops : list Op) (b : Bridge A) :
  let b' := fst (run M ops b) in
  let t := snd (run M ops b) in
  (forall c, Z.testbit (unselected_mask b) c = true ->
             Z.testbit (unselected_mask b') c = true)
  /\ NoDup (nonzero (deselected t))
  /\ (forall c, c <> 0 -> In c (deselected t) ->
                Z.testbit (unselected_mask b) c = false
                /\ Z.testbit (unselected_mask b') c = true)
  /\ Forall padded t.
Proof.
  cbv zeta. destruct (run_afresh ops b) as (Hm & Hn & Hf).
  split; [exact Hm|]. split; [exact Hn|]. split.
  - intros c Hc Hin. apply Hf. apply nonzero_In. now split.
  - apply run_padded.
Qed.

End BridgeFacts.

(** C10 as the claim words it fails for code 0.  A request for code 0
    records it and sends it in all eight slots; the next request, for code
    1, sends code 0 again in its seven unfilled slots.  Two datagrams that
    bring, besides the required records, one of code 2 and then one of
    code 5 make the bridge send two requests whose slots hold code 0
    fourteen times, and code 0 is not recorded. *)
Lemma C10_code_zero_goes_out_with_every_request :
  let b1 := fst (select_data 1 0 BridgeBench.unconnected) in
  let t1 := snd (select_data 1 0 BridgeBench.unconnected) in
  let t2 := snd (select_data 2 0 b1) in
  let ops := [OpReceive (mkRx 10 (Some (BridgeBench.datagram [1; 3; 4; 2]))
                           10 10);
              OpReceive (mkRx 20 (Some (BridgeBench.datagram [1; 3; 4; 5]))
                           20 20)] in
  let b' := fst (run BridgeBench.idle ops BridgeBench.unconnected) in
  let t := snd (run BridgeBench.idle ops BridgeBench.unconnected) in
  (deselected t1 = [0; 0; 0; 0; 0; 0; 0; 0]
   /\ Z.testbit (unselected_mask b1) 0 = true
   /\ deselected t2 = [1; 0; 0; 0; 0; 0; 0; 0]
   /\ ~ NoDup (deselected (t1 ++ t2)))
  /\ (deselected t = [2; 0; 0; 0; 0; 0; 0; 0; 5; 0; 0; 0; 0; 0; 0; 0]
      /\ count_occ Z.eq_dec (deselected t) 0 = 14%nat
      /\ Z.testbit (unselected_mask b') 0 = false).
Proof.
  cbv zeta. split.
  - split; [reflexivity|]. split; [reflexivity|]. split; [reflexivity|].
    intros H. change (NoDup [0; 0; 0; 0; 0; 0; 0; 0; 1; 0; 0; 0; 0; 0; 0; 0]) in H.
    apply NoDup_cons_iff in H. destruct H as (H & _). apply H. now left.
  - vm_compute. repeat split.
Qed.

(** *** Malformed datagrams *)

Lemma bytes_eqb_eq (a b : list Z) : bytes_eqb a b = true <-> a = b.
Proof.
  unfold bytes_eqb. split.
  - revert b. induction a as [|x a IH]; intros [|y b] H; cbn in H;
      try discriminate; [reflexivity|].
    apply andb_true_iff in H. destruct H as (Hl & H).
    apply andb_true_iff in H. destruct H as (Hxy & Hf).
    apply Z.eqb_eq in Hxy. subst y. f_equal. apply IH. now rewrite Hl, Hf.
  - intros <-. induction a as [|x a IH]; [reflexivity|].
    cbn. apply andb_true_iff in IH. destruct IH as (Hl & Hf).
    now rewrite Hl, Z.eqb_refl, Hf.
Qed.

Lemma malformed_spec (pkt : list Z) :
  malformed (Some pkt) = true
  <-> (length pkt < 41)%nat \/ firstn 4 pkt <> DATA.
Proof.
  unfold malformed. cbn [pkt_length pkt_bytes].
  rewrite orb_true_iff, negb_true_iff, Z.ltb_lt.
  split; intros [H|H].
  - left. lia.
  - right. intros E. apply bytes_eqb_eq in E. congruence.
  - left. lia.
  - right. destruct (bytes_eqb (firstn 4 pkt) DATA) eqn:E; [|reflexivity].
    apply bytes_eqb_eq in E. contradiction.
Qed.

Section Dropouts.

Context {A L : Type} (M : Models A L).

(** C8.  A datagram shorter than 41 bytes, or one that does not begin with
    the bytes of "DATA", makes [receive_data] return false with the outcome
    of its failure path, which does not read the datagram: no record is
    decoded.  The sensors are extrapolated if and only if at most 200 ms
    have passed since the last good datagram; beyond that the bridge is
    left as it was. *)
Theorem C8_malformed_packet_is_dropped
    (i : Rx) (pkt : list Z) (b : Bridge A) :
  rx_pkt i = Some pkt ->
  (length pkt < 41)%nat \/ firstn 4 pkt <> DATA ->
  let elapsed := u32 (rx_ms_failed i - last_data_time_ms b) in
  let r := fst (fst (receive_data M i b)) in
  let b' := snd (fst (receive_data M i b)) in
  let t := snd (receive_data M i b) in
  r = false
  /\ (r, b') = fst (failed M (rx_ms_failed i) b)
  /\ (In (Did extrapolate_sensors) t <-> elapsed <= 200)
  /\ (200 < elapsed -> b' = b)
  /\ last_data_time_ms b' = last_data_time_ms b.
Proof.
  intros Hpkt Hbad. cbv zeta.
  apply malformed_spec in Hbad.
  unfold receive_data. cbv zeta. rewrite Hpkt, Hbad.
  unfold failed.
  destruct (200 <? u32 (rx_ms_failed i - last_data_time_ms b)) eqn:E;
    cbn [fst snd].
  - apply Z.ltb_lt in E. repeat split; try reflexivity.
    + intros [H|[]]. discriminate H.
    + intros H. lia.
  - apply Z.ltb_ge in E. repeat split; try reflexivity.
    + intros _. exact E.
    + intros _. right. left. reflexivity.
    + intros H. lia.
Qed.

End Dropouts.

Lemma C8_malformed_packet_is_dropped_witness :
  let i := mkRx 150 (Some [66; 65; 68; 33]) 150 150 in
  let b := BridgeBench.unconnected in
  let r := fst (fst (receive_data BridgeBench.idle i b)) in
  let b' := snd (fst (receive_data BridgeBench.idle i b)) in
  let t := snd (receive_data BridgeBench.idle i b) in
  r = false
  /\ (r, b') = fst (failed BridgeBench.idle 150 b)
  /\ (In (Did extrapolate_sensors) t <-> u32 (150 - 0) <= 200)
  /\ (200 < u32 (150 - 0) -> b' = b)
  /\ last_data_time_ms b' = last_data_time_ms b.
Proof.
  cbv zeta.
  apply (C8_malformed_packet_is_dropped BridgeBench.idle
           (mkRx 150 (Some [66; 65; 68; 33]) 150 150) [66; 65; 68; 33]
           BridgeBench.unconnected).
  - reflexivity.
  - left. cbn. lia.
Defined.

(** ** Further properties of the bridge *)

(** *** The requests of [select_data] *)

Lemma bit_test (i mask : Z) :
  0 <= i -> negb (Z.land (bit i) mask =? 0) = Z.testbit mask i.
Proof.
  intros Hi. destruct (Z.testbit mask i) eqn:E.
  - apply negb_true_iff, Z.eqb_neq. intros H0.
    assert (Hb : Z.testbit (Z.land (bit i) mask) i = true).
    { rewrite Z.land_spec, E. unfold bit.
      rewrite Z.shiftl_spec, Z.sub_diag by assumption. reflexivity. }
    rewrite H0, Z.bits_0 in Hb. discriminate.
  - apply negb_false_iff, Z.eqb_eq.
    destruct (Z.eq_dec (Z.land (bit i) mask) 0) as [H0|Hne]; [exact H0|].
    apply bit_land_testbit in Hne; [congruence|assumption].
Qed.

Lemma scan_filter mask n :
  forall (i : nat) data,
    scan n (Z.of_nat i) mask data
    = data ++ firstn (8 - length data)
                (filter (Z.testbit mask) (map Z.of_nat (List.seq i n))).
Proof.
  induction n as [|n IH]; intros i data.
  - cbn [scan List.seq map filter]. now rewrite firstn_nil, app_nil_r.
  - cbn [scan List.seq map filter].
    destruct (Z.ltb_spec (Z.of_nat (length data)) 8) as [Hl|Hl].
    + rewrite bit_test by lia.
      replace (Z.of_nat i + 1) with (Z.of_nat (S i)) by lia.
      destruct (Z.testbit mask (Z.of_nat i)).
      * rewrite IH, <- app_assoc, length_app. cbn [length app].
        replace (8 - length data)%nat with (S (8 - (length data + 1)))%nat
          by lia.
        reflexivity.
      * apply IH.
    + replace (8 - length data)%nat with 0%nat by lia.
      now rewrite firstn_O, app_nil_r.
Qed.

Lemma scan_from_start mask n :
  scan n 0 mask []
  = firstn 8 (filter (Z.testbit mask) (map Z.of_nat (List.seq 0 n))).
Proof. exact (scan_filter mask n 0 []). Qed.

Lemma scan_set_bits mask : scan 64 0 mask [] = firstn 8 (set_bits mask).
Proof. unfold set_bits. apply scan_from_start. Qed.

Lemma request_spec m codes :
  (if negb (length codes =? 0)%nat
   then [Send m (length codes) (slots codes)] else [])
  = request m codes.
Proof. now destruct codes. Qed.

Lemma set_bits_spec mask c :
  In c (set_bits mask) <-> 0 <= c < 64 /\ Z.testbit mask c = true.
Proof.
  unfold set_bits. rewrite filter_In, in_map_iff. split.
  - intros ((k & <- & Hk) & Ht). apply in_seq in Hk. split; [lia|exact Ht].
  - intros (Hc & Ht). split; [|exact Ht].
    exists (Z.to_nat c). split; [lia|]. apply in_seq. lia.
Qed.

Lemma filter_seq_sorted (f : Z -> bool) n :
  forall i, StronglySorted Z.lt (filter f (map Z.of_nat (List.seq i n))).
Proof.
  induction n as [|n IH]; intros i; cbn [List.seq map filter]; [constructor|].
  destruct (f (Z.of_nat i)); [|apply IH].
  constructor; [apply IH|].
  apply Forall_forall. intros c Hc.
  apply filter_In in Hc. destruct Hc as (Hc & _).
  apply in_map_iff in Hc. destruct Hc as (k & <- & Hk).
  apply in_seq in Hk. lia.
Qed.

Lemma set_bits_sorted mask : StronglySorted Z.lt (set_bits mask).
Proof. apply filter_seq_sorted. Qed.

Lemma scan_zero n : forall i data, scan n i 0 data = data.
Proof.
  induction n as [|n IH]; intros i data; [reflexivity|].
  cbn [scan]. rewrite Z.land_0_r. cbn [Z.eqb negb]. rewrite IH.
  now destruct (Z.of_nat (length data) <? 8).
Qed.

Lemma u64_lnot_high (m c : Z) : 64 <= c -> Z.testbit (u64 (Z.lnot m)) c = false.
Proof.
  intros Hc. unfold u64, wrap_unsigned. apply Z.mod_pow2_bits_high. lia.
Qed.

Lemma zero_bits (z : Z) : z = 0 <-> forall c, 0 <= c -> Z.testbit z c = false.
Proof.
  split.
  - intros -> c _. apply Z.bits_0.
  - intros H. apply Z.bits_inj'. intros c Hc. rewrite Z.bits_0. now apply H.
Qed.

Ltac bridge_cbn :=
  cbn [set_base set_time_base_us set_unselected_mask set_connected
       set_last_data_time_ms set_xplane_frame_time set_data_count
       set_frame_count did base time_base_us unselected_mask connected
       last_data_time_ms xplane_frame_time data_count frame_count fst snd].

Section Requests.

Context {A L : Type} (M : Models A L).

(** X13.  [select_data] sends at most two datagrams, the selection before
    the de-selection.  Each names the lowest eight codes of its mask, in
    ascending order, the mask of the de-selection being [usel_mask] without
    the codes recorded in [unselected_mask]; a mask without a code below 64
    sends nothing. *)
Theorem requests_name_the_eight_lowest_codes
    (usel_mask sel_mask : Z) (b : Bridge A) :
  let fresh := Z.land usel_mask (u64 (Z.lnot (unselected_mask b))) in
  snd (select_data usel_mask sel_mask b)
  = request DSEL (firstn 8 (set_bits sel_mask))
    ++ request USEL (firstn 8 (set_bits fresh))
  /\ (forall mask c,
        In c (set_bits mask) <-> 0 <= c < 64 /\ Z.testbit mask c = true)
  /\ (forall mask, StronglySorted Z.lt (set_bits mask)).
Proof.
  cbv zeta. split; [|split].
  - unfold select_data. cbv zeta. cbn [snd].
    now rewrite !scan_set_bits, !request_spec.
  - apply set_bits_spec.
  - apply set_bits_sorted.
Qed.

(** X14.  Asking again for the de-selection of codes that a call has just
    dealt with sends nothing and leaves the bridge as it is. *)
Theorem repeated_request_sends_nothing
    (usel_mask sel_mask : Z) (b : Bridge A) :
  let b1 := fst (select_data usel_mask sel_mask b) in
  select_data usel_mask 0 b1 = (b1, []).
Proof.
  cbv zeta. unfold select_data at 1. cbv zeta.
  set (b1 := fst (select_data usel_mask sel_mask b)).
  assert (U1 : unselected_mask b1
               = Z.lor (unselected_mask b)
                   (Z.land usel_mask (u64 (Z.lnot (unselected_mask b)))))
    by reflexivity.
  assert (F : Z.land usel_mask (u64 (Z.lnot (unselected_mask b1))) = 0).
  { apply zero_bits. intros c Hc. rewrite Z.land_spec.
    destruct (Z.lt_ge_cases c 64) as [Hlt|Hge].
    - rewrite u64_lnot_testbit, U1, Z.lor_spec, Z.land_spec by lia.
      rewrite u64_lnot_testbit by lia.
      destruct (Z.testbit usel_mask c), (Z.testbit (unselected_mask b) c);
        reflexivity.
    - rewrite u64_lnot_high by lia. apply andb_false_r. }
  rewrite F, !scan_zero, Z.lor_0_r. cbn [length Nat.eqb negb app].
  reflexivity.
Qed.

(** X15.  A call of [select_data] records every code of its mask in
    [unselected_mask], also the codes beyond the eighth, which its request
    has no slot for.  Such a code, if it is not 0, is in no slot of the
    request, and in no slot of any request that the bridge sends
    afterwards. *)
Theorem codes_left_out_are_never_deselected
    (usel_mask sel_mask : Z) (b : Bridge A) (c : Z) (ops : list Op) :
  let fresh := Z.land usel_mask (u64 (Z.lnot (unselected_mask b))) in
  let b1 := fst (select_data usel_mask sel_mask b) in
  c <> 0 ->
  In c (set_bits fresh) ->
  ~ In c (firstn 8 (set_bits fresh)) ->
  ~ In c (deselected (snd (select_data usel_mask sel_mask b)))
  /\ Z.testbit (unselected_mask b1) c = true
  /\ ~ In c (deselected (snd (run M ops b1))).
Proof.
  cbv zeta. intros H0 Hin Hout.
  apply set_bits_spec in Hin. destruct Hin as (Hc & Hb).
  assert (H1 : Z.testbit
                 (unselected_mask (fst (select_data usel_mask sel_mask b))) c
               = true).
  { unfold select_data. cbv zeta. bridge_cbn.
    now rewrite Z.lor_spec, Hb, orb_true_r. }
  split; [|split; [exact H1|]].
  - unfold select_data. cbv zeta. cbn [snd].
    rewrite !scan_set_bits, !request_spec, deselected_app.
    intros Hd. apply in_app_or in Hd. destruct Hd as [Hd|Hd].
    + destruct (firstn 8 (set_bits sel_mask)); exact Hd.
    + destruct (firstn 8 (set_bits _)) as [|x l] eqn:E in Hd; [exact Hd|].
      cbn [request deselected] in Hd. rewrite app_nil_r in Hd.
      unfold slots in Hd. apply in_app_or in Hd. destruct Hd as [Hd|Hd].
      * apply Hout. rewrite E. exact Hd.
      * apply repeat_spec in Hd. contradiction.
  - intros Hd.
    destruct (run_afresh M ops (fst (select_data usel_mask sel_mask b)))
      as (_ & _ & Hf).
    destruct (Hf c) as (Hf1 & _); [apply nonzero_In; now split|].
    congruence.
Qed.

End Requests.

Lemma codes_left_out_are_never_deselected_witness :
  let b := BridgeBench.unconnected in
  let ops := [OpSelect 1022 0;
              OpReceive (mkRx 10 (Some (BridgeBench.datagram [1; 3; 4; 9]))
                           10 10)] in
  let b1 := fst (select_data 1022 0 b) in
  ~ In 9 (deselected (snd (select_data 1022 0 b)))
  /\ Z.testbit (unselected_mask b1) 9 = true
  /\ ~ In 9 (deselected (snd (run BridgeBench.idle ops b1))).
Proof.
  cbv zeta.
  apply (codes_left_out_are_never_deselected BridgeBench.idle 1022 0
           BridgeBench.unconnected 9).
  - discriminate.
  - apply set_bits_spec. split; [lia|reflexivity].
  - vm_compute. intros H.
    repeat (destruct H as [H|H]; [discriminate H|]). exact H.
Defined.

(** *** Which datagrams are accepted *)

Lemma bit_testbit (c0 c : Z) :
  0 <= c -> Z.testbit (bit c0) c = (c =? c0).
Proof.
  intros Hc. unfold bit. rewrite Z.shiftl_spec by assumption.
  destruct (Z.eqb_spec c c0) as [->|Hne].
  - now rewrite Z.sub_diag.
  - destruct (Z.lt_ge_cases (c - c0) 0) as [Hlt|Hge].
    + now apply Z.testbit_neg_r.
    + change 1 with (2 ^ 0). apply Z.pow2_bits_false. lia.
Qed.

Lemma mask_of_testbit codes :
  forall m c,
    0 <= c ->
    Z.testbit (mask_of codes m) c
    = Z.testbit m c || (existsb (Z.eqb c) codes && (c <? 64)).
Proof.
  unfold mask_of.
  induction codes as [|c0 codes IH]; intros m c Hc; cbn [fold_left existsb].
  - now rewrite orb_false_r.
  - rewrite IH by assumption.
    destruct (Z.ltb_spec c0 64) as [H0|H0].
    + rewrite Z.lor_spec, bit_testbit by assumption.
      destruct (Z.eqb_spec c c0) as [->|Hne]; cbn [orb andb].
      * destruct (Z.ltb_spec c0 64); [|lia].
        now rewrite !orb_true_r.
      * now rewrite orb_false_r.
    + destruct (Z.eqb_spec c c0) as [->|Hne]; cbn [orb andb]; [|reflexivity].
      destruct (Z.ltb_spec c0 64); [lia|].
      now rewrite !andb_false_r.
Qed.

Lemma land_lnot_self (x : Z) : Z.land x (u64 (Z.lnot x)) = 0.
Proof.
  apply zero_bits. intros c Hc. rewrite Z.land_spec.
  destruct (Z.lt_ge_cases c 64) as [Hlt|Hge].
  - rewrite u64_lnot_testbit by lia. now destruct (Z.testbit x c).
  - rewrite u64_lnot_high by lia. apply andb_false_r.
Qed.

Section Accept.

Context {A L : Type} (M : Models A L).

Lemma read_records_mask n :
  forall p m st,
    fst (read_records M n p m st) = mask_of (record_codes n p) m.
Proof.
  induction n as [|n IH]; intros p m st; [reflexivity|].
  cbn [read_records record_codes]. rewrite IH. reflexivity.
Qed.

(** X16.  [receive_data] returns true exactly when the datagram is well
    formed, every required code is the code of one of its records, and
    every code below 64 among its records is required or has been
    de-selected before.  The records are the first [(len - 5) / 36] blocks
    of 36 bytes after the five-byte header. *)
Theorem datagram_is_accepted_iff (i : Rx) (b : Bridge A) :
  0 <= required_mask M < 2 ^ 64 ->
  let n := Z.to_nat ((pkt_length (rx_pkt i) - 5) / 36) in
  let codes := record_codes n (skipn 5 (pkt_bytes (rx_pkt i))) in
  fst (fst (receive_data M i b)) = true
  <-> malformed (rx_pkt i) = false
      /\ (forall c, Z.testbit (required_mask M) c = true -> In c codes)
      /\ (forall c, In c codes -> 0 <= c < 64 ->
                    Z.testbit (required_mask M) c = true
                    \/ Z.testbit (unselected_mask b) c = true).
Proof.
  intros HR. cbv zeta.
  set (codes := record_codes _ _).
  set (D := mask_of codes 0).
  assert (HD : forall c, 0 <= c ->
                 Z.testbit D c = true <-> In c codes /\ c < 64).
  { intros c Hc. unfold D. rewrite mask_of_testbit by assumption.
    rewrite Z.bits_0. cbn [orb]. rewrite andb_true_iff, Z.ltb_lt.
    rewrite existsb_exists. split.
    - intros ((x & Hx & E) & Hlt). apply Z.eqb_eq in E. subst x. now split.
    - intros (Hin & Hlt). split; [|exact Hlt]. exists c. split; [exact Hin|].
      apply Z.eqb_refl. }
  assert (HRhigh : forall c, 64 <= c -> Z.testbit (required_mask M) c = false).
  { intros c Hc. rewrite <- (Z.mod_small (required_mask M) (2 ^ 64)) by exact HR.
    apply Z.mod_pow2_bits_high. lia. }
  assert (HRlow : forall c, c < 0 -> Z.testbit (required_mask M) c = false)
    by (intros c Hc; now apply Z.testbit_neg_r).
  set (sel := Z.land (required_mask M) (u64 (Z.lnot D))).
  set (usel := Z.land (Z.land D (u64 (Z.lnot (required_mask M))))
                 (u64 (Z.lnot (unselected_mask b)))).
  assert (Hsel : sel = 0
                 <-> forall c, Z.testbit (required_mask M) c = true ->
                               In c codes).
  { unfold sel. rewrite zero_bits. split.
    - intros H c Hc.
      destruct (Z.lt_ge_cases c 0) as [Hn|Hn];
        [rewrite HRlow in Hc by assumption; discriminate|].
      destruct (Z.lt_ge_cases c 64) as [Hlt|Hge];
        [|rewrite HRhigh in Hc by assumption; discriminate].
      specialize (H c Hn). rewrite Z.land_spec, Hc, u64_lnot_testbit in H by lia.
      cbn [andb] in H. apply negb_false_iff in H. now apply HD in H.
    - intros H c Hc. rewrite Z.land_spec.
      destruct (Z.testbit (required_mask M) c) eqn:E; [|reflexivity].
      destruct (Z.lt_ge_cases c 64) as [Hlt|Hge];
        [|rewrite HRhigh in E by assumption; discriminate].
      rewrite u64_lnot_testbit by lia. cbn [andb]. apply negb_false_iff.
      apply HD; [assumption|]. split; [now apply H|assumption]. }
  assert (Husel : usel = 0
                  <-> forall c, In c codes -> 0 <= c < 64 ->
                                Z.testbit (required_mask M) c = true
                                \/ Z.testbit (unselected_mask b) c = true).
  { unfold usel. rewrite zero_bits. split.
    - intros H c Hin Hc. specialize (H c (proj1 Hc)).
      rewrite !Z.land_spec, !u64_lnot_testbit in H by lia.
      assert (Hd : Z.testbit D c = true) by (apply HD; [lia|split; [assumption|lia]]).
      rewrite Hd in H. cbn [andb] in H.
      destruct (Z.testbit (required_mask M) c); [now left|].
      destruct (Z.testbit (unselected_mask b) c); [now right|discriminate].
    - intros H c Hc. rewrite !Z.land_spec.
      destruct (Z.lt_ge_cases c 64) as [Hlt|Hge].
      + rewrite !u64_lnot_testbit by lia.
        destruct (Z.testbit D c) eqn:Ed; [|reflexivity].
        apply HD in Ed; [|assumption]. destruct Ed as (Hin & _).
        destruct (H c Hin) as [E|E]; [lia| |]; rewrite E; cbn [negb andb];
          [reflexivity|apply andb_false_r].
      + rewrite (u64_lnot_high (unselected_mask b)) by lia.
        apply andb_false_r. }
  unfold receive_data. cbv zeta.
  destruct (malformed (rx_pkt i)) eqn:Em.
  - pose proof (failed_returns_false M (rx_ms_failed i) b) as Hf.
    destruct (failed M (rx_ms_failed i) b) as [[r b'] t]. cbn [fst] in *.
    rewrite Hf. split; [discriminate|]. intros (H & _). discriminate.
  - set (c0 := if connected b then (b, @nil Out)
               else (set_connected true b, [Connect])).
    assert (Hc0 : unselected_mask (fst c0) = unselected_mask b)
      by (subst c0; now destruct (connected b)).
    destruct c0 as [b0 t0]. cbn [fst] in Hc0.
    pose proof (read_records_mask
                  (Z.to_nat ((pkt_length (rx_pkt i) - 5) / 36))
                  (skipn 5 (pkt_bytes (rx_pkt i))) 0
                  (base b0, time_base_us b0, locals0 M)) as Hm.
    fold codes in Hm. fold D in Hm.
    destruct (read_records M _ _ 0 (base b0, time_base_us b0, locals0 M))
      as [data_mask [[bs tb] locals]].
    cbn [fst] in Hm. subst data_mask.
    bridge_cbn. rewrite Hc0. fold sel. fold usel.
    destruct (negb (D =? required_mask M)
              && (negb (usel =? 0) || negb (sel =? 0))) eqn:Ec.
    + match goal with
      | |- context [select_data ?u ?s ?b1] =>
          destruct (select_data u s b1) as [b2 t_sel]
      end.
      pose proof (failed_returns_false M (rx_ms_failed i) b2) as Hf.
      destruct (failed M (rx_ms_failed i) b2) as [[r b3] t]. cbn [fst] in *.
      rewrite Hf. split; [discriminate|]. intros (_ & H1 & H2).
      apply Hsel in H1. apply Husel in H2. rewrite H1, H2 in Ec.
      cbn [Z.eqb negb orb] in Ec. rewrite andb_false_r in Ec. discriminate.
    + assert (Hz : usel = 0 /\ sel = 0).
      { apply andb_false_iff in Ec. destruct Ec as [Ec|Ec].
        - apply negb_false_iff, Z.eqb_eq in Ec.
          unfold usel, sel. rewrite <- Ec, !land_lnot_self. now split.
        - apply orb_false_iff in Ec. destruct Ec as (E1 & E2).
          apply negb_false_iff, Z.eqb_eq in E1.
          apply negb_false_iff, Z.eqb_eq in E2. now split. }
      destruct Hz as (Hu & Hs).
      split.
      * intros _. split; [reflexivity|]. split; [now apply Hsel|now apply Husel].
      * intros _. destruct (home_moved M locals _); reflexivity.
Qed.

End Accept.

Lemma datagram_is_accepted_iff_witness :
  let i := mkRx 10 (Some (BridgeBench.datagram [1; 3; 4])) 10 10 in
  let b := BridgeBench.unconnected in
  let n := Z.to_nat ((pkt_length (rx_pkt i) - 5) / 36) in
  let codes := record_codes n (skipn 5 (pkt_bytes (rx_pkt i))) in
  fst (fst (receive_data BridgeBench.idle i b)) = true
  <-> malformed (rx_pkt i) = false
      /\ (forall c, Z.testbit (required_mask BridgeBench.idle) c = true ->
                    In c codes)
      /\ (forall c, In c codes -> 0 <= c < 64 ->
                    Z.testbit (required_mask BridgeBench.idle) c = true
                    \/ Z.testbit (unselected_mask b) c = true).
Proof.
  cbv zeta.
  apply (datagram_is_accepted_iff BridgeBench.idle).
  vm_compute. split; [discriminate|reflexivity].
Defined.

(** *** Connection, frame time and counters *)

Section Fields.

Context {A L : Type} (M : Models A L).

Lemma select_data_same u s (b : Bridge A) :
  let b' := fst (select_data u s b) in
  connected b' = connected b
  /\ xplane_frame_time b' = xplane_frame_time b
  /\ frame_count b' = frame_count b
  /\ data_count b' = data_count b
  /\ tally is_connect (snd (select_data u s b)) = 0%nat.
Proof.
  unfold select_data. cbv zeta. bridge_cbn.
  repeat split.
  destruct (negb (length (scan 64 0 s []) =? 0)%nat);
    destruct (negb (length (scan 64 0 _ []) =? 0)%nat); reflexivity.
Qed.

Lemma failed_same ms (b : Bridge A) :
  let b' := snd (fst (failed M ms b)) in
  connected b' = connected b
  /\ xplane_frame_time b' = xplane_frame_time b
  /\ (frame_count b' = frame_count b
      \/ frame_count b' = u32 (frame_count b + 1))
  /\ data_count b' = data_count b
  /\ tally is_connect (snd (failed M ms b)) = 0%nat.
Proof.
  unfold failed.
  destruct (200 <? u32 (ms - last_data_time_ms b)); bridge_cbn;
    repeat split; auto.
Qed.

Lemma select_data_steps u s (b : Bridge A) :
  steps_to b (fst (select_data u s b)) (snd (select_data u s b)).
Proof.
  destruct (select_data_same u s b) as (C & X & F & D & T).
  unfold steps_to. rewrite C, X, F, D, T.
  split; [auto|]. split; [now destruct (connected b)|].
  split; [now left|]. left. now split.
Qed.

Lemma receive_data_steps i (b : Bridge A) :
  steps_to b (snd (fst (receive_data M i b))) (snd (receive_data M i b)).
Proof.
  unfold receive_data. cbv zeta.
  destruct (malformed (rx_pkt i)).
  - destruct (failed_same (rx_ms_failed i) b) as (C & X & F & D & T).
    destruct (failed M (rx_ms_failed i) b) as [[r b'] t].
    cbn [fst snd] in *. unfold steps_to.
    change (tally is_connect (Recv ?w :: t)) with (tally is_connect t).
    rewrite C, X, D, T.
    split; [auto|]. split; [now destruct (connected b)|].
    split; [now left|]. destruct F as [F|F]; rewrite F; auto.
  - set (c := if connected b then (b, @nil Out)
              else (set_connected true b, [Connect])).
    assert (Hc : connected (fst c) = true
                 /\ xplane_frame_time (fst c) = xplane_frame_time b
                 /\ frame_count (fst c) = frame_count b
                 /\ data_count (fst c) = data_count b
                 /\ last_data_time_ms (fst c) = last_data_time_ms b
                 /\ tally is_connect (snd c)
                    = (if connected b then 0%nat else 1%nat))
      by (subst c; destruct (connected b) eqn:E; repeat split; exact E).
    destruct c as [b0 t0]. cbn [fst snd] in Hc.
    destruct Hc as (C0 & X0 & F0 & D0 & L0 & T0).
    destruct (read_records M _ _ 0 (base b0, time_base_us b0, locals0 M))
      as [data_mask [[bs tb] locals]].
    match goal with
    | |- context [if ?c then _ else _] => destruct c
    end.
    + match goal with
      | |- context [select_data ?u ?s ?b1] =>
          destruct (select_data_same u s b1) as (C1 & X1 & F1 & D1 & T1);
          destruct (select_data u s b1) as [b2 t_sel]
      end.
      destruct (failed_same (rx_ms_failed i) b2) as (C2 & X2 & F2 & D2 & T2).
      destruct (failed M (rx_ms_failed i) b2) as [[r b3] t].
      cbn [fst snd] in *. revert C1 X1 F1 D1. bridge_cbn. intros C1 X1 F1 D1.
      unfold steps_to.
      change (tally is_connect (Recv ?w :: ?l)) with (tally is_connect l).
      rewrite !CopterFacts.tally_app, T0, T1, T2, C2, C1, C0, X2, X1, X0, D2, D1, D0.
      split; [auto|]. split; [now destruct (connected b)|].
      split; [now left|].
      destruct F2 as [F2|F2]; rewrite F2, F1, F0; auto.
    + unfold steps_to.
      destruct (home_moved M locals _);
        destruct ((last_data_time_ms _ <? rx_now i) && _) eqn:Et;
        bridge_cbn;
        change (tally is_connect (Recv ?w :: ?l)) with (tally is_connect l);
        rewrite ?CopterFacts.tally_app, ?T0, ?C0, ?X0, ?F0, ?D0, ?L0.
      all: split; [auto|]; split; [now destruct (connected b)|].
      all: split; [|right; split; [reflexivity|now right]].
      all: try (now left).
      all: right; apply andb_true_iff in Et; destruct Et as (_ & Et);
        revert Et; bridge_cbn; rewrite ?L0; intros Et;
        apply Z.ltb_lt in Et; split; [|exact Et];
        unfold u32, wrap_unsigned; apply Z.mod_pos_bound; lia.
Qed.

Lemma step_steps o (b : Bridge A) :
  steps_to b (fst (step M o b)) (snd (step M o b)).
Proof.
  destruct o as [u s|i]; cbn [step].
  - apply select_data_steps.
  - pose proof (receive_data_steps i b) as H.
    destruct (receive_data M i b) as [[r b'] t]. exact H.
Qed.

Lemma run_cons o ops (b : Bridge A) :
  fst (run M (o :: ops) b) = fst (run M ops (fst (step M o b)))
  /\ snd (run M (o :: ops) b)
     = snd (step M o b) ++ snd (run M ops (fst (step M o b))).
Proof.
  cbn [run]. destruct (step M o b) as [b1 t1]. cbn [fst snd].
  now destruct (run M ops b1).
Qed.

(** X17.  The frame time that [receive_data] measures is only ever set to
    a value below 100 ms: over any sequence of calls [xplane_frame_time]
    stays within 0..99 if it starts there. *)
Theorem frame_time_stays_below_100 (ops : list Op) (b : Bridge A) :
  0 <= xplane_frame_time b < 100 ->
  0 <= xplane_frame_time (fst (run M ops b)) < 100.
Proof.
  revert b. induction ops as [|o ops IH]; intros b Hb; [exact Hb|].
  destruct (run_cons o ops b) as (-> & _). apply IH.
  destruct (step_steps o b) as (_ & _ & [X|X] & _); [now rewrite X|exact X].
Qed.

(** X18.  Over any sequence of calls the bridge connects its output socket
    at most once: a bridge that is connected stays connected and does not
    connect again, and one that is not connects exactly once if it ends
    connected. *)
Theorem bridge_connects_at_most_once (ops : list Op) (b : Bridge A) :
  let b' := fst (run M ops b) in
  let t := snd (run M ops b) in
  (connected b = true -> connected b' = true)
  /\ tally is_connect t
     = (if negb (connected b) && connected b' then 1%nat else 0%nat).
Proof.
  cbv zeta. revert b. induction ops as [|o ops IH]; intros b.
  - cbn [run fst snd]. split; [auto|]. now destruct (connected b).
  - destruct (run_cons o ops b) as (-> & ->).
    destruct (step_steps o b) as (C1 & T1 & _).
    destruct (IH (fst (step M o b))) as (C2 & T2).
    rewrite CopterFacts.tally_app, T1, T2. split; [auto|].
    destruct (connected b); destruct (connected (fst (step M o b)));
      destruct (connected (fst (run M ops (fst (step M o b)))));
      try reflexivity;
      try (specialize (C1 eq_refl); discriminate);
      specialize (C2 eq_refl); discriminate.
Qed.

(** X19.  The count of data frames never exceeds the count of frames:
    every call that counts a data frame counts a frame as well.  Over a
    sequence of calls too short to wrap the 32-bit frame counter,
    [data_count <= frame_count] is kept, and the frame counter grows by at
    most one per call. *)
Theorem data_frames_never_outnumber_frames (ops : list Op) (b : Bridge A) :
  0 <= data_count b <= frame_count b ->
  frame_count b + Z.of_nat (length ops) < 2 ^ 32 ->
  let b' := fst (run M ops b) in
  0 <= data_count b' <= frame_count b'
  /\ frame_count b' <= frame_count b + Z.of_nat (length ops).
Proof.
  cbv zeta. revert b. induction ops as [|o ops IH]; intros b Hb Hn.
  - cbn [run fst length Z.of_nat]. lia.
  - destruct (run_cons o ops b) as (-> & _).
    cbn [length] in Hn. rewrite Nat2Z.inj_succ in Hn.
    assert (U : forall x, 0 <= x -> x + 1 < 2 ^ 32 -> u32 (x + 1) = x + 1)
      by (intros x H0 H1; unfold u32, wrap_unsigned; apply Z.mod_small; lia).
    destruct (step_steps o b) as (_ & _ & _ & [(F & D)|(F & [D|D])]).
    + destruct (IH (fst (step M o b))) as (H1 & H2); [lia|lia|].
      cbn [length]. rewrite Nat2Z.inj_succ. lia.
    + rewrite U in F by lia.
      destruct (IH (fst (step M o b))) as (H1 & H2); [lia|lia|].
      cbn [length]. rewrite Nat2Z.inj_succ. lia.
    + rewrite U in F by lia. rewrite U in D by lia.
      destruct (IH (fst (step M o b))) as (H1 & H2); [lia|lia|].
      cbn [length]. rewrite Nat2Z.inj_succ. lia.
Qed.

End Fields.

Lemma frame_time_stays_below_100_witness :
  let ops := [OpReceive (mkRx 10 (Some (BridgeBench.datagram [1; 3; 4]))
                           10 10);
              OpReceive (mkRx 30 (Some (BridgeBench.datagram [1; 3; 4]))
                           30 30)] in
  0 <= xplane_frame_time
         (fst (run BridgeBench.idle ops BridgeBench.unconnected)) < 100.
Proof.
  cbv zeta.
  apply (frame_time_stays_below_100 BridgeBench.idle).
  vm_compute. split; [discriminate|reflexivity].
Defined.

Lemma data_frames_never_outnumber_frames_witness :
  let ops := [OpReceive (mkRx 10 (Some (BridgeBench.datagram [1; 3; 4]))
                           10 10);
              OpReceive (mkRx 30 None 30 30)] in
  let b := BridgeBench.unconnected in
  let b' := fst (run BridgeBench.idle ops b) in
  0 <= data_count b' <= frame_count b'
  /\ frame_count b' <= frame_count b + Z.of_nat (length ops).
Proof.
  cbv zeta.
  apply (data_frames_never_outnumber_frames BridgeBench.idle).
  - vm_compute. split; discriminate.
  - vm_compute. reflexivity.
Defined.

End XPlaneFacts.
